(** * gns3-server: VPCS module and Hyper-V GNS3 VM controller

    A shallow embedding of

    - [gns3server/controller/gns3vm/hyperv_gns3_vm.py] (module [HyperV]) and
    - [gns3server/modules/vpcs/__init__.py]            (module [Vpcs]),

    followed by the properties established about them.  Python objects are
    records, dictionaries are association lists (requests, whose iteration
    order is observable) or finite maps (registries), exceptions are an
    explicit [result] type, and everything the code asks of the operating
    system or of WMI is an explicit oracle of the environment. *)

From Stdlib Require Import ZArith Ascii String List Lia Bool.
From stdpp Require Import base option list gmap strings pretty.

#[local] Set Warnings "-register-all".
Local Open Scope string_scope.
Local Open Scope Z_scope.

(** ** Python values, messages and exceptions *)

Module Py.

(** JSON-like values carried by requests and stored in attributes. *)
Inductive value : Type :=
| VNone
| VBool (b : bool)
| VInt (z : Z)
| VStr (s : string)
| VDict (d : list (string * value)).

(** A message built by [template.format(args)] is kept symbolic: the template
    and its arguments, in order. *)
Inductive text : Type :=
| Lit (s : string)
| OfValue (v : value)
| Fmt (template : string) (args : list text).

Inductive exn : Type :=
| GNS3VMError (msg : text)
| VPCSError (msg : text)
| KeyError (key : string)
| TypeError
| AttributeError (attr : string)
| OSError (msg : text)
| StructError
| Exception_ (msg : text).

(** [str(e)] for the exceptions above. *)
Definition str_exn (e : exn) : text :=
  match e with
  | GNS3VMError m | VPCSError m | OSError m | Exception_ m => m
  | KeyError k => Lit k
  | AttributeError a => Lit a
  | TypeError => Lit "TypeError"
  | StructError => Lit "struct.error"
  end.

Inductive result (A : Type) : Type :=
| Return (a : A)
| Raise (e : exn).
Arguments Return {A} a.
Arguments Raise {A} e.

End Py.
Import Py.

(** ** hyperv_gns3_vm.py *)

Module HyperV.

Definition _HYPERV_VM_STATE_ENABLED : Z := 2.
Definition _HYPERV_VM_STATE_DISABLED : Z := 3.
Definition _HYPERV_VM_STATE_PAUSED : Z := 9.

Definition _WMI_JOB_STATUS_STARTED : Z := 4096.
Definition _WMI_JOB_STATE_RUNNING : Z := 4.
Definition _WMI_JOB_STATE_COMPLETED : Z := 7.

(** WMI objects, as far as the controller reads them. *)
Record Msvm_ComputerSystem : Type := {
  ElementName : string;
  Caption : string;
  EnabledState : Z;
}.

Record Msvm_ConcreteJob : Type := {
  JobState : Z;
  ErrorSummaryDescription : string;
}.

(** The connection returned by [wmi.WMI(namespace=r"root\virtualization\v2")]:
    the management services and the computer systems it enumerates. *)
Record Connection : Type := {
  Msvm_VirtualSystemManagementService : list string;
  computer_systems : list Msvm_ComputerSystem;
}.

(** The host and the hypervisor, as oracles. *)
Record Backend : Type := {
  platform : string;
  windows_major : Z;
  Manufacturer : string;
  HypervisorPresent : bool;
  VirtualizationFirmwareEnabled : bool;
  (* wmi.WMI(namespace=...): None when x_wmi is raised *)
  virtualization_v2 : option Connection;
  (* psutil.cpu_count(logical=False) *)
  cpu_count : Z;
  (* the exception, if any, raised while the settings are modified *)
  modify_failure : Msvm_ComputerSystem -> Z -> Z -> option text;
  (* vm.RequestStateChange(state) = (job_path, ret) *)
  RequestStateChange : Msvm_ComputerSystem -> Z -> string * Z;
  (* wmi.WMI(moniker=path): the snapshot handed out by the n-th fetch *)
  moniker : string -> nat -> Msvm_ConcreteJob;
}.

(** What a run leaves behind outside the controller object. *)
Record IO : Type := {
  wmi_reads : nat;                 (* calls of _get_wmi_obj so far *)
  sleeps : list Z;                 (* asyncio.sleep arguments, in milliseconds *)
  state_requests : list Z;         (* states passed to RequestStateChange *)
  resources : option (Z * Z);      (* last (vcpus, ram) written *)
}.

Definition io0 : IO :=
  {| wmi_reads := 0; sleeps := []; state_requests := []; resources := None |}.

Record HyperVGNS3VM : Type := {
  _engine : string;
  vmname : string;
  vcpus : Z;
  ram : Z;
  running : bool;
  _conn : option Connection;
  _vm : option Msvm_ComputerSystem;
  _management : option string;
}.

Definition set_running (b : bool) (self : HyperVGNS3VM) : HyperVGNS3VM :=
  {| _engine := _engine self; vmname := vmname self; vcpus := vcpus self;
     ram := ram self; running := b; _conn := _conn self; _vm := _vm self;
     _management := _management self |}.

(** [__init__], given what the base class reads from the controller. *)
Definition __init__ (name : string) (cpus mem : Z) : HyperVGNS3VM :=
  {| _engine := "hyper-v"; vmname := name; vcpus := cpus; ram := mem;
     running := false; _conn := None; _vm := None; _management := None |}.

Definition startswith (p s : string) : bool := String.prefix p s.

Definition _check_requirements (b : Backend) : result unit :=
  if negb (startswith "win" (platform b)) || (windows_major b <? 10) then
    Raise (GNS3VMError (Lit "Hyper-V nested virtualization is only supported on Windows 10 and Windows Server 2016 or later"))
  else if negb (String.eqb (Manufacturer b) "GenuineIntel") then
    Raise (GNS3VMError (Lit "An Intel processor is required by Hyper-V to support nested virtualization"))
  else if negb (HypervisorPresent b) then
    Raise (GNS3VMError (Lit "Hyper-V is not installed"))
  else if negb (VirtualizationFirmwareEnabled b) then
    Raise (GNS3VMError (Lit "Nested Virtualization (VT-x) is not enabled on this system"))
  else Return tt.

(** [self._conn.Msvm_ComputerSystem(ElementName=vm_name)]: the computer
    systems whose display name is [vm_name]. *)
Definition Msvm_ComputerSystem_named (conn : Connection) (vm_name : string)
  : list Msvm_ComputerSystem :=
  List.filter (fun vm => String.eqb (ElementName vm) vm_name) (computer_systems conn).

Definition _find_vm (conn : Connection) (vm_name : string)
  : result (option Msvm_ComputerSystem) :=
  let vms := Msvm_ComputerSystem_named conn vm_name in
  let nb_vms := Z.of_nat (List.length vms) in
  if nb_vms =? 0 then Return None
  else if nb_vms >? 1 then
    Raise (GNS3VMError (Fmt "Duplicate VM name found for {}" [Lit vm_name]))
  else
    match vms with
    | vm :: _ => Return (Some vm)
    | [] => Raise (Exception_ (Lit "IndexError"))
    end.

Definition _connect (b : Backend) (self : HyperVGNS3VM)
  : result unit * HyperVGNS3VM :=
  match _check_requirements b with
  | Raise e => (Raise e, self)
  | Return _ =>
    (* on x_wmi the message is printed and self._conn keeps its value *)
    let conn := match virtualization_v2 b with Some c => Some c | None => _conn self end in
    let self1 :=
      {| _engine := _engine self; vmname := vmname self; vcpus := vcpus self;
         ram := ram self; running := running self; _conn := conn;
         _vm := _vm self; _management := _management self |} in
    match conn with
    | None => (Raise (AttributeError "Msvm_VirtualSystemManagementService"), self1)
    | Some c =>
      match Msvm_VirtualSystemManagementService c with
      | [] => (Raise (GNS3VMError (Lit "The Windows account running GNS3 does not have the required permissions for Hyper-V")), self1)
      | m :: _ =>
        let self2 :=
          {| _engine := _engine self; vmname := vmname self; vcpus := vcpus self;
             ram := ram self; running := running self; _conn := conn;
             _vm := _vm self; _management := Some m |} in
        match _find_vm c (vmname self) with
        | Raise e => (Raise e, self2)
        | Return vm =>
          (Return tt,
           {| _engine := _engine self; vmname := vmname self; vcpus := vcpus self;
              ram := ram self; running := running self; _conn := conn;
              _vm := vm; _management := Some m |})
        end
      end
    end
  end.

Definition _is_running (self : HyperVGNS3VM) : bool :=
  match _vm self with
  | Some vm => EnabledState vm =? _HYPERV_VM_STATE_ENABLED
  | None => false
  end.

Definition _set_vcpus_ram (b : Backend) (self : HyperVGNS3VM) (cpus mem : Z) (io : IO)
  : result unit * IO :=
  let available_vcpus := cpu_count b in
  if cpus >? available_vcpus then
    (Raise (GNS3VMError (Fmt "You have allocated too many vCPUs for the GNS3 VM! (max available is {} vCPUs)"
                             [OfValue (VInt available_vcpus)])), io)
  else
    let failed e :=
      Raise (GNS3VMError (Fmt "Could not set to {} and RAM amount set to {}: {}"
                              [OfValue (VInt cpus); OfValue (VInt mem); e])) in
    match _vm self with
    | None => (failed (Lit "'NoneType' object has no attribute 'associators'"), io)
    | Some vm =>
      match modify_failure b vm cpus mem with
      | Some e => (failed e, io)
      | None =>
        (Return tt,
         {| wmi_reads := wmi_reads io; sleeps := sleeps io;
            state_requests := state_requests io; resources := Some (cpus, mem) |})
      end
    end.


(** [path.replace('\\', '/')] *)
Fixpoint replace_backslash (s : string) : string :=
  match s with
  | EmptyString => EmptyString
  | String c rest =>
    String (if Ascii.eqb c "\"%char then "/"%char else c) (replace_backslash rest)
  end.

(** [_get_wmi_obj]: one status read. *)
Definition _get_wmi_obj (b : Backend) (path : string) (io : IO) : Msvm_ConcreteJob * IO :=
  (moniker b (replace_backslash path) (wmi_reads io),
   {| wmi_reads := S (wmi_reads io); sleeps := sleeps io;
      state_requests := state_requests io; resources := resources io |}).

(** [asyncio.sleep(0.1)], recorded in milliseconds. *)
Definition POLL_DELAY_MS : Z := 100.

Definition sleep (ms : Z) (io : IO) : IO :=
  {| wmi_reads := wmi_reads io; sleeps := sleeps io ++ [ms];
     state_requests := state_requests io; resources := resources io |}.

(** The [while job.JobState == RUNNING] loop.  The source loop has no bound;
    [fuel] bounds the number of iterations and [None] means it was used up
    with the job still running. *)
Fixpoint wait_job (fuel : nat) (b : Backend) (job_path : string)
    (job : Msvm_ConcreteJob) (io : IO) : option (Msvm_ConcreteJob * IO) :=
  if JobState job =? _WMI_JOB_STATE_RUNNING then
    match fuel with
    | O => None
    | S fuel' =>
      let io1 := sleep POLL_DELAY_MS io in
      let '(job', io2) := _get_wmi_obj b job_path io1 in
      wait_job fuel' b job_path job' io2
    end
  else Some (job, io).

Definition _set_state (fuel : nat) (b : Backend) (self : HyperVGNS3VM) (state : Z) (io : IO)
  : option (result unit * IO) :=
  match _vm self with
  | None => Some (Raise (AttributeError "RequestStateChange"), io)
  | Some vm =>
    let '(job_path, ret) := RequestStateChange b vm state in
    let io1 :=
      {| wmi_reads := wmi_reads io; sleeps := sleeps io;
         state_requests := state_requests io ++ [state]; resources := resources io |} in
    if ret =? _WMI_JOB_STATUS_STARTED then
      let '(job, io2) := _get_wmi_obj b job_path io1 in
      match wait_job fuel b job_path job io2 with
      | None => None
      | Some (job', io3) =>
        if negb (JobState job' =? _WMI_JOB_STATE_COMPLETED) then
          Some (Raise (GNS3VMError (Fmt "Error while changing state: {}"
                                        [Lit (ErrorSummaryDescription job')])), io3)
        else Some (Return tt, io3)
      end
    else if negb (ret =? 0) || negb (ret =? 32775) then
      Some (Raise (GNS3VMError (Fmt "Failed to change state to {}" [OfValue (VInt state)])), io1)
    else Some (Return tt, io1)
  end.

(** The [if self._conn is None: self._connect()] prologue of the three
    operations. *)
Definition lazy_connect (b : Backend) (self : HyperVGNS3VM) : result unit * HyperVGNS3VM :=
  match _conn self with
  | None => _connect b self
  | Some _ => (Return tt, self)
  end.

(** [try: yield from self._set_state(s) except GNS3VMError as e: raise
    GNS3VMError(template.format(e))]; other exceptions pass through. *)
Definition rewrap (template : string) (r : result unit) : result unit :=
  match r with
  | Raise (GNS3VMError m) => Raise (GNS3VMError (Fmt template [m]))
  | _ => r
  end.

Definition start (fuel : nat) (b : Backend) (self : HyperVGNS3VM) (io : IO)
  : option (result unit * HyperVGNS3VM * IO) :=
  match lazy_connect b self with
  | (Raise e, self1) => Some (Raise e, self1, io)
  | (Return _, self1) =>
    if negb (_is_running self1) then
      match _set_vcpus_ram b self1 (vcpus self1) (ram self1) io with
      | (Raise e, io1) => Some (Raise e, self1, io1)
      | (Return _, io1) =>
        match _set_state fuel b self1 _HYPERV_VM_STATE_ENABLED io1 with
        | None => None
        | Some (r, io2) =>
          match rewrap "Failed to start the GNS3 VM: {}" r with
          | Raise e => Some (Raise e, self1, io2)
          | Return _ => Some (Return tt, set_running true self1, io2)
          end
        end
      end
    else Some (Return tt, set_running true self1, io)
  end.

Definition transition_off (template : string) (state : Z)
    (fuel : nat) (b : Backend) (self : HyperVGNS3VM) (io : IO)
  : option (result unit * HyperVGNS3VM * IO) :=
  match lazy_connect b self with
  | (Raise e, self1) => Some (Raise e, self1, io)
  | (Return _, self1) =>
    match _set_state fuel b self1 state io with
    | None => None
    | Some (r, io1) =>
      match rewrap template r with
      | Raise e => Some (Raise e, self1, io1)
      | Return _ => Some (Return tt, set_running false self1, io1)
      end
    end
  end.

Definition suspend := transition_off "Failed to suspend the GNS3 VM: {}" _HYPERV_VM_STATE_PAUSED.
Definition stop := transition_off "Failed to stop the GNS3 VM: {}" _HYPERV_VM_STATE_DISABLED.

(** *** Concrete hosts and jobs *)

Definition gns3_vm : Msvm_ComputerSystem :=
  {| ElementName := "GNS3 VM"; Caption := "Virtual Machine";
     EnabledState := _HYPERV_VM_STATE_DISABLED |}.

Definition other_vm : Msvm_ComputerSystem :=
  {| ElementName := "Windows 10"; Caption := "Virtual Machine";
     EnabledState := _HYPERV_VM_STATE_ENABLED |}.

Definition gns3_vm_copy : Msvm_ComputerSystem :=
  {| ElementName := "GNS3 VM"; Caption := "Virtual Machine";
     EnabledState := _HYPERV_VM_STATE_ENABLED |}.

Definition conn_single : Connection :=
  {| Msvm_VirtualSystemManagementService := ["vmms"];
     computer_systems := [other_vm; gns3_vm] |}.

Definition conn_duplicate : Connection :=
  {| Msvm_VirtualSystemManagementService := ["vmms"];
     computer_systems := [gns3_vm; other_vm; gns3_vm_copy] |}.

Definition job_running : Msvm_ConcreteJob :=
  {| JobState := _WMI_JOB_STATE_RUNNING; ErrorSummaryDescription := "" |}.
Definition job_completed : Msvm_ConcreteJob :=
  {| JobState := _WMI_JOB_STATE_COMPLETED; ErrorSummaryDescription := "" |}.
Definition job_failed : Msvm_ConcreteJob :=
  {| JobState := 10; ErrorSummaryDescription := "The operation failed" |}.

(** A Windows 10 host on which every state change is answered with the
    result code [ret]; a started job is reported running three times and
    then in the state of [final]. *)
Definition host (ret : Z) (final : Msvm_ConcreteJob) : Backend :=
  {| platform := "win32"; windows_major := 10; Manufacturer := "GenuineIntel";
     HypervisorPresent := true; VirtualizationFirmwareEnabled := true;
     virtualization_v2 := Some conn_single;
     cpu_count := 4;
     modify_failure := fun _ _ _ => None;
     RequestStateChange := fun _ _ => ("\\HOST\root\virtualization\v2:Msvm_ConcreteJob.InstanceID=1", ret);
     moniker := fun _ n => if (n <? 3)%nat then job_running else final |}.

Definition controller : HyperVGNS3VM := __init__ "GNS3 VM" 1 2048.

Definition connected_controller : HyperVGNS3VM :=
  snd (_connect (host _WMI_JOB_STATUS_STARTED job_completed) controller).


End HyperV.

(** ** modules/vpcs/__init__.py *)

Module Vpcs.

(** *** Dictionaries and the operators used on request values *)

Definition dict : Type := list (string * value).

Fixpoint dict_get (k : string) (d : dict) : option value :=
  match d with
  | [] => None
  | (k', v) :: rest => if String.eqb k' k then Some v else dict_get k rest
  end.

(** [k in d] *)
Definition dict_in (k : string) (d : dict) : bool :=
  match dict_get k d with Some _ => true | None => false end.

(** [d[k] = v]: an existing key keeps its position, a new key is appended. *)
Fixpoint dict_set (k : string) (v : value) (d : dict) : dict :=
  match d with
  | [] => [(k, v)]
  | (k', v') :: rest =>
    if String.eqb k' k then (k, v) :: rest else (k', v') :: dict_set k v rest
  end.

(** [d.update(other)] *)
Definition dict_update (d other : dict) : dict :=
  fold_left (fun acc kv => dict_set (fst kv) (snd kv) acc) other d.

(** [d[k]], raising KeyError. *)
Definition getitem (d : dict) (k : string) : result value :=
  match dict_get k d with
  | Some v => Return v
  | None => Raise (KeyError k)
  end.

(** [v[k]] on an arbitrary value. *)
Definition subscript (v : value) (k : string) : result value :=
  match v with
  | VDict d => getitem d k
  | _ => Raise TypeError
  end.

(** Truth value of an object in a condition. *)
Definition truthy (v : value) : bool :=
  match v with
  | VNone => false
  | VBool b => b
  | VInt z => negb (z =? 0)
  | VStr s => negb (String.eqb s "")
  | VDict d => match d with [] => false | _ => true end
  end.

(** [a == b]: booleans compare as the integers 0 and 1, dictionaries by
    their keys and values whatever the order. *)
Fixpoint py_eqb (a b : value) : bool :=
  match a, b with
  | VNone, VNone => true
  | VBool x, VBool y => Bool.eqb x y
  | VBool x, VInt y => (if x then 1 else 0) =? y
  | VInt x, VBool y => x =? (if y then 1 else 0)
  | VInt x, VInt y => x =? y
  | VStr x, VStr y => String.eqb x y
  | VDict x, VDict y =>
    Nat.eqb (List.length x) (List.length y)
    && forallb (fun kv => match dict_get (fst kv) y with
                          | Some w => py_eqb (snd kv) w
                          | None => false
                          end) x
  | _, _ => false
  end.

(** The key under which a value indexes the instance registry, whose keys
    are integers: booleans hash and compare as 0 and 1, a dictionary is
    unhashable, anything else is found in no registry. *)
Definition registry_key (v : value) : result (option Z) :=
  match v with
  | VInt z => Return (Some z)
  | VBool b => Return (Some (if b then 1 else 0))
  | VDict _ => Raise TypeError
  | _ => Return None
  end.

(** [os.path.join(a, b)] on POSIX paths. *)
Definition path_join (a b : string) : string :=
  if String.prefix "/" b then b
  else if String.eqb a "" then b
  else if String.eqb (String.substring (String.length a - 1) 1 a) "/" then a +:+ b
  else a +:+ "/" +:+ b.

(** [s.replace("\r", "")] *)
Fixpoint strip_cr (s : string) : string :=
  match s with
  | EmptyString => EmptyString
  | String c rest =>
    if Ascii.eqb c (Ascii.ascii_of_nat 13) then strip_cr rest else String c (strip_cr rest)
  end.

(** [s.replace('%h', name)] *)
Fixpoint replace_percent_h (name s : string) : string :=
  match s with
  | EmptyString => EmptyString
  | String c rest =>
    match rest with
    | String c' rest' =>
      if Ascii.eqb c "%"%char && Ascii.eqb c' "h"%char
      then name +:+ replace_percent_h name rest'
      else String c (replace_percent_h name rest)
    | EmptyString => String c EmptyString
    end
  end.

(** *** Network endpoints and device instances

    [nios/nio_udp.py], [nios/nio_tap.py] and [vpcs_device.py] are not among
    the sources; what the module needs of them is modelled below. *)

(** Modelled from the spec: the two endpoint classes, missing from the
    sources.  Section 3: a NetworkEndpoint is a variant of UDP-tunnel (local
    port, remote host, remote port) or TAP (device name), immutable once
    constructed and side-effect-free to construct. *)
Inductive NIO : Type :=
| NIO_UDP (lport rhost rport : value)
| NIO_TAP (tap_device : value).

(** Modelled from the spec: the device object, missing from the sources.
    Section 3: an identity, a configuration that is extensible by attribute
    name, port bindings with at most one endpoint per (slot, port) and an
    owned process.  The attributes are kept by name, as [hasattr], [getattr]
    and [setattr] see them; [id] is the read-only identity. *)
Record VPCSDevice : Type := {
  id : Z;
  attrs : gmap string value;
  nios : list ((value * value) * NIO);
  process : bool;
}.

Definition hasattr (d : VPCSDevice) (name : string) : bool :=
  String.eqb name "id" || bool_decide (is_Some (attrs d !! name)).

Definition getattr (d : VPCSDevice) (name : string) : result value :=
  if String.eqb name "id" then Return (VInt (id d))
  else match attrs d !! name with
       | Some v => Return v
       | None => Raise (AttributeError name)
       end.

Definition with_attr (name : string) (v : value) (d : VPCSDevice) : VPCSDevice :=
  {| id := id d; attrs := <[name := v]> (attrs d); nios := nios d; process := process d |}.

Definition with_process (b : bool) (d : VPCSDevice) : VPCSDevice :=
  {| id := id d; attrs := attrs d; nios := nios d; process := b |}.

Definition with_nios (l : list ((value * value) * NIO)) (d : VPCSDevice) : VPCSDevice :=
  {| id := id d; attrs := attrs d; nios := l; process := process d |}.

(** The class-level bookkeeping of VPCSDevice: the identity counter and the
    names in use. *)
Record DeviceClass : Type := {
  instance_count : Z;
  names : list value;
}.

Definition DeviceClass_reset : DeviceClass := {| instance_count := 0; names := [] |}.

(** *** The environment *)

Inductive schema : Type :=
| VPCS_CREATE_SCHEMA | VPCS_DELETE_SCHEMA | VPCS_UPDATE_SCHEMA
| VPCS_START_SCHEMA | VPCS_STOP_SCHEMA | VPCS_RELOAD_SCHEMA
| VPCS_ALLOCATE_UDP_PORT_SCHEMA | VPCS_ADD_NIO_SCHEMA | VPCS_DELETE_NIO_SCHEMA.

Inductive socket_type : Type := TCP | UDP.

(** What the operating system and the collaborators answer during one
    request. *)
Record Env : Type := {
  (* IModule.validate_request: whether the request passes the schema; what
     the validator itself reports on a refusal is outside the module *)
  validate_request : schema -> dict -> bool;
  (* os.geteuid() *)
  geteuid : Z;
  (* os.listxattr(path) and os.getxattr(path, name) *)
  listxattr : option string -> result (list string);
  getxattr : option string -> string -> result (list Byte.byte);
  (* whether a socket of that type can be bound to (host, port) right now *)
  can_bind : socket_type -> string -> Z -> bool;
  (* the OSError, other than FileExistsError, that os.makedirs meets *)
  makedirs_failure : string -> option text;
  (* the OSError that shutil.move meets *)
  move_failure : string -> string -> option text;
  (* the OSError that opening a file for writing meets *)
  open_failure : string -> option text;
  (* base64.decodestring(...).decode("utf-8") *)
  b64decode : value -> result string;
  (* the message of the failure that spawning the process meets *)
  spawn_failure : VPCSDevice -> option text;
  (* VPCSDevice.defaults() *)
  defaults : VPCSDevice -> dict;
  (* the VPCSError, if any, with which a property setter refuses a value *)
  setter_failure : VPCSDevice -> string -> value -> option text;
}.

(** What lives outside the module object and is changed by it. *)
Record World : Type := {
  dirs : gset string;             (* the directories that exist *)
  files : gmap string string;     (* the files written *)
  device_class : DeviceClass;     (* class attributes of VPCSDevice *)
}.

Definition with_dirs (ds : gset string) (w : World) : World :=
  {| dirs := ds; files := files w; device_class := device_class w |}.
Definition with_files (fs : gmap string string) (w : World) : World :=
  {| dirs := dirs w; files := fs; device_class := device_class w |}.
Definition with_device_class (c : DeviceClass) (w : World) : World :=
  {| dirs := dirs w; files := files w; device_class := c |}.

(** *** The module object *)

Record VPCS : Type := {
  _VPCS : option string;
  _VPCS_instances : gmap Z VPCSDevice;
  _console_start_port_range : Z;
  _console_end_port_range : Z;
  _allocated_console_ports : list Z;
  _current_console_port : Z;
  _udp_start_port_range : Z;
  _udp_end_port_range : Z;
  _current_udp_port : Z;
  _host : string;
  _projects_dir : string;
  _tempdir : string;
  _working_dir : string;
  _VPCSrc : string;
  _remote_server : option bool;
}.

(** [__init__]; [vpcs] is the outcome of the search for the executable. *)
Definition __init__ (vpcs : option string) (host projects_dir temp_dir : string) : VPCS :=
  {| _VPCS := vpcs; _VPCS_instances := ∅;
     _console_start_port_range := 4001; _console_end_port_range := 4512;
     _allocated_console_ports := []; _current_console_port := 4001;
     _udp_start_port_range := 30001; _udp_end_port_range := 40001;
     _current_udp_port := 30001;
     _host := host; _projects_dir := projects_dir; _tempdir := temp_dir;
     _working_dir := projects_dir; _VPCSrc := ""; _remote_server := None |}.

Definition set_VPCS (x : option string) (s : VPCS) : VPCS :=
  {| _VPCS := x; _VPCS_instances := _VPCS_instances s;
     _console_start_port_range := _console_start_port_range s;
     _console_end_port_range := _console_end_port_range s;
     _allocated_console_ports := _allocated_console_ports s;
     _current_console_port := _current_console_port s;
     _udp_start_port_range := _udp_start_port_range s;
     _udp_end_port_range := _udp_end_port_range s;
     _current_udp_port := _current_udp_port s;
     _host := _host s; _projects_dir := _projects_dir s; _tempdir := _tempdir s;
     _working_dir := _working_dir s; _VPCSrc := _VPCSrc s;
     _remote_server := _remote_server s |}.

Definition set_VPCS_instances (x : gmap Z VPCSDevice) (s : VPCS) : VPCS :=
  {| _VPCS := _VPCS s; _VPCS_instances := x;
     _console_start_port_range := _console_start_port_range s;
     _console_end_port_range := _console_end_port_range s;
     _allocated_console_ports := _allocated_console_ports s;
     _current_console_port := _current_console_port s;
     _udp_start_port_range := _udp_start_port_range s;
     _udp_end_port_range := _udp_end_port_range s;
     _current_udp_port := _current_udp_port s;
     _host := _host s; _projects_dir := _projects_dir s; _tempdir := _tempdir s;
     _working_dir := _working_dir s; _VPCSrc := _VPCSrc s;
     _remote_server := _remote_server s |}.

Definition set_console_range (lo hi : Z) (s : VPCS) : VPCS :=
  {| _VPCS := _VPCS s; _VPCS_instances := _VPCS_instances s;
     _console_start_port_range := lo;
     _console_end_port_range := hi;
     _allocated_console_ports := _allocated_console_ports s;
     _current_console_port := _current_console_port s;
     _udp_start_port_range := _udp_start_port_range s;
     _udp_end_port_range := _udp_end_port_range s;
     _current_udp_port := _current_udp_port s;
     _host := _host s; _projects_dir := _projects_dir s; _tempdir := _tempdir s;
     _working_dir := _working_dir s; _VPCSrc := _VPCSrc s;
     _remote_server := _remote_server s |}.

Definition set_current_console_port (x : Z) (s : VPCS) : VPCS :=
  {| _VPCS := _VPCS s; _VPCS_instances := _VPCS_instances s;
     _console_start_port_range := _console_start_port_range s;
     _console_end_port_range := _console_end_port_range s;
     _allocated_console_ports := _allocated_console_ports s;
     _current_console_port := x;
     _udp_start_port_range := _udp_start_port_range s;
     _udp_end_port_range := _udp_end_port_range s;
     _current_udp_port := _current_udp_port s;
     _host := _host s; _projects_dir := _projects_dir s; _tempdir := _tempdir s;
     _working_dir := _working_dir s; _VPCSrc := _VPCSrc s;
     _remote_server := _remote_server s |}.

Definition set_udp_range (lo hi : Z) (s : VPCS) : VPCS :=
  {| _VPCS := _VPCS s; _VPCS_instances := _VPCS_instances s;
     _console_start_port_range := _console_start_port_range s;
     _console_end_port_range := _console_end_port_range s;
     _allocated_console_ports := _allocated_console_ports s;
     _current_console_port := _current_console_port s;
     _udp_start_port_range := lo;
     _udp_end_port_range := hi;
     _current_udp_port := _current_udp_port s;
     _host := _host s; _projects_dir := _projects_dir s; _tempdir := _tempdir s;
     _working_dir := _working_dir s; _VPCSrc := _VPCSrc s;
     _remote_server := _remote_server s |}.

Definition set_current_udp_port (x : Z) (s : VPCS) : VPCS :=
  {| _VPCS := _VPCS s; _VPCS_instances := _VPCS_instances s;
     _console_start_port_range := _console_start_port_range s;
     _console_end_port_range := _console_end_port_range s;
     _allocated_console_ports := _allocated_console_ports s;
     _current_console_port := _current_console_port s;
     _udp_start_port_range := _udp_start_port_range s;
     _udp_end_port_range := _udp_end_port_range s;
     _current_udp_port := x;
     _host := _host s; _projects_dir := _projects_dir s; _tempdir := _tempdir s;
     _working_dir := _working_dir s; _VPCSrc := _VPCSrc s;
     _remote_server := _remote_server s |}.

Definition set_working_dir (x : string) (s : VPCS) : VPCS :=
  {| _VPCS := _VPCS s; _VPCS_instances := _VPCS_instances s;
     _console_start_port_range := _console_start_port_range s;
     _console_end_port_range := _console_end_port_range s;
     _allocated_console_ports := _allocated_console_ports s;
     _current_console_port := _current_console_port s;
     _udp_start_port_range := _udp_start_port_range s;
     _udp_end_port_range := _udp_end_port_range s;
     _current_udp_port := _current_udp_port s;
     _host := _host s; _projects_dir := _projects_dir s; _tempdir := _tempdir s;
     _working_dir := x; _VPCSrc := _VPCSrc s;
     _remote_server := _remote_server s |}.

Definition set_remote_server (x : option bool) (s : VPCS) : VPCS :=
  {| _VPCS := _VPCS s; _VPCS_instances := _VPCS_instances s;
     _console_start_port_range := _console_start_port_range s;
     _console_end_port_range := _console_end_port_range s;
     _allocated_console_ports := _allocated_console_ports s;
     _current_console_port := _current_console_port s;
     _udp_start_port_range := _udp_start_port_range s;
     _udp_end_port_range := _udp_end_port_range s;
     _current_udp_port := _current_udp_port s;
     _host := _host s; _projects_dir := _projects_dir s; _tempdir := _tempdir s;
     _working_dir := _working_dir s; _VPCSrc := _VPCSrc s;
     _remote_server := x |}.

(** *** Requests as a computation: state, replies and exceptions

    A handler runs on the module object and the world, appends what it sends
    to the client and either returns or lets an exception escape.  What was
    written before an exception stays written. *)

Inductive reply : Type :=
| Response (v : value)          (* send_response *)
| CustomError (msg : text)      (* send_custom_error *)
| ParamError.                   (* send_param_error *)

Record Sys : Type := {
  self : VPCS;
  world : World;
  sent : list reply;
}.

Definition M (A : Type) : Type := Sys -> result A * Sys.

Definition ret {A} (a : A) : M A := fun s => (Return a, s).
Definition raise {A} (e : exn) : M A := fun s => (Raise e, s).
Definition lift {A} (r : result A) : M A := fun s => (r, s).
Definition bind {A B} (m : M A) (k : A -> M B) : M B :=
  fun s => match m s with
           | (Return a, s') => k a s'
           | (Raise e, s') => (Raise e, s')
           end.

Notation "'do' x <- m ; k" := (bind m (fun x => k))
  (at level 10, x name, m at level 100, k at level 200).

Definition get_self : M VPCS := fun s => (Return (self s), s).
Definition get_world : M World := fun s => (Return (world s), s).
Definition modify_self (f : VPCS -> VPCS) : M unit :=
  fun s => (Return tt, {| self := f (self s); world := world s; sent := sent s |}).
Definition modify_world (f : World -> World) : M unit :=
  fun s => (Return tt, {| self := self s; world := f (world s); sent := sent s |}).
Definition send (r : reply) : M unit :=
  fun s => (Return tt, {| self := self s; world := world s; sent := sent s ++ [r] |}).

Definition send_response (v : value) : M unit := send (Response v).
Definition send_custom_error (msg : text) : M unit := send (CustomError msg).
Definition send_param_error : M unit := send ParamError.

(** [try: body except VPCSError as e: self.send_custom_error(str(e)); return]:
    [None] tells the handler to return. *)
Definition or_report {A} (body : M A) : M (option A) :=
  fun s => match body s with
           | (Return a, s') => (Return (Some a), s')
           | (Raise (VPCSError msg), s') =>
             (Return None, {| self := self s'; world := world s'; sent := sent s' ++ [CustomError msg] |})
           | (Raise e, s') => (Raise e, s')
           end.

(** [try: body except Exception as e: raise VPCSError(e)] *)
Definition as_VPCSError {A} (r : result A) : result A :=
  match r with
  | Return a => Return a
  | Raise e => Raise (VPCSError (str_exn e))
  end.

(** *** Collaborators that are not among the sources *)

(** Modelled from the spec: [find_unused_port] is imported from
    [gns3server.attic], which is not among the sources.  Section 4.1: the
    candidates are scanned from the given start to [end]; a port is taken
    when the operating system lets a socket be bound to it (probed by binding
    and releasing at once); the call fails when no candidate is left.  The
    callers hand over the two bounds, the host and the socket type only, so
    the probe is all that decides. *)
Definition find_unused_port (env : Env) (start_port end_port : Z) (host : string)
    (st : socket_type) : result Z :=
  match List.find (can_bind env st host) (seqZ start_port (end_port + 1 - start_port)) with
  | Some port => Return port
  | None =>
    Raise (Exception_ (Fmt "Could not find a free port between {} and {} on host {}"
                           [OfValue (VInt start_port); OfValue (VInt end_port); Lit host]))
  end.

(** Modelled from the spec: the constructor [VPCSDevice(path, working_dir,
    host, name)], missing from the sources.  Sections 3 and 4.3: the identity
    is assigned monotonically, the name defaults to the type followed by the
    identity, and a supplied name that is already in use is a conflict. *)
Definition VPCSDevice_new (path : value) (working_dir host : string) (name : value)
    (c : DeviceClass) : result VPCSDevice * DeviceClass :=
  if truthy name && existsb (py_eqb name) (names c) then
    (Raise (VPCSError (Fmt "NameConflict: {}" [OfValue name])), c)
  else
    let i := instance_count c + 1 in
    let n := if truthy name then name else VStr ("VPCS" +:+ pretty i) in
    (Return {| id := i;
               attrs := list_to_map [("name", n); ("path", path);
                                     ("working_dir", VStr working_dir);
                                     ("host", VStr host); ("console", VNone);
                                     ("startup_config", VNone)];
               nios := []; process := false |},
     {| instance_count := i; names := n :: names c |}).

(** Modelled from the spec: [setattr(instance, name, value)] on the missing
    device class.  Section 4.3: a settable field takes the new value; the
    identity has no setter, and a setter may refuse a value with a
    VPCSError, which the update loop of the module expects. *)
Definition setattr (env : Env) (d : VPCSDevice) (name : string) (v : value)
  : result VPCSDevice :=
  if String.eqb name "id" then Raise (AttributeError "id")
  else match setter_failure env d name v with
       | Some e => Raise (VPCSError e)
       | None => Return (with_attr name v d)
       end.

(** Modelled from the spec: [start], [stop], [is_running] and [delete] of
    the missing device class.  Section 4.3: start fails when already running
    and on a spawn failure; stop is idempotent; delete stops the instance,
    removes its endpoint bindings and gives its name back. *)
Definition is_running (d : VPCSDevice) : bool := process d.

Definition dev_start (env : Env) (d : VPCSDevice) : result VPCSDevice :=
  if is_running d then Raise (VPCSError (Lit "AlreadyRunning"))
  else match spawn_failure env d with
       | Some e => Raise (VPCSError e)
       | None => Return (with_process true d)
       end.

Definition dev_stop (d : VPCSDevice) : result VPCSDevice :=
  Return (with_process false d).

Definition dev_delete (d : VPCSDevice) (c : DeviceClass) : result VPCSDevice * DeviceClass :=
  (Return (with_nios [] (with_process false d)),
   {| instance_count := instance_count c;
      names := match attrs d !! "name" with
               | Some n => List.filter (fun x => negb (py_eqb n x)) (names c)
               | None => names c
               end |}).

(** Modelled from the spec: the two binding methods of the missing device
    class.  Section 4.3: binding an occupied (slot, port) is a conflict,
    unbinding a free one is not found. *)
Definition same_port (slot port : value) (b : (value * value) * NIO) : bool :=
  py_eqb (fst (fst b)) slot && py_eqb (snd (fst b)) port.

Definition slot_add_nio_binding (slot port : value) (nio : NIO) (d : VPCSDevice)
  : result VPCSDevice :=
  if existsb (same_port slot port) (nios d) then Raise (VPCSError (Lit "SlotConflict"))
  else Return (with_nios (nios d ++ [((slot, port), nio)]) d).

Definition slot_remove_nio_binding (slot port : value) (d : VPCSDevice)
  : result VPCSDevice :=
  if existsb (same_port slot port) (nios d)
  then Return (with_nios (List.filter (fun b => negb (same_port slot port b)) (nios d)) d)
  else Raise (VPCSError (Lit "NotFound")).

(** [struct.unpack("<IIIII", caps)]: five little-endian 32-bit words out of
    exactly twenty bytes. *)
Definition le32 (b0 b1 b2 b3 : Byte.byte) : Z :=
  Z.lor (Z.of_N (Byte.to_N b0))
    (Z.lor (Z.shiftl (Z.of_N (Byte.to_N b1)) 8)
       (Z.lor (Z.shiftl (Z.of_N (Byte.to_N b2)) 16)
              (Z.shiftl (Z.of_N (Byte.to_N b3)) 24))).

Definition unpack_IIIII (caps : list Byte.byte) : result (list Z) :=
  match caps with
  | [a0; a1; a2; a3; b0; b1; b2; b3; c0; c1; c2; c3; d0; d1; d2; d3; e0; e1; e2; e3] =>
    Return [le32 a0 a1 a2 a3; le32 b0 b1 b2 b3; le32 c0 c1 c2 c3;
            le32 d0 d1 d2 d3; le32 e0 e1 e2 e3]
  | _ => Raise StructError
  end.

(** *** The handlers *)

Definition opt_str (o : option string) : value :=
  match o with Some p => VStr p | None => VNone end.

(** [get_VPCS_instance]: the registry key and the instance, or [None] after
    the error has been sent. *)
Definition get_VPCS_instance (VPCS_id : value) : M (option (Z * VPCSDevice)) :=
  do s <- get_self;
  do key <- lift (registry_key VPCS_id);
  match key with
  | Some k =>
    match _VPCS_instances s !! k with
    | Some d => ret (Some (k, d))
    | None =>
      do _ <- send_custom_error (Fmt "VPCS device ID {} doesn't exist" [OfValue VPCS_id]);
      ret None
    end
  | None =>
    do _ <- send_custom_error (Fmt "VPCS device ID {} doesn't exist" [OfValue VPCS_id]);
    ret None
  end.

(** The instance object is shared with the registry: what a handler does to
    it is seen under its key. *)
Definition store_instance (k : Z) (d : VPCSDevice) : M unit :=
  modify_self (fun s => set_VPCS_instances (<[k := d]> (_VPCS_instances s)) s).

(** [VPCS.reset] *)
Definition reset (request : value) : M unit :=
  do s <- get_self;
  do w <- get_world;
  (* delete all VPCS instances *)
  let c := map_fold (fun _ d c => snd (dev_delete d c)) (device_class w) (_VPCS_instances s) in
  do _ <- modify_world (with_device_class c);
  (* resets the instance IDs *)
  do _ <- modify_world (with_device_class DeviceClass_reset);
  modify_self (fun s =>
    set_current_udp_port (_udp_start_port_range s)
      (set_current_console_port (_console_start_port_range s)
         (set_remote_server (Some false) (set_VPCS_instances ∅ s)))).

(** [VPCS.settings].  The request is the JSON object of the documented
    optional parameters, a missing key being [None]; the request itself may
    be null. *)
Record SettingsRequest : Type := {
  rq_VPCS : option string;
  rq_working_dir : option string;
  rq_project_name : option string;
  rq_console_start_port_range : option Z;
  rq_console_end_port_range : option Z;
  rq_udp_start_port_range : option Z;
  rq_udp_end_port_range : option Z;
}.

(** [os.path.isdir] and [shutil.move] on the directories of the world. *)
Definition isdir (w : World) (path : string) : bool := bool_decide (path ∈ dirs w).

Definition shutil_move (env : Env) (src dst : string) : M unit :=
  do w <- get_world;
  if negb (isdir w src) then raise (OSError (Fmt "No such file or directory: {}" [Lit src]))
  else match move_failure env src dst with
       | Some e => raise (OSError e)
       | None => modify_world (with_dirs ({[dst]} ∪ (dirs w ∖ {[src]})))
       end.

(** The computation of [new_working_dir]; [None] is the [return] taken when
    the move fails. *)
Definition new_working_dir (env : Env) (request : SettingsRequest) : M (option string) :=
  match rq_working_dir request with
  | Some wd => ret (Some wd)
  | None =>
    do s <- get_self;
    do project_name <- lift (match rq_project_name request with
                             | Some n => Return n
                             | None => Raise (KeyError "project_name")
                             end);
    let nwd := path_join (_projects_dir s) (project_name +:+ ".gns3") in
    if negb (String.eqb (_projects_dir s) (_working_dir s))
       && negb (String.eqb (_working_dir s) nwd) then
      do w <- get_world;
      if negb (isdir w nwd) then
        fun sys =>
          match shutil_move env (_working_dir s) nwd sys with
          | (Raise (OSError _), sys') => (Return None, sys')
          | (Raise e, sys') => (Raise e, sys')
          | (Return _, sys') => (Return (Some nwd), sys')
          end
      else ret (Some nwd)
    else ret (Some nwd)
  end.

Definition settings (env : Env) (request : option SettingsRequest) : M unit :=
  match request with
  | None => send_param_error
  | Some request =>
    do _ <- match rq_VPCS request with
            | Some p => if truthy (VStr p) then modify_self (set_VPCS (Some p)) else ret tt
            | None => ret tt
            end;
    do nwd <- new_working_dir env request;
    match nwd with
    | None => ret tt
    | Some nwd =>
      do s <- get_self;
      (* update the working directory if it has changed *)
      do _ <- (if negb (String.eqb (_working_dir s) nwd) then
                 modify_self (fun s =>
                   set_VPCS_instances (with_attr "working_dir" (VStr nwd) <$> _VPCS_instances s)
                     (set_working_dir nwd s))
               else ret tt);
      do _ <- match rq_console_start_port_range request, rq_console_end_port_range request with
              | Some lo, Some hi => modify_self (set_console_range lo hi)
              | _, _ => ret tt
              end;
      match rq_udp_start_port_range request, rq_udp_end_port_range request with
      | Some lo, Some hi => modify_self (set_udp_range lo hi)
      | _, _ => ret tt
      end
    end
  end.

(** The console pool, lines "find a console port" of [VPCS_create]: the
    port found, and the module object with its cursor moved. *)
Definition console_scan_start (s : VPCS) : Z :=
  if _current_console_port s >? _console_end_port_range s
  then _console_start_port_range s else _current_console_port s.

Definition allocate_console_port (env : Env) (s : VPCS) : result Z * VPCS :=
  let s1 := if _current_console_port s >? _console_end_port_range s
            then set_current_console_port (_console_start_port_range s) s else s in
  match as_VPCSError (find_unused_port env (_current_console_port s1)
                                       (_console_end_port_range s1) (_host s1) TCP) with
  | Raise e => (Raise e, s1)
  | Return port => (Return port, set_current_console_port (_current_console_port s1 + 1) s1)
  end.

(** The data pool, lines "find a UDP port" of [allocate_udp_port]. *)
Definition udp_scan_start (s : VPCS) : Z :=
  if _current_udp_port s >=? _udp_end_port_range s
  then _udp_start_port_range s else _current_udp_port s.

Definition allocate_udp (env : Env) (s : VPCS) : result Z * VPCS :=
  let s1 := if _current_udp_port s >=? _udp_end_port_range s
            then set_current_udp_port (_udp_start_port_range s) s else s in
  match as_VPCSError (find_unused_port env (_current_udp_port s1)
                                       (_udp_end_port_range s1) (_host s1) UDP) with
  | Raise e => (Raise e, s1)
  | Return port => (Return port, set_current_udp_port (_current_udp_port s1 + 1) s1)
  end.

(** A step on the module object alone, run inside a handler. *)
Definition on_self {A} (f : VPCS -> result A * VPCS) : M A :=
  fun sys => let '(r, s') := f (self sys) in
             (r, {| self := s'; world := world sys; sent := sent sys |}).

(** [os.makedirs(self._working_dir)] with its two [except] clauses. *)
Definition makedirs_working_dir (env : Env) : M unit :=
  do s <- get_self;
  do w <- get_world;
  if isdir w (_working_dir s) then ret tt                       (* FileExistsError: pass *)
  else match makedirs_failure env (_working_dir s) with
       | Some e => raise (VPCSError (Fmt "Could not create working directory {}" [e]))
       | None => modify_world (with_dirs ({[_working_dir s]} ∪ dirs w))
       end.

Definition construct_device (path name : value) : M VPCSDevice :=
  fun sys =>
    let '(r, c) := VPCSDevice_new path (_working_dir (self sys)) (_host (self sys)) name
                                  (device_class (world sys)) in
    (r, {| self := self sys; world := with_device_class c (world sys); sent := sent sys |}).

(** [VPCS.create] *)
Definition VPCS_create (env : Env) (request : dict) : M unit :=
  if negb (validate_request env VPCS_CREATE_SCHEMA request) then ret tt else
  let name := match dict_get "name" request with Some n => n | None => VNone end in
  do VPCS_path <- lift (getitem request "path");
  do created <- or_report (
    do _ <- makedirs_working_dir env;
    do VPCS_instance <- construct_device VPCS_path name;
    (* find a console port *)
    do port <- on_self (allocate_console_port env);
    ret (with_attr "console" (VInt port) VPCS_instance));
  match created with
  | None => ret tt
  | Some VPCS_instance =>
    do name' <- lift (getattr VPCS_instance "name");
    let response := [("name", name'); ("id", VInt (id VPCS_instance))] in
    let response := dict_update response (defaults env VPCS_instance) in
    do _ <- store_instance (id VPCS_instance) VPCS_instance;
    send_response (VDict response)
  end.

(** [VPCS.delete] *)
Definition VPCS_delete (env : Env) (request : dict) : M unit :=
  if negb (validate_request env VPCS_DELETE_SCHEMA request) then ret tt else
  do rid <- lift (getitem request "id");
  do found <- get_VPCS_instance rid;
  match found with
  | None => ret tt
  | Some (k, VPCS_instance) =>
    do done <- or_report (
      do d <- (fun sys =>
                 let '(r, c) := dev_delete VPCS_instance (device_class (world sys)) in
                 (r, {| self := self sys; world := with_device_class c (world sys);
                        sent := sent sys |}));
      modify_self (fun s => set_VPCS_instances (delete k (_VPCS_instances s)) s));
    match done with
    | None => ret tt
    | Some _ => send_response (VBool true)
    end
  end.

(** The text of a string attribute, where the source calls a string method
    on it. *)
Definition as_str (v : value) : result string :=
  match v with VStr x => Return x | _ => Raise TypeError end.

Definition newline : string := String (Ascii.ascii_of_nat 10) EmptyString.

(** The first [try] of [VPCS_update]: a pushed startup-config is decoded,
    written next to the instance and the request is pointed to the file. *)
Definition push_startup_config (env : Env) (VPCS_instance : VPCSDevice) (request : dict)
  : M dict :=
  match dict_get "startup_config_base64" request with
  | None => ret request
  | Some encoded =>
    do config <- lift (b64decode env encoded);
    let config := "!" +:+ newline +:+ strip_cr config in
    do name <- lift (getattr VPCS_instance "name");
    do name <- lift (as_str name);
    let config := replace_percent_h name config in
    do wd <- lift (getattr VPCS_instance "working_dir");
    do wd <- lift (as_str wd);
    let config_path := path_join wd "startup-config" in
    do _ <- match open_failure env config_path with
            | Some e => raise (VPCSError (Fmt "Could not save the configuration {}: {}"
                                              [Lit config_path; e]))
            | None => modify_world (fun w => with_files (<[config_path := config]> (files w)) w)
            end;
    (* os.path.basename(config_path) *)
    ret (dict_set "startup_config" (VStr "startup-config") request)
  end.

(** The loop "update the VPCS settings" of [VPCS_update], on the instance
    and the response under construction.  An exception leaves the instance
    as the earlier iterations made it. *)
Fixpoint update_settings (env : Env) (items : dict) (d : VPCSDevice) (response : dict)
  : result dict * VPCSDevice :=
  match items with
  | [] => (Return response, d)
  | (name, v) :: rest =>
    if hasattr d name then
      match getattr d name with
      | Raise e => (Raise e, d)
      | Return current =>
        if negb (py_eqb current v) then
          match setattr env d name v with
          | Raise e => (Raise e, d)
          | Return d' => update_settings env rest d' (dict_set name v response)
          end
        else update_settings env rest d response
      end
    else update_settings env rest d response
  end.

(** [VPCS.update] *)
Definition VPCS_update (env : Env) (request : dict) : M unit :=
  if negb (validate_request env VPCS_UPDATE_SCHEMA request) then ret tt else
  do rid <- lift (getitem request "id");
  do found <- get_VPCS_instance rid;
  match found with
  | None => ret tt
  | Some (k, VPCS_instance) =>
    do pushed <- or_report (push_startup_config env VPCS_instance request);
    match pushed with
    | None => ret tt
    | Some request =>
      let '(r, d) := update_settings env request VPCS_instance [] in
      do _ <- store_instance k d;
      do response <- or_report (lift r);
      match response with
      | None => ret tt
      | Some response => send_response (VDict response)
      end
    end
  end.

(** [VPCS.start].  The command line is computed for the debug log only. *)
Definition vm_start (env : Env) (request : dict) : M unit :=
  if negb (validate_request env VPCS_START_SCHEMA request) then ret tt else
  do rid <- lift (getitem request "id");
  do found <- get_VPCS_instance rid;
  match found with
  | None => ret tt
  | Some (k, VPCS_instance) =>
    do s <- get_self;
    let d := with_attr "VPCSrc" (VStr (_VPCSrc s))
               (with_attr "VPCS" (opt_str (_VPCS s)) VPCS_instance) in
    do _ <- store_instance k d;
    do started <- or_report (do d' <- lift (dev_start env d); store_instance k d');
    match started with
    | None => ret tt
    | Some _ => send_response (VBool true)
    end
  end.

(** [VPCS.stop] *)
Definition vm_stop (env : Env) (request : dict) : M unit :=
  if negb (validate_request env VPCS_STOP_SCHEMA request) then ret tt else
  do rid <- lift (getitem request "id");
  do found <- get_VPCS_instance rid;
  match found with
  | None => ret tt
  | Some (k, VPCS_instance) =>
    do stopped <- or_report (do d' <- lift (dev_stop VPCS_instance); store_instance k d');
    match stopped with
    | None => ret tt
    | Some _ => send_response (VBool true)
    end
  end.

(** [VPCS.reload] *)
Definition vm_reload (env : Env) (request : dict) : M unit :=
  if negb (validate_request env VPCS_RELOAD_SCHEMA request) then ret tt else
  do rid <- lift (getitem request "id");
  do found <- get_VPCS_instance rid;
  match found with
  | None => ret tt
  | Some (k, VPCS_instance) =>
    do reloaded <- or_report (
      do d <- (if is_running VPCS_instance
               then do d' <- lift (dev_stop VPCS_instance);
                    do _ <- store_instance k d'; ret d'
               else ret VPCS_instance);
      do d' <- lift (dev_start env d);
      store_instance k d');
    match reloaded with
    | None => ret tt
    | Some _ => send_response (VBool true)
    end
  end.

(** [VPCS.allocate_udp_port] *)
Definition allocate_udp_port (env : Env) (request : dict) : M unit :=
  if negb (validate_request env VPCS_ALLOCATE_UDP_PORT_SCHEMA request) then ret tt else
  do rid <- lift (getitem request "id");
  do found <- get_VPCS_instance rid;
  match found with
  | None => ret tt
  | Some (k, VPCS_instance) =>
    do allocated <- or_report (
      (* find a UDP port *)
      do port <- on_self (allocate_udp env);
      ret [("lport", VInt port)]);
    match allocated with
    | None => ret tt
    | Some response =>
      do port_id <- lift (getitem request "port_id");
      send_response (VDict (dict_set "port_id" port_id response))
    end
  end.

(** [_check_for_privileged_access] *)
Definition CAP_NET_RAW_bit : Z := Z.shiftl 1 13.

Definition _check_for_privileged_access (env : Env) (s : VPCS) (device : value)
  : result unit :=
  (* we are root, so VPCS should have privileged access too *)
  if geteuid env =? 0 then Return tt
  else
    match listxattr env (_VPCS s) with
    | Raise e => Raise e
    | Return xattrs =>
      let no_access :=
        Raise (VPCSError (Fmt "{} has no privileged access to {}."
                              [OfValue (opt_str (_VPCS s)); OfValue device])) in
      if existsb (String.eqb "security.capability") xattrs then
        match getxattr env (_VPCS s) "security.capability" with
        | Raise _ => Return tt                    (* logged, then return *)
        | Return caps =>
          match unpack_IIIII caps with
          | Raise _ => Return tt                  (* logged, then return *)
          | Return words =>
            if negb (Z.land (nth 1 words 0) CAP_NET_RAW_bit =? 0) then Return tt
            else no_access
          end
        end
      else no_access
    end.

(** The first [try] of [add_nio]: the endpoint object. *)
Definition make_nio (env : Env) (s : VPCS) (request : dict) : result NIO :=
  match getitem request "nio" with
  | Raise e => Raise e
  | Return nio_spec =>
    match subscript nio_spec "type" with
    | Raise e => Raise e
    | Return type =>
      if py_eqb type (VStr "nio_udp") then
        match subscript nio_spec "lport" with
        | Raise e => Raise e
        | Return lport =>
          match subscript nio_spec "rhost" with
          | Raise e => Raise e
          | Return rhost =>
            match subscript nio_spec "rport" with
            | Raise e => Raise e
            | Return rport => Return (NIO_UDP lport rhost rport)
            end
          end
        end
      else if py_eqb type (VStr "nio_tap") then
        match subscript nio_spec "tap_device" with
        | Raise e => Raise e
        | Return tap_device =>
          match _check_for_privileged_access env s tap_device with
          | Raise e => Raise e
          | Return _ => Return (NIO_TAP tap_device)
          end
        end
      else
        Raise (VPCSError (Fmt "Requested NIO does not exist or is not supported: {}"
                              [OfValue type]))
    end
  end.

(** [VPCS.add_nio] *)
Definition add_nio (env : Env) (request : dict) : M unit :=
  if negb (validate_request env VPCS_ADD_NIO_SCHEMA request) then ret tt else
  do rid <- lift (getitem request "id");
  do found <- get_VPCS_instance rid;
  match found with
  | None => ret tt
  | Some (k, VPCS_instance) =>
    do slot <- lift (getitem request "slot");
    do port <- lift (getitem request "port");
    do s <- get_self;
    do made <- or_report (lift (make_nio env s request));
    match made with
    | None => ret tt
    | Some nio =>
      do bound <- or_report (
        do d <- lift (slot_add_nio_binding slot port nio VPCS_instance);
        store_instance k d);
      match bound with
      | None => ret tt
      | Some _ =>
        do port_id <- lift (getitem request "port_id");
        send_response (VDict [("port_id", port_id)])
      end
    end
  end.

(** [VPCS.delete_nio] *)
Definition delete_nio (env : Env) (request : dict) : M unit :=
  if negb (validate_request env VPCS_DELETE_NIO_SCHEMA request) then ret tt else
  do rid <- lift (getitem request "id");
  do found <- get_VPCS_instance rid;
  match found with
  | None => ret tt
  | Some (k, VPCS_instance) =>
    do slot <- lift (getitem request "slot");
    do port <- lift (getitem request "port");
    do removed <- or_report (
      do d <- lift (slot_remove_nio_binding slot port VPCS_instance);
      store_instance k d);
    match removed with
    | None => ret tt
    | Some _ => send_response (VBool true)
    end
  end.

(** Running a handler from a module object and a world, with nothing sent
    yet. *)
Definition run {A} (m : M A) (s : VPCS) (w : World) : result A * Sys :=
  m {| self := s; world := w; sent := [] |}.

(** *** Pools as sequences of allocations *)

(** [allocations step envs s]: one allocation per environment, in order,
    each on the module object left by the one before. *)
Fixpoint allocations (step : Env -> VPCS -> result Z * VPCS) (envs : list Env) (s : VPCS)
  : list (result Z) * VPCS :=
  match envs with
  | [] => ([], s)
  | env :: rest =>
    let '(r, s1) := step env s in
    let '(rs, s2) := allocations step rest s1 in
    (r :: rs, s2)
  end.

(** The ports handed out among the results. *)
Fixpoint returned (rs : list (result Z)) : list Z :=
  match rs with
  | [] => []
  | Return p :: rest => p :: returned rest
  | Raise _ :: rest => returned rest
  end.

(** *** The capability bit, as the specification words it

    The bit granting raw network access is bit 13 of the second 32-bit word
    of the [security.capability] attribute of the binary.  It is absent when
    the attribute is not listed or the bit is clear, and unreadable when the
    listed attribute cannot be fetched or decoded. *)
Inductive capability : Type := Present | Absent | Unreadable.

Definition CAP_NET_RAW (env : Env) (binary : option string) (xattrs : list string)
  : capability :=
  if existsb (String.eqb "security.capability") xattrs then
    match getxattr env binary "security.capability" with
    | Raise _ => Unreadable
    | Return caps =>
      match unpack_IIIII caps with
      | Raise _ => Unreadable
      | Return words => if Z.testbit (nth 1 words 0) 13 then Present else Absent
      end
    end
  else Absent.

(** The operations that address an instance by its identifier, with the
    schema each validates its request against. *)
Definition device_operations : list (schema * (Env -> dict -> M unit)) :=
  [ (VPCS_DELETE_SCHEMA, VPCS_delete);
    (VPCS_UPDATE_SCHEMA, VPCS_update);
    (VPCS_START_SCHEMA, vm_start);
    (VPCS_STOP_SCHEMA, vm_stop);
    (VPCS_RELOAD_SCHEMA, vm_reload);
    (VPCS_ALLOCATE_UDP_PORT_SCHEMA, allocate_udp_port);
    (VPCS_ADD_NIO_SCHEMA, add_nio);
    (VPCS_DELETE_NIO_SCHEMA, delete_nio) ].

(** An identifier under which the registry holds nothing. *)
Definition unknown_id (s : VPCS) (VPCS_id : value) : Prop :=
  match registry_key VPCS_id with
  | Return (Some k) => _VPCS_instances s !! k = None
  | Return None => True
  | Raise _ => False
  end.

(** *** Concrete module objects, worlds and environments *)

(** An unprivileged process whose binary lists [xattrs], whose capability
    attribute reads as [caps], and where exactly the ports satisfying [free]
    can be bound; nothing else fails. *)
Definition env_of (euid : Z) (xattrs : list string) (caps : result (list Byte.byte))
    (free : Z -> bool) : Env :=
  {| validate_request := fun _ _ => true;
     geteuid := euid;
     listxattr := fun _ => Return xattrs;
     getxattr := fun _ _ => caps;
     can_bind := fun _ _ port => free port;
     makedirs_failure := fun _ => None;
     move_failure := fun _ _ => None;
     open_failure := fun _ => None;
     b64decode := fun _ => Raise (Exception_ (Lit "binascii.Error"));
     spawn_failure := fun _ => None;
     defaults := fun _ => [];
     setter_failure := fun _ _ _ => None |}.

Definition all_free : Env := env_of 1000 [] (Raise (OSError (Lit "ENODATA"))) (fun _ => true).
Definition none_free : Env := env_of 1000 [] (Raise (OSError (Lit "ENODATA"))) (fun _ => false).
Definition first_taken : Env :=
  env_of 1000 [] (Raise (OSError (Lit "ENODATA"))) (fun port => negb (port =? 4001)).

Definition module0 : VPCS := __init__ (Some "/usr/local/bin/vpcs") "127.0.0.1" "/tmp/projects" "/tmp".
Definition world0 : World := {| dirs := ∅; files := ∅; device_class := DeviceClass_reset |}.

(** The console range of the wraparound example, 4001 to 4003, and a data
    pool whose cursor stands on the end of its range. *)
Definition small_console_pool : VPCS := set_console_range 4001 4003 module0.
Definition udp_cursor_at_end : VPCS :=
  set_current_udp_port 30003 (set_udp_range 30001 30003 module0).

(** A version 3 capability attribute: twenty-four bytes, four more than
    [struct.unpack("<IIIII", ...)] takes, with CAP_NET_RAW permitted. *)
Definition caps_revision_3 : list Byte.byte :=
  [ Byte.x00; Byte.x00; Byte.x00; Byte.x03;
    Byte.x00; Byte.x20; Byte.x00; Byte.x00;
    Byte.x00; Byte.x00; Byte.x00; Byte.x00;
    Byte.x00; Byte.x00; Byte.x00; Byte.x00;
    Byte.x00; Byte.x00; Byte.x00; Byte.x00;
    Byte.x00; Byte.x00; Byte.x00; Byte.x00 ].

(** Version 2 attributes, twenty bytes, with CAP_NET_RAW permitted and
    without. *)
Definition caps_net_raw : list Byte.byte :=
  [ Byte.x01; Byte.x00; Byte.x00; Byte.x02;
    Byte.x00; Byte.x20; Byte.x00; Byte.x00;
    Byte.x00; Byte.x00; Byte.x00; Byte.x00;
    Byte.x00; Byte.x00; Byte.x00; Byte.x00;
    Byte.x00; Byte.x00; Byte.x00; Byte.x00 ].

Definition caps_net_admin_only : list Byte.byte :=
  [ Byte.x01; Byte.x00; Byte.x00; Byte.x02;
    Byte.x00; Byte.x10; Byte.x00; Byte.x00;
    Byte.x00; Byte.x00; Byte.x00; Byte.x00;
    Byte.x00; Byte.x00; Byte.x00; Byte.x00;
    Byte.x00; Byte.x00; Byte.x00; Byte.x00 ].

Definition env_unreadable : Env :=
  env_of 1000 ["security.capability"] (Return caps_revision_3) (fun _ => true).
Definition env_capable : Env :=
  env_of 1000 ["security.capability"] (Return caps_net_raw) (fun _ => true).
Definition env_incapable : Env :=
  env_of 1000 ["security.capability"] (Return caps_net_admin_only) (fun _ => true).

Definition tap_request : dict :=
  [ ("id", VInt 1); ("slot", VInt 0); ("port", VInt 0); ("port_id", VInt 7);
    ("nio", VDict [("type", VStr "nio_tap"); ("tap_device", VStr "tap0")]) ].

Definition create_request : dict := [("path", VStr "/usr/local/bin/vpcs")].


(** An environment in which exactly the ports from [n] upwards can be
    bound: every lower port is held by a running process. *)
Definition free_from (n : Z) : Env :=
  env_of 1000 [] (Raise (OSError (Lit "ENODATA"))) (fun port => n <=? port).


(** A settings request that sets the console range and nothing else. *)
Definition ranges_only : SettingsRequest :=
  {| rq_VPCS := None; rq_working_dir := None; rq_project_name := None;
     rq_console_start_port_range := Some 5000; rq_console_end_port_range := Some 5100;
     rq_udp_start_port_range := None; rq_udp_end_port_range := None |}.

Definition sys0 : Sys := {| self := module0; world := world0; sent := [] |}.


(** Whether an update names a field the instance exposes with a value other
    than the current one. *)
Definition differs (d : VPCSDevice) (name : string) (v : value) : bool :=
  hasattr d name
  && match getattr d name with
     | Return current => negb (py_eqb current v)
     | Raise _ => false
     end.

(** The module after one instance has been created, and that instance. *)
Definition created : Sys := snd (run (VPCS_create all_free create_request) module0 world0).

Definition device1 : VPCSDevice :=
  match _VPCS_instances (self created) !! 1 with
  | Some d => d
  | None => {| id := 0; attrs := ∅; nios := []; process := false |}
  end.

(** An update that renames the instance, repeats its console port and names
    a field it does not have. *)
Definition update_request : dict :=
  [("id", VInt 1); ("name", VStr "PC1"); ("console", VInt 4001); ("colour", VStr "red")].

Definition unknown_request : dict :=
  [("id", VInt 9); ("slot", VInt 0); ("port", VInt 0); ("port_id", VInt 7)].


End Vpcs.

(** ** Further hosts and controllers *)

Module HyperVCases.
Import HyperV.

(** A host whose jobs never leave the running state. *)
Definition host_stuck : Backend :=
  {| platform := "win32"; windows_major := 10; Manufacturer := "GenuineIntel";
     HypervisorPresent := true; VirtualizationFirmwareEnabled := true;
     virtualization_v2 := Some conn_single;
     cpu_count := 4;
     modify_failure := fun _ _ _ => None;
     RequestStateChange := fun _ _ => ("\\HOST\root\virtualization\v2:Msvm_ConcreteJob.InstanceID=2", _WMI_JOB_STATUS_STARTED);
     moniker := fun _ _ => job_running |}.

(** A host that enumerates the computer systems of [conn]. *)
Definition host_with (conn : Connection) : Backend :=
  {| platform := "win32"; windows_major := 10; Manufacturer := "GenuineIntel";
     HypervisorPresent := true; VirtualizationFirmwareEnabled := true;
     virtualization_v2 := Some conn;
     cpu_count := 4;
     modify_failure := fun _ _ _ => None;
     RequestStateChange := fun _ _ => ("\\HOST\root\virtualization\v2:Msvm_ConcreteJob.InstanceID=3", _WMI_JOB_STATUS_STARTED);
     moniker := fun _ n => if (n <? 1)%nat then job_running else job_completed |}.

(** The machine is found enabled, or is not there at all. *)
Definition conn_enabled : Connection :=
  {| Msvm_VirtualSystemManagementService := ["vmms"];
     computer_systems := [gns3_vm_copy; other_vm] |}.

Definition conn_without : Connection :=
  {| Msvm_VirtualSystemManagementService := ["vmms"];
     computer_systems := [other_vm] |}.



Definition greedy_controller : HyperVGNS3VM := __init__ "GNS3 VM" 8 2048.

End HyperVCases.

(** ** The remaining handlers of the VPCS module *)

Module VpcsRest.
Import Vpcs.

(** [test_result] *)
Definition test_result (message result : value) : dict :=
  [("result", result); ("message", message)].

(** [VPCS.echo] *)
Definition echo (request : value) : M unit :=
  if py_eqb request VNone then send_param_error else send_response request.

End VpcsRest.

(** ** Further module objects and environments *)

Module VpcsCases.
Import Vpcs.

(** The console pool of the small range with its cursor on the last port,
    and an environment in which only the ports below 4003 can be bound. *)
Definition cursor_on_last_port : VPCS := set_current_console_port 4003 small_console_pool.
Definition below_4003_free : Env :=
  env_of 1000 [] (Raise (OSError (Lit "ENODATA"))) (fun port => port <? 4003).

(** A data pool of three ports with its cursor on the start. *)
Definition small_udp_pool : VPCS :=
  set_current_udp_port 30001 (set_udp_range 30001 30003 module0).

(** Only the last port of the small data range can be bound. *)
Definition only_30003_free : Env :=
  env_of 1000 [] (Raise (OSError (Lit "ENODATA"))) (fun port => port =? 30003).

(** Settings requests: a new console range with a local working directory,
    a lone lower bound, and a project on a remote server. *)
Definition new_console_range : SettingsRequest :=
  {| rq_VPCS := None; rq_working_dir := Some "/tmp/projects"; rq_project_name := None;
     rq_console_start_port_range := Some 5000; rq_console_end_port_range := Some 5100;
     rq_udp_start_port_range := Some 20000; rq_udp_end_port_range := None |}.

Definition moved_working_dir : SettingsRequest :=
  {| rq_VPCS := None; rq_working_dir := Some "/home/user/lab"; rq_project_name := None;
     rq_console_start_port_range := None; rq_console_end_port_range := None;
     rq_udp_start_port_range := None; rq_udp_end_port_range := None |}.

Definition remote_project : SettingsRequest :=
  {| rq_VPCS := None; rq_working_dir := None; rq_project_name := Some "lab2";
     rq_console_start_port_range := Some 5000; rq_console_end_port_range := Some 5100;
     rq_udp_start_port_range := None; rq_udp_end_port_range := None |}.

(** A module whose working directory is a project directory that is not on
    disk any more. *)
Definition in_project : Sys :=
  {| self := set_working_dir "/tmp/projects/lab1.gns3" module0; world := world0; sent := [] |}.

(** An environment in which the working directory cannot be made. *)
Definition read_only_disk : Env :=
  {| validate_request := fun _ _ => true;
     geteuid := 1000;
     listxattr := fun _ => Return [];
     getxattr := fun _ _ => Raise (OSError (Lit "ENODATA"));
     can_bind := fun _ _ _ => true;
     makedirs_failure := fun _ => Some (Lit "[Errno 30] Read-only file system");
     move_failure := fun _ _ => None;
     open_failure := fun _ => Some (Lit "[Errno 30] Read-only file system");
     b64decode := fun _ => Return "set pcname %h";
     spawn_failure := fun _ => None;
     defaults := fun _ => [];
     setter_failure := fun _ _ _ => None |}.

Definition delete_request : dict := [("id", VInt 1)].

(** Endpoint requests for the instance created above: a UDP tunnel, an
    endpoint of a type the module does not know, and a TAP device. *)
Definition udp_request : dict :=
  [ ("id", VInt 1); ("slot", VInt 0); ("port", VInt 0); ("port_id", VInt 7);
    ("nio", VDict [("type", VStr "nio_udp"); ("lport", VInt 30001);
                   ("rhost", VStr "127.0.0.1"); ("rport", VInt 30002)]) ].

Definition ethernet_request : dict :=
  [ ("id", VInt 1); ("slot", VInt 0); ("port", VInt 0); ("port_id", VInt 7);
    ("nio", VDict [("type", VStr "nio_generic_ethernet"); ("ethernet_device", VStr "eth0")]) ].

(** An unprivileged process that may not list the attributes of the
    binary. *)
Definition attributes_denied : Env :=
  {| validate_request := fun _ _ => true;
     geteuid := 1000;
     listxattr := fun _ => Raise (OSError (Lit "[Errno 13] Permission denied"));
     getxattr := fun _ _ => Raise (OSError (Lit "[Errno 13] Permission denied"));
     can_bind := fun _ _ _ => true;
     makedirs_failure := fun _ => None;
     move_failure := fun _ _ => None;
     open_failure := fun _ => None;
     b64decode := fun _ => Raise (Exception_ (Lit "binascii.Error"));
     spawn_failure := fun _ => None;
     defaults := fun _ => [];
     setter_failure := fun _ _ _ => None |}.

(** An environment that reads [caps] as the capability attribute of the
    binary of an unprivileged process. *)
Definition env_with_caps (caps : list Byte.byte) : Env :=
  env_of 1000 ["security.capability"] (Return caps) (fun _ => true).


(** Requests for a data port, with and without the correlation token. *)
Definition port_request : dict := [("id", VInt 1); ("port_id", VInt 7)].
Definition port_request_without_token : dict := [("id", VInt 1)].

End VpcsCases.

(** * Properties of the Hyper-V controller *)

Section HyperVFacts.
Import HyperV.

(** The query behind [_find_vm] selects by display name. *)
Lemma Msvm_ComputerSystem_named_spec conn name vm :
  In vm (Msvm_ComputerSystem_named conn name) <->
  In vm (computer_systems conn) /\ ElementName vm = name.
Proof.
  unfold Msvm_ComputerSystem_named. rewrite filter_In.
  split; intros [Hin Heq]; split; auto.
  - now apply String.eqb_eq.
  - now apply String.eqb_eq.
Qed.

(** C8: [_find_vm] returns the handle when exactly one computer system
    carries the name, [None] when none does, and raises the duplicate-name
    error, returning no handle at all, when more than one does. *)
Theorem find_vm_one_none_or_duplicate (conn : Connection) (name : string) :
  (forall vm, Msvm_ComputerSystem_named conn name = [vm] ->
              _find_vm conn name = Return (Some vm)) /\
  (Msvm_ComputerSystem_named conn name = [] -> _find_vm conn name = Return None) /\
  ((1 < List.length (Msvm_ComputerSystem_named conn name))%nat ->
   _find_vm conn name
   = Raise (GNS3VMError (Fmt "Duplicate VM name found for {}" [Lit name]))).
Proof.
  unfold _find_vm. repeat split.
  - intros vm ->. reflexivity.
  - intros ->. reflexivity.
  - intros Hlen.
    destruct (Msvm_ComputerSystem_named conn name) as [|v1 [|v2 rest]] eqn:E;
      simpl in Hlen; try lia.
    remember (Z.of_nat (List.length (v1 :: v2 :: rest))) as n eqn:Hn.
    assert (1 < n) by (subst n; simpl List.length; lia).
    destruct (n =? 0) eqn:E0; [apply Z.eqb_eq in E0; lia|].
    destruct (n >? 1) eqn:E1; [reflexivity|].
    rewrite Z.gtb_ltb in E1. apply Z.ltb_ge in E1. lia.
Qed.

(** The polling loop: a job seen running [k] more times and then in another
    state is waited for with [k] sleeps of the fixed delay and [k] further
    reads. *)
Lemma wait_job_leaves_running (b : Backend) (path : string) (k : nat) :
  forall (fuel : nat) (io : IO) (j : nat),
    (forall i, (i < k)%nat ->
               JobState (moniker b (replace_backslash path) (j + i)) = _WMI_JOB_STATE_RUNNING) ->
    JobState (moniker b (replace_backslash path) (j + k)) <> _WMI_JOB_STATE_RUNNING ->
    (k <= fuel)%nat ->
    wmi_reads io = S j ->
    wait_job fuel b path (moniker b (replace_backslash path) j) io
    = Some (moniker b (replace_backslash path) (j + k),
            {| wmi_reads := S (j + k); sleeps := sleeps io ++ repeat POLL_DELAY_MS k;
               state_requests := state_requests io; resources := resources io |}).
Proof.
  induction k as [|k IH]; intros fuel io j Hrun Hend Hfuel Hreads.
  - rewrite Nat.add_0_r in *.
    assert (E : (JobState (moniker b (replace_backslash path) j) =? _WMI_JOB_STATE_RUNNING) = false)
      by (apply Z.eqb_neq; exact Hend).
    destruct fuel; simpl; rewrite E; destruct io; simpl in *; subst;
      rewrite app_nil_r; reflexivity.
  - destruct fuel as [|fuel]; [lia|].
    assert (E : (JobState (moniker b (replace_backslash path) j) =? _WMI_JOB_STATE_RUNNING) = true).
    { apply Z.eqb_eq. specialize (Hrun 0%nat). rewrite Nat.add_0_r in Hrun. apply Hrun. lia. }
    simpl. rewrite E. unfold _get_wmi_obj, sleep. simpl. rewrite Hreads.
    rewrite (IH fuel _ (S j)).
    + simpl. replace (S (j + k)) with (j + S k)%nat by lia.
      rewrite <- app_assoc. reflexivity.
    + intros i Hi. replace (S j + i)%nat with (j + S i)%nat by lia. apply Hrun. lia.
    + replace (S j + k)%nat with (j + S k)%nat by lia. exact Hend.
    + lia.
    + reflexivity.
Qed.

(** C5: when the request is answered with a started job, [_set_state] reads
    the job, sleeps the fixed 100 ms between two reads while it is running,
    and once it has left the running state succeeds exactly when the state
    is "completed", raising the job's error description otherwise; a job
    reported running [k] times and then completed costs [k + 1] reads. *)
Theorem set_state_polls_until_job_leaves_running
    (fuel : nat) (b : Backend) (self : HyperVGNS3VM) (vm : Msvm_ComputerSystem)
    (state : Z) (io : IO) (job_path : string) (k : nat) :
  let report i := moniker b (replace_backslash job_path) (wmi_reads io + i) in
  _vm self = Some vm ->
  RequestStateChange b vm state = (job_path, _WMI_JOB_STATUS_STARTED) ->
  (forall i, (i < k)%nat -> JobState (report i) = _WMI_JOB_STATE_RUNNING) ->
  JobState (report k) <> _WMI_JOB_STATE_RUNNING ->
  (k <= fuel)%nat ->
  _set_state fuel b self state io
  = Some (if JobState (report k) =? _WMI_JOB_STATE_COMPLETED then Return tt
          else Raise (GNS3VMError (Fmt "Error while changing state: {}"
                                       [Lit (ErrorSummaryDescription (report k))])),
          {| wmi_reads := wmi_reads io + (k + 1); sleeps := sleeps io ++ repeat POLL_DELAY_MS k;
             state_requests := state_requests io ++ [state]; resources := resources io |}).
Proof.
  intros report Hvm Hreq Hrun Hend Hfuel.
  unfold _set_state. rewrite Hvm, Hreq. rewrite Z.eqb_refl.
  unfold _get_wmi_obj. simpl.
  rewrite (wait_job_leaves_running b job_path k fuel
    {| wmi_reads := S (wmi_reads io); sleeps := sleeps io;
       state_requests := state_requests io ++ [state]; resources := resources io |}
    (wmi_reads io) Hrun Hend Hfuel eq_refl).
  simpl. fold (report k).
  replace (S (wmi_reads io + k)) with (wmi_reads io + (k + 1))%nat by lia.
  destruct (JobState (report k) =? _WMI_JOB_STATE_COMPLETED); reflexivity.
Qed.

End HyperVFacts.

Section HyperVTransitions.
Import HyperV.

(** Every result code other than "job started" makes [_set_state] raise:
    the test [ret != 0 or ret != 32775] holds of every integer. *)
Lemma set_state_immediate_result_raises
    (fuel : nat) (b : Backend) (self : HyperVGNS3VM) (vm : Msvm_ComputerSystem)
    (state : Z) (io : IO) (job_path : string) (ret : Z) :
  _vm self = Some vm ->
  RequestStateChange b vm state = (job_path, ret) ->
  ret <> _WMI_JOB_STATUS_STARTED ->
  _set_state fuel b self state io
  = Some (Raise (GNS3VMError (Fmt "Failed to change state to {}" [OfValue (VInt state)])),
          {| wmi_reads := wmi_reads io; sleeps := sleeps io;
             state_requests := state_requests io ++ [state]; resources := resources io |}).
Proof.
  intros Hvm Hreq Hret. unfold _set_state. rewrite Hvm, Hreq.
  destruct (ret =? _WMI_JOB_STATUS_STARTED) eqn:E; [apply Z.eqb_eq in E; contradiction|].
  destruct (ret =? 0) eqn:E0; simpl.
  - apply Z.eqb_eq in E0. subst ret. reflexivity.
  - reflexivity.
Qed.

(** C2: on the immediate success code 0 (and likewise 32775) [_set_state]
    raises "Failed to change state" instead of returning. *)
Theorem set_state_success_code_raises
    (fuel : nat) (b : Backend) (self : HyperVGNS3VM) (vm : Msvm_ComputerSystem)
    (state : Z) (io : IO) (job_path : string) (ret : Z) :
  _vm self = Some vm ->
  RequestStateChange b vm state = (job_path, ret) ->
  ret = 0 \/ ret = 32775 ->
  exists io',
    _set_state fuel b self state io
    = Some (Raise (GNS3VMError (Fmt "Failed to change state to {}" [OfValue (VInt state)])), io').
Proof.
  intros Hvm Hreq Hret. eexists.
  apply (set_state_immediate_result_raises fuel b self vm state io job_path ret Hvm Hreq).
  unfold _WMI_JOB_STATUS_STARTED. lia.
Qed.

Lemma set_state_success_code_raises_witness :
  exists io',
    _set_state 0 (host 0 job_completed) connected_controller _HYPERV_VM_STATE_ENABLED io0
    = Some (Raise (GNS3VMError (Fmt "Failed to change state to {}" [OfValue (VInt 2)])), io').
Proof.
  apply (set_state_success_code_raises 0 (host 0 job_completed) connected_controller gns3_vm
           _HYPERV_VM_STATE_ENABLED io0
           "\\HOST\root\virtualization\v2:Msvm_ConcreteJob.InstanceID=1" 0).
  - reflexivity.
  - reflexivity.
  - left. reflexivity.
Defined.

(** What the polling loop hands back was read from the job and is not the
    running state. *)
Lemma wait_job_result (b : Backend) (path : string) :
  forall (fuel : nat) (job : Msvm_ConcreteJob) (io : IO) (job' : Msvm_ConcreteJob) (io' : IO),
    wait_job fuel b path job io = Some (job', io') ->
    job = moniker b (replace_backslash path) (pred (wmi_reads io)) ->
    (0 < wmi_reads io)%nat ->
    job' = moniker b (replace_backslash path) (pred (wmi_reads io'))
    /\ (wmi_reads io <= wmi_reads io')%nat
    /\ JobState job' <> _WMI_JOB_STATE_RUNNING.
Proof.
  induction fuel as [|fuel IH]; intros job io job' io' Hw Hjob Hpos; simpl in Hw.
  - destruct (JobState job =? _WMI_JOB_STATE_RUNNING) eqn:E; [discriminate|].
    injection Hw as <- <-. apply Z.eqb_neq in E. auto.
  - destruct (JobState job =? _WMI_JOB_STATE_RUNNING) eqn:E.
    + apply IH in Hw; simpl in *.
      * destruct Hw as (H1 & H2 & H3). repeat split; auto. lia.
      * reflexivity.
      * lia.
    + injection Hw as <- <-. apply Z.eqb_neq in E. auto.
Qed.

(** [_set_state] returns without an exception only after a started job has
    been read in the completed state. *)
Lemma set_state_returns_only_on_completed_job
    (fuel : nat) (b : Backend) (self : HyperVGNS3VM) (state : Z) (io io' : IO) :
  _set_state fuel b self state io = Some (Return tt, io') ->
  exists vm job_path n,
    _vm self = Some vm
    /\ RequestStateChange b vm state = (job_path, _WMI_JOB_STATUS_STARTED)
    /\ (wmi_reads io <= n < wmi_reads io')%nat
    /\ JobState (moniker b (replace_backslash job_path) n) = _WMI_JOB_STATE_COMPLETED.
Proof.
  unfold _set_state. intros H.
  destruct (_vm self) as [vm|]; [|discriminate].
  destruct (RequestStateChange b vm state) as [job_path ret] eqn:Hreq.
  destruct (ret =? _WMI_JOB_STATUS_STARTED) eqn:E.
  - apply Z.eqb_eq in E. subst ret.
    unfold _get_wmi_obj in H.
    match type of H with
    | match wait_job ?f ?b ?p ?j ?i with _ => _ end = _ =>
      destruct (wait_job f b p j i) as [[job' io3]|] eqn:Hw; [|discriminate]
    end.
    apply wait_job_result in Hw; simpl; [|reflexivity|lia].
    simpl in Hw. destruct Hw as (Hjob & Hle & _).
    destruct (JobState job' =? _WMI_JOB_STATE_COMPLETED) eqn:Ec; simpl in H; [|discriminate].
    injection H as <-. apply Z.eqb_eq in Ec.
    exists vm, job_path, (pred (wmi_reads io3)).
    subst job'. repeat split; auto; lia.
  - destruct (negb (ret =? 0) || negb (ret =? 32775)) eqn:E2; [discriminate|].
    destruct (ret =? 0) eqn:E0; simpl in E2; [|discriminate].
    apply Z.eqb_eq in E0. subst ret. discriminate.
Qed.

Lemma lazy_connect_keeps_running (b : Backend) (self : HyperVGNS3VM) :
  running (snd (lazy_connect b self)) = running self.
Proof.
  unfold lazy_connect, _connect.
  destruct (_conn self); [reflexivity|].
  destruct (_check_requirements b); [|reflexivity].
  destruct (virtualization_v2 b) as [c|]; simpl; [|reflexivity].
  destruct (Msvm_VirtualSystemManagementService c); [reflexivity|].
  destruct (_find_vm c (vmname self)); reflexivity.
Qed.

(** C6: [start] leaves the mirrored [running] flag as it was whenever it
    raises, and a flag that becomes true does so in a run that returned and
    in which the machine was either observed enabled after connecting or
    driven through a started job that was read in the completed state; the
    acceptance of the request alone never sets it. *)
Theorem start_sets_running_only_when_confirmed
    (fuel : nat) (b : Backend) (self self' : HyperVGNS3VM) (io io' : IO) (r : result unit) :
  start fuel b self io = Some (r, self', io') ->
  (forall e, r = Raise e -> running self' = running self)
  /\ (r = Return tt -> running self' = true)
  /\ (running self = false -> running self' = true ->
      r = Return tt
      /\ (_is_running (snd (lazy_connect b self)) = true
          \/ exists vm job_path n,
               _vm (snd (lazy_connect b self)) = Some vm
               /\ RequestStateChange b vm _HYPERV_VM_STATE_ENABLED
                  = (job_path, _WMI_JOB_STATUS_STARTED)
               /\ (n < wmi_reads io')%nat
               /\ JobState (moniker b (replace_backslash job_path) n)
                  = _WMI_JOB_STATE_COMPLETED)).
Proof.
  unfold start. intros H.
  pose proof (lazy_connect_keeps_running b self) as Hk.
  destruct (lazy_connect b self) as [[[]|e0] self1]; simpl in *.
  - destruct (_is_running self1) eqn:Hrun; simpl in H.
    + injection H as <- <- <-. simpl. repeat split; auto. discriminate.
    + destruct (_set_vcpus_ram b self1 (vcpus self1) (ram self1) io) as [[[]|e1] io1].
      * destruct (_set_state fuel b self1 _HYPERV_VM_STATE_ENABLED io1)
          as [[[[]|e2] io2]|] eqn:Hs; [| |discriminate].
        -- simpl in H. injection H as <- <- <-. simpl.
           apply set_state_returns_only_on_completed_job in Hs.
           destruct Hs as (vm & jp & n & Hvm & Hreq & Hn & Hjob).
           repeat split; auto; try discriminate.
           right. exists vm, jp, n. repeat split; auto. lia.
        -- destruct e2; simpl in H; injection H as <- <- <-;
             (repeat split; [intros; congruence | discriminate | congruence | congruence]).
      * injection H as <- <- <-.
        repeat split; [intros; congruence | discriminate | congruence | congruence].
  - injection H as <- <- <-.
    repeat split; [intros; congruence | discriminate | congruence | congruence].
Qed.

End HyperVTransitions.

Section HyperVWitnesses.
Import HyperV.

Lemma find_vm_one_none_or_duplicate_witness :
  (Msvm_ComputerSystem_named conn_single "GNS3 VM" = [gns3_vm]
   /\ _find_vm conn_single "GNS3 VM" = Return (Some gns3_vm))
  /\ (Msvm_ComputerSystem_named conn_single "router" = []
      /\ _find_vm conn_single "router" = Return None)
  /\ ((1 < List.length (Msvm_ComputerSystem_named conn_duplicate "GNS3 VM"))%nat
      /\ _find_vm conn_duplicate "GNS3 VM"
         = Raise (GNS3VMError (Fmt "Duplicate VM name found for {}" [Lit "GNS3 VM"]))).
Proof.
  split; [|split]; split.
  - reflexivity.
  - apply (proj1 (find_vm_one_none_or_duplicate conn_single "GNS3 VM")). reflexivity.
  - reflexivity.
  - apply (proj1 (proj2 (find_vm_one_none_or_duplicate conn_single "router"))). reflexivity.
  - vm_compute. lia.
  - apply (proj2 (proj2 (find_vm_one_none_or_duplicate conn_duplicate "GNS3 VM"))).
    vm_compute. lia.
Defined.

Lemma set_state_polls_until_job_leaves_running_witness :
  _set_state 3 (host _WMI_JOB_STATUS_STARTED job_completed) connected_controller
             _HYPERV_VM_STATE_ENABLED io0
  = Some (Return tt,
          {| wmi_reads := 4; sleeps := [100; 100; 100];
             state_requests := [2]; resources := None |})
  /\ _set_state 3 (host _WMI_JOB_STATUS_STARTED job_failed) connected_controller
                _HYPERV_VM_STATE_ENABLED io0
     = Some (Raise (GNS3VMError (Fmt "Error while changing state: {}"
                                     [Lit "The operation failed"])),
             {| wmi_reads := 4; sleeps := [100; 100; 100];
                state_requests := [2]; resources := None |}).
Proof.
  split.
  - apply (set_state_polls_until_job_leaves_running 3
             (host _WMI_JOB_STATUS_STARTED job_completed) connected_controller gns3_vm
             _HYPERV_VM_STATE_ENABLED io0
             "\\HOST\root\virtualization\v2:Msvm_ConcreteJob.InstanceID=1" 3).
    + reflexivity.
    + reflexivity.
    + intros [|[|[|i]]] Hi; try reflexivity. lia.
    + vm_compute. discriminate.
    + lia.
  - apply (set_state_polls_until_job_leaves_running 3
             (host _WMI_JOB_STATUS_STARTED job_failed) connected_controller gns3_vm
             _HYPERV_VM_STATE_ENABLED io0
             "\\HOST\root\virtualization\v2:Msvm_ConcreteJob.InstanceID=1" 3).
    + reflexivity.
    + reflexivity.
    + intros [|[|[|i]]] Hi; try reflexivity. lia.
    + vm_compute. discriminate.
    + lia.
Defined.

Lemma start_sets_running_only_when_confirmed_witness :
  start 3 (host _WMI_JOB_STATUS_STARTED job_completed) controller io0
  = Some (Return tt, set_running true connected_controller,
          {| wmi_reads := 4; sleeps := [100; 100; 100];
             state_requests := [2]; resources := Some (1, 2048) |})
  /\ running controller = false
  /\ running (set_running true connected_controller) = true
  /\ exists vm job_path n,
       _vm (snd (lazy_connect (host _WMI_JOB_STATUS_STARTED job_completed) controller)) = Some vm
       /\ RequestStateChange (host _WMI_JOB_STATUS_STARTED job_completed) vm
                             _HYPERV_VM_STATE_ENABLED
          = (job_path, _WMI_JOB_STATUS_STARTED)
       /\ (n < 4)%nat
       /\ JobState (moniker (host _WMI_JOB_STATUS_STARTED job_completed)
                            (replace_backslash job_path) n)
          = _WMI_JOB_STATE_COMPLETED.
Proof.
  assert (Hrun : start 3 (host _WMI_JOB_STATUS_STARTED job_completed) controller io0
                 = Some (Return tt, set_running true connected_controller,
                         {| wmi_reads := 4; sleeps := [100; 100; 100];
                            state_requests := [2]; resources := Some (1, 2048) |}))
    by (vm_compute; reflexivity).
  split; [exact Hrun|]. split; [reflexivity|]. split; [reflexivity|].
  destruct (start_sets_running_only_when_confirmed _ _ _ _ _ _ _ Hrun) as (_ & _ & H).
  destruct (H eq_refl eq_refl) as (_ & [Hobs | Hjob]).
  - vm_compute in Hobs. discriminate.
  - exact Hjob.
Defined.

End HyperVWitnesses.

(** * Properties of the VPCS module *)

Section PortProbe.
Import Vpcs.

(** The first element of an integer interval that passes a test. *)
Lemma find_seqZ_first (f : Z -> bool) (p : Z) (m : nat) :
  forall lo : Z,
    List.find f (seqZ lo (Z.of_nat m)) = Some p <->
    lo <= p < lo + Z.of_nat m /\ f p = true /\ (forall q, lo <= q < p -> f q = false).
Proof.
  induction m as [|m IH]; intros lo.
  - rewrite seqZ_nil by lia. simpl. split; [discriminate | lia].
  - rewrite seqZ_cons by lia.
    replace (Z.pred (Z.of_nat (S m))) with (Z.of_nat m) by lia.
    simpl. destruct (f lo) eqn:Hlo.
    + split.
      * intros [= <-]. repeat split; auto; try lia; try (intros q Hq; lia).
      * intros (Hr & Hp & Hfirst). f_equal.
        destruct (Z.eq_dec lo p) as [|Hne]; [assumption|].
        rewrite (Hfirst lo) in Hlo by lia. discriminate.
    + rewrite IH. split.
      * intros (Hr & Hp & Hfirst). repeat split; try lia; auto.
        intros q Hq. destruct (Z.eq_dec q lo) as [->|]; [assumption|].
        apply Hfirst. lia.
      * intros (Hr & Hp & Hfirst).
        assert (p <> lo) by (intros ->; congruence).
        repeat split; try lia; auto. intros q Hq. apply Hfirst. lia.
Qed.

Lemma find_seqZ_none (f : Z -> bool) (m : nat) :
  forall lo : Z,
    List.find f (seqZ lo (Z.of_nat m)) = None <->
    (forall q, lo <= q < lo + Z.of_nat m -> f q = false).
Proof.
  induction m as [|m IH]; intros lo.
  - rewrite seqZ_nil by lia. simpl. split; [intros _ q Hq; lia | reflexivity].
  - rewrite seqZ_cons by lia.
    replace (Z.pred (Z.of_nat (S m))) with (Z.of_nat m) by lia.
    simpl. destruct (f lo) eqn:Hlo.
    + split; [discriminate|]. intros H. rewrite (H lo) in Hlo by lia. discriminate.
    + rewrite IH. split.
      * intros H q Hq. destruct (Z.eq_dec q lo) as [->|]; [assumption|]. apply H. lia.
      * intros H q Hq. apply H. lia.
Qed.

(** [find_unused_port] hands out the first port of the interval that can be
    bound, and raises exactly when none can. *)
Lemma find_unused_port_Return (env : Env) (lo hi : Z) (host : string) (st : socket_type)
    (p : Z) :
  find_unused_port env lo hi host st = Return p <->
  lo <= p <= hi /\ can_bind env st host p = true
  /\ (forall q, lo <= q < p -> can_bind env st host q = false).
Proof.
  unfold find_unused_port.
  destruct (Z_le_gt_dec (hi + 1 - lo) 0) as [Hempty|Hpos].
  - rewrite seqZ_nil by lia. simpl. split; [discriminate | lia].
  - replace (hi + 1 - lo) with (Z.of_nat (Z.to_nat (hi + 1 - lo))) by lia.
    destruct (List.find _ _) as [p'|] eqn:Hf.
    + apply find_seqZ_first in Hf. split.
      * intros [= <-]. destruct Hf as (? & ? & ?). repeat split; auto; lia.
      * intros (Hr & Hp & Hfirst). f_equal.
        destruct Hf as (Hr' & Hp' & Hfirst').
        destruct (Z.lt_trichotomy p p') as [Hlt|[Heq|Hgt]]; [|lia|].
        -- rewrite (Hfirst' p) in Hp by lia. discriminate.
        -- rewrite (Hfirst p') in Hp' by lia. discriminate.
    + split; [discriminate|]. intros (Hr & Hp & _).
      rewrite find_seqZ_none in Hf. rewrite (Hf p) in Hp by lia. discriminate.
Qed.

Lemma find_unused_port_Raise (env : Env) (lo hi : Z) (host : string) (st : socket_type) :
  (exists e, find_unused_port env lo hi host st = Raise e) <->
  (forall q, lo <= q <= hi -> can_bind env st host q = false).
Proof.
  split.
  - intros [e He] q Hq. destruct (can_bind env st host q) eqn:Hb; [|reflexivity].
    exfalso. unfold find_unused_port in He.
    destruct (List.find _ _) as [p|] eqn:Hf; [discriminate|].
    replace (hi + 1 - lo) with (Z.of_nat (Z.to_nat (hi + 1 - lo))) in Hf by lia.
    rewrite find_seqZ_none in Hf. rewrite (Hf q) in Hb by lia. discriminate.
  - intros H. destruct (find_unused_port env lo hi host st) as [p|e] eqn:Hf; [|eauto].
    apply find_unused_port_Return in Hf. destruct Hf as (Hr & Hp & _).
    rewrite (H p) in Hp by lia. discriminate.
Qed.

(** The two pools in one shape: the scan starts where the cursor stands
    after the reset test, a failure leaves the cursor there and a success
    moves it one further. *)
Lemma allocate_console_port_unfold (env : Env) (s : VPCS) :
  allocate_console_port env s =
  match as_VPCSError (find_unused_port env (console_scan_start s)
                                       (_console_end_port_range s) (_host s) TCP) with
  | Raise e => (Raise e, set_current_console_port (console_scan_start s) s)
  | Return port => (Return port, set_current_console_port (console_scan_start s + 1) s)
  end.
Proof.
  unfold allocate_console_port, console_scan_start.
  destruct s; simpl.
  destruct (_ >? _); simpl; destruct (find_unused_port _ _ _ _ _); reflexivity.
Qed.

Lemma allocate_udp_unfold (env : Env) (s : VPCS) :
  allocate_udp env s =
  match as_VPCSError (find_unused_port env (udp_scan_start s)
                                       (_udp_end_port_range s) (_host s) UDP) with
  | Raise e => (Raise e, set_current_udp_port (udp_scan_start s) s)
  | Return port => (Return port, set_current_udp_port (udp_scan_start s + 1) s)
  end.
Proof.
  unfold allocate_udp, udp_scan_start.
  destruct s; simpl.
  destruct (_ >=? _); simpl; destruct (find_unused_port _ _ _ _ _); reflexivity.
Qed.

Lemma as_VPCSError_Return {A} (r : result A) (a : A) :
  as_VPCSError r = Return a <-> r = Return a.
Proof. destruct r; simpl; split; congruence. Qed.

End PortProbe.

(** Sequences of allocations, for any pool of that shape. *)
Section Pool.
Import Vpcs.

Variable st : socket_type.
Variable step : Env -> VPCS -> result Z * VPCS.
Variables lo hi cur scan : VPCS -> Z.

Hypothesis step_success : forall env s p s',
  step env s = (Return p, s') ->
  scan s <= p <= hi s /\ can_bind env st (_host s) p = true /\ cur s' = scan s + 1.
Hypothesis step_failure : forall env s e s',
  step env s = (Raise e, s') -> cur s' = scan s.
Hypothesis step_frame : forall env s,
  lo (snd (step env s)) = lo s /\ hi (snd (step env s)) = hi s
  /\ _host (snd (step env s)) = _host s.
Hypothesis scan_above_start : forall s, lo s <= cur s -> lo s <= scan s.

Lemma pool_ports_in_range (envs : list Env) :
  forall s, lo s <= cur s ->
            Forall (fun p => lo s <= p <= hi s) (returned (fst (allocations step envs s))).
Proof.
  induction envs as [|env rest IH]; intros s Hinv; simpl; [constructor|].
  destruct (step env s) as [r s1] eqn:Hstep.
  pose proof (step_frame env s) as (Hlo & Hhi & _). rewrite Hstep in Hlo, Hhi. simpl in Hlo, Hhi.
  specialize (IH s1). rewrite Hlo, Hhi in IH.
  destruct (allocations step rest s1) as [rs s2] eqn:Hrest. simpl in *.
  pose proof (scan_above_start s Hinv) as Hscan.
  destruct r as [p|e]; simpl.
  - apply step_success in Hstep. destruct Hstep as (Hr & _ & Hcur).
    constructor; [lia|]. apply IH. lia.
  - apply step_failure in Hstep. apply IH. lia.
Qed.

Lemma returned_lookup (rs : list (result Z)) (p : Z) :
  In p (returned rs) -> exists i, rs !! i = Some (Return p).
Proof.
  induction rs as [|[q|e] rs IH]; simpl; [tauto| |].
  - intros [->|Hin]; [exists 0%nat; reflexivity|].
    destruct (IH Hin) as [i Hi]. exists (S i). exact Hi.
  - intros Hin. destruct (IH Hin) as [i Hi]. exists (S i). exact Hi.
Qed.

Lemma allocations_lookup (envs : list Env) :
  forall s i p,
    fst (allocations step envs s) !! i = Some (Return p) ->
    exists env, envs !! i = Some env /\ can_bind env st (_host s) p = true.
Proof.
  induction envs as [|env rest IH]; intros s i p; simpl; [discriminate|].
  destruct (step env s) as [r s1] eqn:Hstep.
  pose proof (step_frame env s) as (_ & _ & Hhost). rewrite Hstep in Hhost. simpl in Hhost.
  specialize (IH s1).
  destruct (allocations step rest s1) as [rs s2]. simpl in *.
  destruct i as [|i]; simpl.
  - intros [= ->]. exists env. split; [reflexivity|].
    apply step_success in Hstep. tauto.
  - intros Hi. destruct (IH _ _ Hi) as (env' & He & Hb). rewrite Hhost in Hb. eauto.
Qed.

Lemma pool_ports_distinct (envs : list Env) :
  forall s,
    (forall i j env p,
        (i < j)%nat ->
        fst (allocations step envs s) !! i = Some (Return p) ->
        envs !! j = Some env ->
        can_bind env st (_host s) p = false) ->
    List.NoDup (returned (fst (allocations step envs s))).
Proof.
  induction envs as [|env rest IH]; intros s Hheld; simpl; [constructor|].
  simpl in Hheld.
  destruct (step env s) as [r s1] eqn:Hstep.
  pose proof (step_frame env s) as (_ & _ & Hhost). rewrite Hstep in Hhost. simpl in Hhost.
  specialize (IH s1).
  pose proof (allocations_lookup rest s1) as Hlook.
  destruct (allocations step rest s1) as [rs s2]. simpl in *.
  assert (Hrest : List.NoDup (returned rs)).
  { apply IH. intros i j env' p Hij Hi Hj. rewrite Hhost.
    apply (Hheld (S i) (S j) env' p); [lia | exact Hi | exact Hj]. }
  destruct r as [p|e]; simpl; [|exact Hrest].
  constructor; [|exact Hrest].
  intros Hin. apply returned_lookup in Hin. destruct Hin as [i Hi].
  destruct (Hlook _ _ Hi) as (env' & He & Hb). rewrite Hhost in Hb.
  rewrite (Hheld 0%nat (S i) env' p) in Hb; [discriminate | lia | reflexivity | exact He].
Qed.

End Pool.

Section Pools.
Import Vpcs.

Lemma console_step_success env s p s' :
  allocate_console_port env s = (Return p, s') ->
  console_scan_start s <= p <= _console_end_port_range s
  /\ can_bind env TCP (_host s) p = true
  /\ _current_console_port s' = console_scan_start s + 1.
Proof.
  rewrite allocate_console_port_unfold.
  destruct (find_unused_port _ _ _ _ _) as [q|e] eqn:Hf; simpl; [|discriminate].
  intros [= <- <-]. apply find_unused_port_Return in Hf. simpl. tauto.
Qed.

Lemma console_step_failure env s e s' :
  allocate_console_port env s = (Raise e, s') ->
  _current_console_port s' = console_scan_start s.
Proof.
  rewrite allocate_console_port_unfold.
  destruct (find_unused_port _ _ _ _ _) as [q|e0]; simpl; [discriminate|].
  intros [= <- <-]. reflexivity.
Qed.

Lemma console_step_frame env s :
  _console_start_port_range (snd (allocate_console_port env s)) = _console_start_port_range s
  /\ _console_end_port_range (snd (allocate_console_port env s)) = _console_end_port_range s
  /\ _host (snd (allocate_console_port env s)) = _host s.
Proof.
  rewrite allocate_console_port_unfold.
  destruct (find_unused_port _ _ _ _ _); simpl; auto.
Qed.

Lemma console_scan_above_start s :
  _console_start_port_range s <= _current_console_port s ->
  _console_start_port_range s <= console_scan_start s.
Proof. unfold console_scan_start. destruct (_ >? _); lia. Qed.

Lemma udp_step_success env s p s' :
  allocate_udp env s = (Return p, s') ->
  udp_scan_start s <= p <= _udp_end_port_range s
  /\ can_bind env UDP (_host s) p = true
  /\ _current_udp_port s' = udp_scan_start s + 1.
Proof.
  rewrite allocate_udp_unfold.
  destruct (find_unused_port _ _ _ _ _) as [q|e] eqn:Hf; simpl; [|discriminate].
  intros [= <- <-]. apply find_unused_port_Return in Hf. simpl. tauto.
Qed.

Lemma udp_step_failure env s e s' :
  allocate_udp env s = (Raise e, s') -> _current_udp_port s' = udp_scan_start s.
Proof.
  rewrite allocate_udp_unfold.
  destruct (find_unused_port _ _ _ _ _) as [q|e0]; simpl; [discriminate|].
  intros [= <- <-]. reflexivity.
Qed.

Lemma udp_step_frame env s :
  _udp_start_port_range (snd (allocate_udp env s)) = _udp_start_port_range s
  /\ _udp_end_port_range (snd (allocate_udp env s)) = _udp_end_port_range s
  /\ _host (snd (allocate_udp env s)) = _host s.
Proof.
  rewrite allocate_udp_unfold.
  destruct (find_unused_port _ _ _ _ _); simpl; auto.
Qed.

Lemma udp_scan_above_start s :
  _udp_start_port_range s <= _current_udp_port s ->
  _udp_start_port_range s <= udp_scan_start s.
Proof. unfold udp_scan_start. destruct (_ >=? _); lia. Qed.

(** C3, as the code has it: over any run of allocations on the console pool
    or on the data pool, started with the cursor not below the range start,
    every port handed out lies within the configured range; the ports are
    pairwise distinct provided each port handed out can no longer be bound
    when a later allocation probes it.  The pools keep no record of the
    ports they handed out. *)
Theorem allocated_ports_in_range_and_distinct_while_bound (envs : list Env) (s : VPCS) :
  (_console_start_port_range s <= _current_console_port s ->
   Forall (fun p => _console_start_port_range s <= p <= _console_end_port_range s)
          (returned (fst (allocations allocate_console_port envs s))))
  /\ ((forall i j env p,
          (i < j)%nat ->
          fst (allocations allocate_console_port envs s) !! i = Some (Return p) ->
          envs !! j = Some env ->
          can_bind env TCP (_host s) p = false) ->
      List.NoDup (returned (fst (allocations allocate_console_port envs s))))
  /\ (_udp_start_port_range s <= _current_udp_port s ->
      Forall (fun p => _udp_start_port_range s <= p <= _udp_end_port_range s)
             (returned (fst (allocations allocate_udp envs s))))
  /\ ((forall i j env p,
          (i < j)%nat ->
          fst (allocations allocate_udp envs s) !! i = Some (Return p) ->
          envs !! j = Some env ->
          can_bind env UDP (_host s) p = false) ->
      List.NoDup (returned (fst (allocations allocate_udp envs s)))).
Proof.
  repeat split.
  - apply (pool_ports_in_range TCP allocate_console_port
             _console_start_port_range _console_end_port_range
             _current_console_port console_scan_start);
      eauto using console_step_success, console_step_failure, console_step_frame,
                  console_scan_above_start.
  - apply (pool_ports_distinct TCP allocate_console_port
             _console_start_port_range _console_end_port_range
             _current_console_port console_scan_start).
    + intros env s0 p s' H. apply console_step_success in H. tauto.
    + intros env s0. apply console_step_frame.
  - apply (pool_ports_in_range UDP allocate_udp
             _udp_start_port_range _udp_end_port_range _current_udp_port udp_scan_start);
      eauto using udp_step_success, udp_step_failure, udp_step_frame, udp_scan_above_start.
  - apply (pool_ports_distinct UDP allocate_udp
             _udp_start_port_range _udp_end_port_range _current_udp_port udp_scan_start).
    + intros env s0 p s' H. apply udp_step_success in H. tauto.
    + intros env s0. apply udp_step_frame.
Qed.

End Pools.

Section PoolClaims.
Import Vpcs.

Lemma allocated_ports_in_range_and_distinct_while_bound_witness :
  (Forall (fun p => 4001 <= p <= 4003)
          (returned (fst (allocations allocate_console_port
                            [free_from 4001; free_from 4002; free_from 4003; free_from 4004]
                            small_console_pool)))
   /\ List.NoDup (returned (fst (allocations allocate_console_port
                            [free_from 4001; free_from 4002; free_from 4003; free_from 4004]
                            small_console_pool))))
  /\ (Forall (fun p => 30001 <= p <= 40001)
             (returned (fst (allocations allocate_udp
                               [free_from 30001; free_from 30002] module0)))
      /\ List.NoDup (returned (fst (allocations allocate_udp
                               [free_from 30001; free_from 30002] module0)))).
Proof.
  pose proof (allocated_ports_in_range_and_distinct_while_bound
                [free_from 4001; free_from 4002; free_from 4003; free_from 4004]
                small_console_pool) as (Hrange & Hdistinct & _ & _).
  pose proof (allocated_ports_in_range_and_distinct_while_bound
                [free_from 30001; free_from 30002] module0) as (_ & _ & Hurange & Hudistinct).
  split; split.
  - apply Hrange. vm_compute. discriminate.
  - apply Hdistinct. intros i j env p Hij Hi Hj.
    assert (E : fst (allocations allocate_console_port
                       [free_from 4001; free_from 4002; free_from 4003; free_from 4004]
                       small_console_pool)
                = [Return 4001; Return 4002; Return 4003;
                   Raise (VPCSError (Fmt "Could not find a free port between {} and {} on host {}"
                                         [OfValue (VInt 4001); OfValue (VInt 4003);
                                          Lit "127.0.0.1"]))])
      by (vm_compute; reflexivity).
    rewrite E in Hi.
    destruct i as [|[|[|[|i]]]]; simpl in Hi; try discriminate; injection Hi as <-;
      (destruct j as [|[|[|[|j]]]]; simpl in Hj; try discriminate; try lia;
       injection Hj as <-; reflexivity).
  - apply Hurange. vm_compute. discriminate.
  - apply Hudistinct. intros i j env p Hij Hi Hj.
    assert (E : fst (allocations allocate_udp [free_from 30001; free_from 30002] module0)
                = [Return 30001; Return 30002])
      by (vm_compute; reflexivity).
    rewrite E in Hi.
    destruct i as [|[|i]]; simpl in Hi; try discriminate; injection Hi as <-;
      (destruct j as [|[|j]]; simpl in Hj; try discriminate; try lia;
       injection Hj as <-; reflexivity).
Defined.

(** C3 as stated fails: on the console range 4001 to 4003, with no port
    bound by anyone and nothing released, the fourth allocation hands out
    4001 again. *)
Lemma fourth_allocation_repeats_first_port :
  returned (fst (allocations allocate_console_port
                   [all_free; all_free; all_free; all_free] small_console_pool))
  = [4001; 4002; 4003; 4001]
  /\ ~ List.NoDup (returned (fst (allocations allocate_console_port
                                    [all_free; all_free; all_free; all_free]
                                    small_console_pool))).
Proof.
  assert (E : returned (fst (allocations allocate_console_port
                               [all_free; all_free; all_free; all_free] small_console_pool))
              = [4001; 4002; 4003; 4001]) by (vm_compute; reflexivity).
  split; [exact E|]. rewrite E. intros H.
  apply List.NoDup_cons_iff in H. destruct H as [Hin _].
  apply Hin. simpl. auto.
Qed.

(** C4, as the code has it.  Each allocation scans, first free port first,
    from the cursor as the reset test leaves it.  The console cursor is reset
    to the range start exactly when it has exceeded the range end; the data
    cursor is reset whenever it has exceeded the end and never while it is
    below it.  A successful allocation leaves the cursor one above the start
    of the scan, which is past the port handed out exactly when that port
    was the first candidate. *)
Theorem allocation_scans_from_cursor_and_steps_by_one (env : Env) (s : VPCS) :
  ((_console_end_port_range s < _current_console_port s ->
    console_scan_start s = _console_start_port_range s)
   /\ (_current_console_port s <= _console_end_port_range s ->
       console_scan_start s = _current_console_port s)
   /\ fst (allocate_console_port env s)
      = as_VPCSError (find_unused_port env (console_scan_start s)
                                       (_console_end_port_range s) (_host s) TCP)
   /\ (forall p s',
          allocate_console_port env s = (Return p, s') ->
          console_scan_start s <= p <= _console_end_port_range s
          /\ can_bind env TCP (_host s) p = true
          /\ (forall q, console_scan_start s <= q < p -> can_bind env TCP (_host s) q = false)
          /\ _current_console_port s' = console_scan_start s + 1
          /\ (p < _current_console_port s' <-> p = console_scan_start s)))
  /\ ((_udp_end_port_range s < _current_udp_port s ->
       udp_scan_start s = _udp_start_port_range s)
      /\ (_current_udp_port s < _udp_end_port_range s ->
          udp_scan_start s = _current_udp_port s)
      /\ fst (allocate_udp env s)
         = as_VPCSError (find_unused_port env (udp_scan_start s)
                                          (_udp_end_port_range s) (_host s) UDP)
      /\ (forall p s',
             allocate_udp env s = (Return p, s') ->
             udp_scan_start s <= p <= _udp_end_port_range s
             /\ can_bind env UDP (_host s) p = true
             /\ (forall q, udp_scan_start s <= q < p -> can_bind env UDP (_host s) q = false)
             /\ _current_udp_port s' = udp_scan_start s + 1
             /\ (p < _current_udp_port s' <-> p = udp_scan_start s))).
Proof.
  split.
  - split; [|split; [|split]].
    + unfold console_scan_start. intros H.
      destruct (_ >? _) eqn:E; [reflexivity|].
      rewrite Z.gtb_ltb in E. apply Z.ltb_ge in E. lia.
    + unfold console_scan_start. intros H.
      destruct (_ >? _) eqn:E; [|reflexivity].
      rewrite Z.gtb_ltb in E. apply Z.ltb_lt in E. lia.
    + rewrite allocate_console_port_unfold.
      destruct (find_unused_port _ _ _ _ _); reflexivity.
    + intros p s'. rewrite allocate_console_port_unfold.
      destruct (find_unused_port _ _ _ _ _) as [q|e] eqn:Hf; simpl; [|discriminate].
      intros [= <- <-]. apply find_unused_port_Return in Hf.
      destruct Hf as (Hr & Hb & Hfirst). simpl. repeat split; auto; lia.
  - split; [|split; [|split]].
    + unfold udp_scan_start. intros H.
      destruct (_ >=? _) eqn:E; [reflexivity|].
      rewrite Z.geb_leb in E. apply Z.leb_gt in E. lia.
    + unfold udp_scan_start. intros H.
      destruct (_ >=? _) eqn:E; [|reflexivity].
      rewrite Z.geb_leb in E. apply Z.leb_le in E. lia.
    + rewrite allocate_udp_unfold.
      destruct (find_unused_port _ _ _ _ _); reflexivity.
    + intros p s'. rewrite allocate_udp_unfold.
      destruct (find_unused_port _ _ _ _ _) as [q|e] eqn:Hf; simpl; [|discriminate].
      intros [= <- <-]. apply find_unused_port_Return in Hf.
      destruct Hf as (Hr & Hb & Hfirst). simpl. repeat split; auto; lia.
Qed.

Lemma allocation_scans_from_cursor_and_steps_by_one_witness :
  (_current_console_port small_console_pool <= _console_end_port_range small_console_pool
   /\ console_scan_start small_console_pool = 4001)
  /\ (allocate_console_port first_taken small_console_pool
      = (Return 4002, set_current_console_port 4002 small_console_pool)
      /\ _current_console_port (set_current_console_port 4002 small_console_pool)
         = console_scan_start small_console_pool + 1)
  /\ (_current_udp_port module0 < _udp_end_port_range module0
      /\ udp_scan_start module0 = 30001)
  /\ (allocate_udp all_free module0 = (Return 30001, set_current_udp_port 30002 module0)
      /\ (30001 < _current_udp_port (set_current_udp_port 30002 module0)
          <-> 30001 = udp_scan_start module0)).
Proof.
  pose proof (allocation_scans_from_cursor_and_steps_by_one first_taken small_console_pool)
    as ((_ & Hkeep & _ & Hstep) & _).
  pose proof (allocation_scans_from_cursor_and_steps_by_one all_free module0)
    as (_ & (_ & Hukeep & _ & Hustep)).
  assert (Hc : allocate_console_port first_taken small_console_pool
               = (Return 4002, set_current_console_port 4002 small_console_pool))
    by (vm_compute; reflexivity).
  assert (Hu : allocate_udp all_free module0
               = (Return 30001, set_current_udp_port 30002 module0))
    by (vm_compute; reflexivity).
  split; [|split; [|split]].
  - assert (Hle : _current_console_port small_console_pool
                  <= _console_end_port_range small_console_pool)
      by (vm_compute; discriminate).
    split; [exact Hle | exact (Hkeep Hle)].
  - split; [exact Hc|]. apply (Hstep _ _ Hc).
  - assert (Hlt : _current_udp_port module0 < _udp_end_port_range module0)
      by (vm_compute; reflexivity).
    split; [exact Hlt | exact (Hukeep Hlt)].
  - split; [exact Hu|]. apply (Hustep _ _ Hu).
Defined.

(** C4 as stated fails twice.  With port 4001 bound by another process the
    console pool hands out 4002 and leaves its cursor on 4002, not past it;
    and a data cursor standing on the range end, which it has not exceeded,
    is reset to the range start. *)
Lemma cursor_not_past_port_and_reset_on_end :
  (allocate_console_port first_taken small_console_pool
   = (Return 4002, set_current_console_port 4002 small_console_pool)
   /\ ~ (4002 < _current_console_port (set_current_console_port 4002 small_console_pool)))
  /\ (~ (_udp_end_port_range udp_cursor_at_end < _current_udp_port udp_cursor_at_end)
      /\ udp_scan_start udp_cursor_at_end = _udp_start_port_range udp_cursor_at_end
      /\ udp_scan_start udp_cursor_at_end <> _current_udp_port udp_cursor_at_end
      /\ fst (allocate_udp all_free udp_cursor_at_end) = Return 30001).
Proof.
  split; [split|split; [|split; [|split]]].
  - vm_compute. reflexivity.
  - vm_compute. intros H. discriminate H.
  - vm_compute. intros H. discriminate H.
  - vm_compute. reflexivity.
  - vm_compute. intros H. discriminate H.
  - vm_compute. reflexivity.
Qed.

End PoolClaims.

Section Settings.
Import Vpcs.

(** C10: a settings request with neither [working_dir] nor [project_name]
    does not complete: the lookup of [project_name] raises KeyError, which
    nothing catches, before the working directory or the port ranges of the
    request have been looked at. *)
Theorem settings_without_directory_keys_raises_KeyError
    (env : Env) (request : SettingsRequest) (sys : Sys) :
  rq_working_dir request = None ->
  rq_project_name request = None ->
  exists sys',
    settings env (Some request) sys = (Raise (KeyError "project_name"), sys')
    /\ _working_dir (self sys') = _working_dir (self sys)
    /\ _console_start_port_range (self sys') = _console_start_port_range (self sys)
    /\ _console_end_port_range (self sys') = _console_end_port_range (self sys)
    /\ _udp_start_port_range (self sys') = _udp_start_port_range (self sys)
    /\ _udp_end_port_range (self sys') = _udp_end_port_range (self sys)
    /\ _VPCS_instances (self sys') = _VPCS_instances (self sys)
    /\ world sys' = world sys
    /\ sent sys' = sent sys.
Proof.
  intros Hwd Hpn. unfold settings, new_working_dir, bind, lift, get_self.
  rewrite Hwd, Hpn.
  destruct (rq_VPCS request) as [p|]; [destruct (truthy (VStr p))|];
    simpl; eexists; (split; [reflexivity|]); simpl; repeat split; reflexivity.
Qed.

Lemma settings_without_directory_keys_raises_KeyError_witness :
  fst (settings all_free (Some ranges_only) sys0) = Raise (KeyError "project_name")
  /\ _console_start_port_range (self (snd (settings all_free (Some ranges_only) sys0))) = 4001.
Proof.
  destruct (settings_without_directory_keys_raises_KeyError all_free ranges_only sys0
              eq_refl eq_refl) as (sys' & Hrun & _ & Hlo & _).
  rewrite Hrun. simpl. split; [reflexivity | exact Hlo].
Defined.

End Settings.

Section TapGate.
Import Vpcs.

(** Masking with [1 << 13] tests bit 13. *)
Lemma land_CAP_NET_RAW_bit (w : Z) :
  (Z.land w CAP_NET_RAW_bit =? 0) = negb (Z.testbit w 13).
Proof.
  change CAP_NET_RAW_bit with (2 ^ 13).
  destruct (Z.testbit w 13) eqn:E; simpl.
  - apply Z.eqb_neq. intros H.
    assert (Hb : Z.testbit (Z.land w (2 ^ 13)) 13 = true).
    { rewrite Z.land_spec, E, Z.pow2_bits_true by lia. reflexivity. }
    rewrite H in Hb. rewrite Z.bits_0 in Hb. discriminate.
  - apply Z.eqb_eq. apply Z.bits_inj'. intros n Hn.
    rewrite Z.land_spec, Z.bits_0.
    destruct (Z.eq_dec n 13) as [->|Hne].
    + rewrite E. reflexivity.
    + rewrite Z.pow2_bits_false by lia. apply andb_false_r.
Qed.

(** The check, by the three readings of the capability. *)
Lemma check_for_privileged_access_unprivileged
    (env : Env) (s : VPCS) (device : value) (xattrs : list string) :
  geteuid env <> 0 ->
  listxattr env (_VPCS s) = Return xattrs ->
  _check_for_privileged_access env s device
  = match CAP_NET_RAW env (_VPCS s) xattrs with
    | Absent =>
      Raise (VPCSError (Fmt "{} has no privileged access to {}."
                            [OfValue (opt_str (_VPCS s)); OfValue device]))
    | Present | Unreadable => Return tt
    end.
Proof.
  intros Heuid Hlist. unfold _check_for_privileged_access, CAP_NET_RAW.
  apply Z.eqb_neq in Heuid. rewrite Heuid, Hlist.
  destruct (existsb _ xattrs); [|reflexivity].
  destruct (getxattr env (_VPCS s) "security.capability") as [caps|e]; [|reflexivity].
  destruct (unpack_IIIII caps) as [words|e]; [|reflexivity].
  rewrite land_CAP_NET_RAW_bit. destruct (Z.testbit _ 13); reflexivity.
Qed.

Lemma check_for_privileged_access_root (env : Env) (s : VPCS) (device : value) :
  geteuid env = 0 -> _check_for_privileged_access env s device = Return tt.
Proof.
  intros H. unfold _check_for_privileged_access. rewrite H. reflexivity.
Qed.

Lemma make_nio_tap (env : Env) (s : VPCS) (request nio : dict) (dev : value) :
  dict_get "nio" request = Some (VDict nio) ->
  dict_get "type" nio = Some (VStr "nio_tap") ->
  dict_get "tap_device" nio = Some dev ->
  make_nio env s request
  = match _check_for_privileged_access env s dev with
    | Raise e => Raise e
    | Return _ => Return (NIO_TAP dev)
    end.
Proof.
  intros Hnio Htype Hdev. unfold make_nio, getitem, subscript, getitem.
  rewrite Hnio, Htype. simpl. rewrite Hdev. reflexivity.
Qed.

(** C1, as the code has it: building a TAP endpoint succeeds for a
    privileged process; for an unprivileged one it fails with the "no
    privileged access" error exactly when the capability bit is absent (the
    attribute is not listed on the binary, or it is read and the bit is
    clear), and succeeds when the bit is present and also when the listed
    attribute cannot be read or decoded, which is only logged. *)
Theorem tap_endpoint_fails_exactly_when_capability_absent
    (env : Env) (s : VPCS) (request nio : dict) (dev : value) :
  dict_get "nio" request = Some (VDict nio) ->
  dict_get "type" nio = Some (VStr "nio_tap") ->
  dict_get "tap_device" nio = Some dev ->
  (geteuid env = 0 -> make_nio env s request = Return (NIO_TAP dev))
  /\ (forall xattrs,
         geteuid env <> 0 ->
         listxattr env (_VPCS s) = Return xattrs ->
         (make_nio env s request
          = Raise (VPCSError (Fmt "{} has no privileged access to {}."
                                  [OfValue (opt_str (_VPCS s)); OfValue dev]))
          <-> CAP_NET_RAW env (_VPCS s) xattrs = Absent)
         /\ (make_nio env s request = Return (NIO_TAP dev)
             <-> CAP_NET_RAW env (_VPCS s) xattrs = Present
                 \/ CAP_NET_RAW env (_VPCS s) xattrs = Unreadable)).
Proof.
  intros Hnio Htype Hdev.
  rewrite (make_nio_tap env s request nio dev Hnio Htype Hdev).
  split.
  - intros Hroot. rewrite check_for_privileged_access_root by assumption. reflexivity.
  - intros xattrs Heuid Hlist.
    rewrite (check_for_privileged_access_unprivileged env s dev xattrs Heuid Hlist).
    destruct (CAP_NET_RAW env (_VPCS s) xattrs); split; split;
      try discriminate; try reflexivity; auto;
      intros [H|H]; discriminate H.
Qed.

Lemma tap_endpoint_fails_exactly_when_capability_absent_witness :
  (CAP_NET_RAW env_incapable (_VPCS module0) ["security.capability"] = Absent
   /\ make_nio env_incapable module0 tap_request
      = Raise (VPCSError (Fmt "{} has no privileged access to {}."
                              [OfValue (VStr "/usr/local/bin/vpcs"); OfValue (VStr "tap0")])))
  /\ (CAP_NET_RAW env_capable (_VPCS module0) ["security.capability"] = Present
      /\ make_nio env_capable module0 tap_request = Return (NIO_TAP (VStr "tap0"))).
Proof.
  pose proof (tap_endpoint_fails_exactly_when_capability_absent env_incapable module0
                tap_request [("type", VStr "nio_tap"); ("tap_device", VStr "tap0")]
                (VStr "tap0") eq_refl eq_refl eq_refl) as (_ & Hno).
  pose proof (tap_endpoint_fails_exactly_when_capability_absent env_capable module0
                tap_request [("type", VStr "nio_tap"); ("tap_device", VStr "tap0")]
                (VStr "tap0") eq_refl eq_refl eq_refl) as (_ & Hyes).
  split; split.
  - reflexivity.
  - apply (Hno ["security.capability"]); [vm_compute; discriminate | reflexivity | reflexivity].
  - reflexivity.
  - apply (Hyes ["security.capability"]); [vm_compute; discriminate | reflexivity |].
    left. reflexivity.
Defined.

(** C1 as stated fails: for an unprivileged process whose binary carries a
    capability attribute that cannot be decoded, the endpoint is built. *)
Lemma tap_endpoint_built_when_capability_unreadable :
  geteuid env_unreadable <> 0
  /\ listxattr env_unreadable (_VPCS module0) = Return ["security.capability"]
  /\ CAP_NET_RAW env_unreadable (_VPCS module0) ["security.capability"] = Unreadable
  /\ make_nio env_unreadable module0 tap_request = Return (NIO_TAP (VStr "tap0")).
Proof.
  split; [vm_compute; discriminate|]. repeat split; reflexivity.
Qed.

End TapGate.

Section UnknownInstance.
Import Vpcs.

Lemma getitem_found (d : dict) (k : string) (v : value) :
  dict_get k d = Some v -> getitem d k = Return v.
Proof. unfold getitem. intros ->. reflexivity. Qed.

(** An unknown identifier is reported and nothing else happens. *)
Lemma get_VPCS_instance_unknown (VPCS_id : value) (sys : Sys) :
  unknown_id (self sys) VPCS_id ->
  get_VPCS_instance VPCS_id sys
  = (Return None,
     {| self := self sys; world := world sys;
        sent := sent sys ++ [CustomError (Fmt "VPCS device ID {} doesn't exist"
                                              [OfValue VPCS_id])] |}).
Proof.
  unfold unknown_id, get_VPCS_instance, bind, get_self, lift, send_custom_error, send, ret.
  destruct (registry_key VPCS_id) as [[k|]|e]; simpl.
  - intros ->. reflexivity.
  - reflexivity.
  - contradiction.
Qed.

Lemma operation_on_unknown_instance (env : Env) (request : dict) (rid : value) (sys : Sys)
    (sch : schema) (h : Env -> dict -> M unit) :
  In (sch, h) device_operations ->
  validate_request env sch request = true ->
  dict_get "id" request = Some rid ->
  unknown_id (self sys) rid ->
  h env request sys
  = (Return tt,
     {| self := self sys; world := world sys;
        sent := sent sys ++ [CustomError (Fmt "VPCS device ID {} doesn't exist"
                                              [OfValue rid])] |}).
Proof.
  intros Hin Hvalid Hid Hunknown.
  apply getitem_found in Hid.
  pose proof (get_VPCS_instance_unknown rid sys Hunknown) as Hget.
  unfold device_operations in Hin. simpl in Hin.
  repeat (destruct Hin as [[= <- <-]|Hin];
          [ unfold VPCS_delete, VPCS_update, vm_start, vm_stop, vm_reload,
                   allocate_udp_port, add_nio, delete_nio;
            rewrite Hvalid; simpl; unfold bind at 1; unfold lift at 1; rewrite Hid;
            unfold bind at 1; rewrite Hget; reflexivity
          | ]).
  contradiction.
Qed.

End UnknownInstance.

Section CreateFailure.
Import Vpcs.

(** A creation that finds no console port: the error is reported, the
    registry and the data cursor are as before, the console cursor is where
    the scan started, and the directory made and the identity assigned on
    the way stay. *)
Lemma create_without_free_port (env : Env) (request : dict) (sys : Sys)
    (path : value) (d : VPCSDevice) (c : DeviceClass) (e : exn) :
  validate_request env VPCS_CREATE_SCHEMA request = true ->
  dict_get "path" request = Some path ->
  (isdir (world sys) (_working_dir (self sys)) = true
   \/ makedirs_failure env (_working_dir (self sys)) = None) ->
  VPCSDevice_new path (_working_dir (self sys)) (_host (self sys))
                 (match dict_get "name" request with Some n => n | None => VNone end)
                 (device_class (world sys)) = (Return d, c) ->
  find_unused_port env (console_scan_start (self sys)) (_console_end_port_range (self sys))
                   (_host (self sys)) TCP = Raise e ->
  exists sys',
    VPCS_create env request sys = (Return tt, sys')
    /\ sent sys' = (sent sys ++ [CustomError (str_exn e)])%list
    /\ self sys' = set_current_console_port (console_scan_start (self sys)) (self sys)
    /\ dirs (world sys') = {[_working_dir (self sys)]} ∪ dirs (world sys)
    /\ files (world sys') = files (world sys)
    /\ device_class (world sys') = c.
Proof.
  intros Hvalid Hpath Hdir Hnew Hfind.
  apply getitem_found in Hpath.
  unfold VPCS_create. rewrite Hvalid. simpl.
  unfold bind at 1. unfold lift at 1. rewrite Hpath.
  unfold bind at 1. unfold or_report.
  unfold bind at 1. unfold makedirs_working_dir.
  unfold bind at 1. unfold get_self at 1. unfold bind at 1. unfold get_world at 1.
  pose proof (allocate_console_port_unfold env (self sys)) as Hstep.
  rewrite Hfind in Hstep. simpl in Hstep.
  destruct (isdir (world sys) (_working_dir (self sys))) eqn:Hisdir.
  - unfold ret at 1. unfold bind at 1. unfold construct_device at 1. simpl.
    rewrite Hnew. unfold bind at 1. unfold on_self at 1. simpl. rewrite Hstep.
    eexists. split; [reflexivity|]. simpl. repeat split; try reflexivity.
    unfold isdir in Hisdir. apply bool_decide_eq_true in Hisdir.
    symmetry. apply subseteq_union_1_L. apply singleton_subseteq_l. exact Hisdir.
  - destruct Hdir as [Hdir|Hdir]; [discriminate|]. rewrite Hdir.
    unfold modify_world at 1. unfold bind at 1. unfold construct_device at 1. simpl.
    rewrite Hnew. unfold bind at 1. unfold on_self at 1. simpl. rewrite Hstep.
    eexists. split; [reflexivity|]. simpl. repeat split; reflexivity.
Qed.

(** C7, as the code has it.  When [VPCS.create] finds no free console port
    the error is reported with the instance mapping unchanged, the data
    cursor unchanged and the console cursor not advanced: it stands where
    the scan started, which is its previous value or, if that had exceeded
    the range end, the range start; no port is retained.  The working
    directory made and the device identity assigned before the scan are not
    undone.  When an operation names an identifier the registry does not
    hold, the error is reported and neither the module object nor the world
    changes. *)
Theorem failed_allocation_and_unknown_id_keep_registry
    (env : Env) (request : dict) (sys : Sys) :
  (forall path d c e,
      validate_request env VPCS_CREATE_SCHEMA request = true ->
      dict_get "path" request = Some path ->
      (isdir (world sys) (_working_dir (self sys)) = true
       \/ makedirs_failure env (_working_dir (self sys)) = None) ->
      VPCSDevice_new path (_working_dir (self sys)) (_host (self sys))
                     (match dict_get "name" request with Some n => n | None => VNone end)
                     (device_class (world sys)) = (Return d, c) ->
      find_unused_port env (console_scan_start (self sys))
                       (_console_end_port_range (self sys)) (_host (self sys)) TCP = Raise e ->
      exists sys',
        VPCS_create env request sys = (Return tt, sys')
        /\ sent sys' = (sent sys ++ [CustomError (str_exn e)])%list
        /\ _VPCS_instances (self sys') = _VPCS_instances (self sys)
        /\ _current_udp_port (self sys') = _current_udp_port (self sys)
        /\ _allocated_console_ports (self sys') = _allocated_console_ports (self sys)
        /\ (_current_console_port (self sys') = _current_console_port (self sys)
            \/ (_console_end_port_range (self sys) < _current_console_port (self sys)
                /\ _current_console_port (self sys') = _console_start_port_range (self sys)))
        /\ dirs (world sys') = {[_working_dir (self sys)]} ∪ dirs (world sys)
        /\ device_class (world sys') = c)
  /\ (forall sch h rid,
         In (sch, h) device_operations ->
         validate_request env sch request = true ->
         dict_get "id" request = Some rid ->
         unknown_id (self sys) rid ->
         h env request sys
         = (Return tt,
            {| self := self sys; world := world sys;
               sent := sent sys ++ [CustomError (Fmt "VPCS device ID {} doesn't exist"
                                                     [OfValue rid])] |})).
Proof.
  split.
  - intros path d c e Hvalid Hpath Hdir Hnew Hfind.
    destruct (create_without_free_port env request sys path d c e
                Hvalid Hpath Hdir Hnew Hfind)
      as (sys' & Hrun & Hsent & Hself & Hdirs & _ & Hclass).
    exists sys'. rewrite Hself. simpl. repeat split; auto.
    unfold console_scan_start.
    destruct (_current_console_port (self sys) >? _console_end_port_range (self sys)) eqn:E.
    + right. split; [|reflexivity]. rewrite Z.gtb_ltb in E. apply Z.ltb_lt in E. exact E.
    + left. reflexivity.
  - intros sch h rid. apply operation_on_unknown_instance.
Qed.

Lemma failed_allocation_and_unknown_id_keep_registry_witness :
  (exists sys',
      VPCS_create none_free create_request sys0 = (Return tt, sys')
      /\ _VPCS_instances (self sys') = ∅
      /\ _current_console_port (self sys') = 4001)
  /\ add_nio all_free unknown_request sys0
     = (Return tt,
        {| self := module0; world := world0;
           sent := [CustomError (Fmt "VPCS device ID {} doesn't exist" [OfValue (VInt 9)])] |}).
Proof.
  pose proof (failed_allocation_and_unknown_id_keep_registry none_free create_request sys0)
    as (Hcreate & _).
  pose proof (failed_allocation_and_unknown_id_keep_registry all_free unknown_request sys0)
    as (_ & Hunknown).
  split.
  - destruct (Hcreate (VStr "/usr/local/bin/vpcs")
                {| id := 1;
                   attrs := list_to_map [("name", VStr "VPCS1");
                                         ("path", VStr "/usr/local/bin/vpcs");
                                         ("working_dir", VStr "/tmp/projects");
                                         ("host", VStr "127.0.0.1"); ("console", VNone);
                                         ("startup_config", VNone)];
                   nios := []; process := false |}
                {| instance_count := 1; names := [VStr "VPCS1"] |}
                (Exception_ (Fmt "Could not find a free port between {} and {} on host {}"
                                 [OfValue (VInt 4001); OfValue (VInt 4512); Lit "127.0.0.1"])))
      as (sys' & Hrun & _ & Hinst & _ & _ & Hcur & _).
    + reflexivity.
    + reflexivity.
    + right. reflexivity.
    + reflexivity.
    + vm_compute. reflexivity.
    + exists sys'. split; [exact Hrun|]. split; [exact Hinst|].
      destruct Hcur as [Hcur|[Hlt _]]; [exact Hcur|].
      vm_compute in Hlt. discriminate Hlt.
  - apply (Hunknown VPCS_ADD_NIO_SCHEMA add_nio (VInt 9)).
    + unfold device_operations. simpl. tauto.
    + reflexivity.
    + reflexivity.
    + unfold unknown_id. simpl. reflexivity.
Defined.

(** C7 as stated fails: a creation that finds no console port leaves behind
    the working directory it made and the device identity it assigned. *)
Lemma failed_create_keeps_directory_and_identity :
  sent (snd (VPCS_create none_free create_request sys0))
  = [CustomError (Fmt "Could not find a free port between {} and {} on host {}"
                      [OfValue (VInt 4001); OfValue (VInt 4512); Lit "127.0.0.1"])]
  /\ ("/tmp/projects" ∉ dirs (world sys0))
  /\ ("/tmp/projects" ∈ dirs (world (snd (VPCS_create none_free create_request sys0))))
  /\ instance_count (device_class (world sys0)) = 0
  /\ instance_count (device_class (world (snd (VPCS_create none_free create_request sys0)))) = 1
  /\ world (snd (VPCS_create none_free create_request sys0)) <> world sys0.
Proof.
  split; [vm_compute; reflexivity|].
  split; [simpl; set_solver|].
  split; [apply (bool_decide_unpack _); vm_compute; exact I|].
  split; [reflexivity|]. split; [vm_compute; reflexivity|].
  intros H. apply (f_equal (fun w => instance_count (device_class w))) in H.
  vm_compute in H. discriminate H.
Qed.

End CreateFailure.

Section Update.
Import Vpcs.

Lemma dict_get_set_eq (k : string) (v : value) (d : dict) :
  dict_get k (dict_set k v d) = Some v.
Proof.
  induction d as [|[k' v'] d IH]; simpl.
  - rewrite String.eqb_refl. reflexivity.
  - destruct (String.eqb k' k) eqn:E; simpl; rewrite ?E; [rewrite String.eqb_refl|]; auto.
Qed.

Lemma dict_get_set_ne (k k' : string) (v : value) (d : dict) :
  k <> k' -> dict_get k' (dict_set k v d) = dict_get k' d.
Proof.
  intros Hne. induction d as [|[k0 v0] d IH]; simpl.
  - apply String.eqb_neq in Hne. rewrite Hne. reflexivity.
  - destruct (String.eqb k0 k) eqn:E; simpl.
    + apply String.eqb_eq in E. subst k0.
      apply String.eqb_neq in Hne. rewrite Hne. reflexivity.
    + destruct (String.eqb k0 k'); auto.
Qed.

Lemma dict_get_absent (k : string) (d : dict) :
  ~ In k (map fst d) -> dict_get k d = None.
Proof.
  induction d as [|[k' v'] d IH]; simpl; [reflexivity|].
  intros Hnot. destruct (String.eqb k' k) eqn:E.
  - apply String.eqb_eq in E. tauto.
  - apply IH. tauto.
Qed.

Lemma dict_get_In (k : string) (v : value) (d : dict) :
  dict_get k d = Some v -> In (k, v) d.
Proof.
  induction d as [|[k' v'] d IH]; simpl; [discriminate|].
  destruct (String.eqb k' k) eqn:E.
  - apply String.eqb_eq in E. intros [= ->]. left. congruence.
  - auto.
Qed.

Lemma In_dict_get (k : string) (v : value) (d : dict) :
  List.NoDup (map fst d) -> In (k, v) d -> dict_get k d = Some v.
Proof.
  induction d as [|[k' v'] d IH]; simpl; [tauto|].
  intros Hnd [Heq|Hin].
  - injection Heq as -> ->. rewrite String.eqb_refl. reflexivity.
  - apply List.NoDup_cons_iff in Hnd. destruct Hnd as [Hnot Hnd].
    destruct (String.eqb k' k) eqn:E.
    + apply String.eqb_eq in E. subst k'. exfalso. apply Hnot.
      apply (in_map fst) in Hin. exact Hin.
    + auto.
Qed.

Lemma dict_set_keys (k : string) (v : value) (d : dict) :
  List.NoDup (map fst d) -> List.NoDup (map fst (dict_set k v d)).
Proof.
  induction d as [|[k' v'] d IH]; simpl; intros Hnd.
  - constructor; [simpl; tauto | constructor].
  - apply List.NoDup_cons_iff in Hnd. destruct Hnd as [Hnot Hnd].
    destruct (String.eqb k' k) eqn:E; simpl.
    + apply String.eqb_eq in E. subst k'. constructor; assumption.
    + constructor; [|auto]. intros Hin. apply Hnot.
      clear - Hin E. induction d as [|[k0 v0] d IH]; simpl in *.
      * destruct Hin as [->|[]]. rewrite String.eqb_refl in E. discriminate.
      * destruct (String.eqb k0 k); simpl in Hin.
        -- destruct Hin as [Heq|Hin]; [|tauto].
           subst k'. rewrite String.eqb_refl in E. discriminate.
        -- destruct Hin as [Heq|Hin]; [tauto|]. right. apply IH. exact Hin.
Qed.

(** Writing one attribute leaves the verdict on every other name. *)
Lemma differs_with_attr (d : VPCSDevice) (n name : string) (v w : value) :
  n <> name -> differs (with_attr n v d) name w = differs d name w.
Proof.
  intros Hne. unfold differs, hasattr, getattr. simpl.
  rewrite lookup_insert_ne by assumption. reflexivity.
Qed.

(** The loop, when it runs to its end. *)
Lemma update_settings_Return (env : Env) (items : dict) :
  forall (d : VPCSDevice) (response response' : dict) (d' : VPCSDevice),
    List.NoDup (map fst items) ->
    update_settings env items d response = (Return response', d') ->
    id d' = id d /\ nios d' = nios d /\ process d' = process d
    /\ forall name,
        attrs d' !! name
        = match dict_get name items with
          | Some v => if differs d name v then Some v else attrs d !! name
          | None => attrs d !! name
          end
        /\ dict_get name response'
           = match dict_get name items with
             | Some v => if differs d name v then Some v else dict_get name response
             | None => dict_get name response
             end.
Proof.
  induction items as [|[n v] rest IH]; intros d response response' d' Hnd Hrun; simpl in Hrun.
  - injection Hrun as <- <-. repeat split; reflexivity.
  - apply List.NoDup_cons_iff in Hnd. destruct Hnd as [Hnot Hnd]. simpl in Hnot.
    pose proof (dict_get_absent n rest Hnot) as Habsent.
    assert (Hskip : differs d n v = false ->
                    update_settings env rest d response = (Return response', d') ->
                    id d' = id d /\ nios d' = nios d /\ process d' = process d
                    /\ forall name,
                        attrs d' !! name
                        = match dict_get name ((n, v) :: rest) with
                          | Some v0 => if differs d name v0 then Some v0 else attrs d !! name
                          | None => attrs d !! name
                          end
                        /\ dict_get name response'
                           = match dict_get name ((n, v) :: rest) with
                             | Some v0 => if differs d name v0 then Some v0
                                          else dict_get name response
                             | None => dict_get name response
                             end).
    { intros Hdiff Hrest.
      destruct (IH _ _ _ _ Hnd Hrest) as (Hid & Hn & Hp & Hall).
      repeat split; auto; simpl; destruct (String.eqb n name) eqn:E;
        try (apply String.eqb_eq in E; subst name;
             specialize (Hall n); rewrite Habsent in Hall; rewrite Hdiff; tauto);
        apply Hall. }
    destruct (hasattr d n) eqn:Hhas.
    + destruct (getattr d n) as [current|e] eqn:Hget; [|discriminate].
      destruct (negb (py_eqb current v)) eqn:Hne.
      * destruct (setattr env d n v) as [d1|e] eqn:Hset; [|discriminate].
        unfold setattr in Hset.
        destruct (String.eqb n "id") eqn:Eid; [discriminate|].
        destruct (setter_failure env d n v); [discriminate|].
        injection Hset as <-.
        destruct (IH _ _ _ _ Hnd Hrun) as (Hid & Hn & Hp & Hall).
        assert (Hdiff : differs d n v = true).
        { unfold differs. rewrite Hhas, Hget, Hne. reflexivity. }
        repeat split; auto; simpl; destruct (String.eqb n name) eqn:E.
        -- apply String.eqb_eq in E. subst name.
           destruct (Hall n) as [Ha _]. rewrite Habsent in Ha. rewrite Ha, Hdiff.
           simpl. apply lookup_insert_eq.
        -- apply String.eqb_neq in E. destruct (Hall name) as [Ha _]. rewrite Ha.
           simpl. rewrite lookup_insert_ne by assumption.
           destruct (dict_get name rest); [|reflexivity].
           rewrite differs_with_attr by assumption. reflexivity.
        -- apply String.eqb_eq in E. subst name.
           destruct (Hall n) as [_ Hr]. rewrite Habsent in Hr. rewrite Hr, Hdiff.
           apply dict_get_set_eq.
        -- apply String.eqb_neq in E. destruct (Hall name) as [_ Hr]. rewrite Hr.
           rewrite dict_get_set_ne by assumption.
           destruct (dict_get name rest); [|reflexivity].
           rewrite differs_with_attr by assumption. reflexivity.
      * apply Hskip; [|exact Hrun]. unfold differs. rewrite Hhas, Hget, Hne. reflexivity.
    + apply Hskip; [|exact Hrun]. unfold differs. rewrite Hhas. reflexivity.
Qed.

(** The loop runs to its end when no setter refuses and the identity is not
    asked to change. *)
Lemma update_settings_total (env : Env) (items : dict) :
  forall (d : VPCSDevice) (response : dict),
    (forall d0 name v, In (name, v) items -> setter_failure env d0 name v = None) ->
    (forall v, In ("id", v) items -> py_eqb (VInt (id d)) v = true) ->
    exists response' d', update_settings env items d response = (Return response', d').
Proof.
  induction items as [|[n v] rest IH]; intros d response Hset Hid; simpl; [eauto|].
  assert (Hrest : forall d1 r1, id d1 = id d ->
                    exists response' d', update_settings env rest d1 r1 = (Return response', d')).
  { intros d1 r1 Hd1. apply IH.
    - intros d0 name w Hin. apply Hset. right. exact Hin.
    - intros w Hin. rewrite Hd1. apply Hid. right. exact Hin. }
  destruct (hasattr d n) eqn:Hhas; [|apply Hrest; reflexivity].
  unfold getattr, setattr.
  destruct (String.eqb n "id") eqn:Eid.
  - apply String.eqb_eq in Eid. subst n.
    rewrite (Hid v) by (left; reflexivity). simpl. apply Hrest. reflexivity.
  - unfold hasattr in Hhas. rewrite Eid in Hhas. simpl in Hhas.
    apply bool_decide_eq_true in Hhas. destruct Hhas as [current Hcur]. rewrite Hcur.
    destruct (negb (py_eqb current v)); [|apply Hrest; reflexivity].
    rewrite (Hset d n v) by (left; reflexivity). apply Hrest. reflexivity.
Qed.

End Update.

Section UpdateHandler.
Import Vpcs.

(** Whatever the outcome of the loop, an attribute that changed was named
    by the request with a value other than the one it had. *)
Lemma update_settings_writes (env : Env) (items : dict) :
  forall (d : VPCSDevice) (response : dict) (r : result dict) (d' : VPCSDevice),
    List.NoDup (map fst items) ->
    update_settings env items d response = (r, d') ->
    forall name,
      attrs d' !! name = attrs d !! name
      \/ exists v, dict_get name items = Some v /\ differs d name v = true
                   /\ attrs d' !! name = Some v.
Proof.
  induction items as [|[n v] rest IH]; intros d response r d' Hnd Hrun name; simpl in Hrun.
  - injection Hrun as <- <-. left. reflexivity.
  - apply List.NoDup_cons_iff in Hnd. destruct Hnd as [Hnot Hnd]. simpl in Hnot.
    pose proof (dict_get_absent n rest Hnot) as Habsent.
    assert (Hskip : update_settings env rest d response = (r, d') ->
                    attrs d' !! name = attrs d !! name
                    \/ exists v0, dict_get name ((n, v) :: rest) = Some v0
                                  /\ differs d name v0 = true /\ attrs d' !! name = Some v0).
    { intros Hrest. destruct (IH _ _ _ _ Hnd Hrest name) as [Hsame|(w & Hw & Hd & Ha)];
        [left; exact Hsame|].
      right. exists w. simpl. destruct (String.eqb n name) eqn:E; [|auto].
      apply String.eqb_eq in E. subst name. congruence. }
    destruct (hasattr d n) eqn:Hhas; [|auto].
    destruct (getattr d n) as [current|e] eqn:Hget;
      [|injection Hrun as <- <-; left; reflexivity].
    destruct (negb (py_eqb current v)) eqn:Hne; [|auto].
    destruct (setattr env d n v) as [d1|e] eqn:Hset;
      [|injection Hrun as <- <-; left; reflexivity].
    unfold setattr in Hset.
    destruct (String.eqb n "id") eqn:Eid; [discriminate|].
    destruct (setter_failure env d n v); [discriminate|].
    injection Hset as <-.
    assert (Hdiff : differs d n v = true).
    { unfold differs. rewrite Hhas, Hget, Hne. reflexivity. }
    destruct (IH _ _ _ _ Hnd Hrun name) as [Hsame|(w & Hw & Hd & Ha)]; simpl in *;
      destruct (String.eqb n name) eqn:E.
    + apply String.eqb_eq in E. subst name. right. exists v.
      rewrite Hsame, lookup_insert_eq. auto.
    + apply String.eqb_neq in E. left. rewrite Hsame. apply lookup_insert_ne. exact E.
    + apply String.eqb_eq in E. subst name. congruence.
    + apply String.eqb_neq in E. right. exists w.
      rewrite differs_with_attr in Hd by assumption. auto.
Qed.

Lemma get_VPCS_instance_found (rid : value) (k : Z) (d : VPCSDevice) (sys : Sys) :
  registry_key rid = Return (Some k) ->
  _VPCS_instances (self sys) !! k = Some d ->
  get_VPCS_instance rid sys = (Return (Some (k, d)), sys).
Proof.
  intros Hkey Hd. unfold get_VPCS_instance, bind, get_self, lift, ret.
  rewrite Hkey, Hd. reflexivity.
Qed.

(** The startup-config step touches the files only, and at most points the
    request to the file. *)
Lemma push_startup_config_Return (env : Env) (d : VPCSDevice) (request request' : dict)
    (sys sys1 : Sys) :
  push_startup_config env d request sys = (Return request', sys1) ->
  self sys1 = self sys /\ sent sys1 = sent sys
  /\ (request' = request
      \/ request' = dict_set "startup_config" (VStr "startup-config") request).
Proof.
  unfold push_startup_config, bind, lift, ret, raise, modify_world.
  intros H.
  repeat match type of H with
         | context [match ?x with _ => _ end] => destruct x eqn:?; try discriminate
         end;
    injection H as <- <-; simpl; auto.
  destruct (open_failure env _); [discriminate|].
  injection Heqp as _ <-. simpl. auto.
Qed.

Lemma registry_key_eq (rid : value) (k : Z) :
  registry_key rid = Return (Some k) -> py_eqb (VInt k) rid = true.
Proof.
  destruct rid as [|b|z|s|l]; simpl; try discriminate.
  - intros [= <-]. apply Z.eqb_refl.
  - intros [= <-]. apply Z.eqb_refl.
Qed.

(** C9: on an update of an existing instance, the instance left under its
    key is the one the loop produced; an attribute changes only if the
    request names it, the instance exposes it and the supplied value differs
    from the current one, and it then holds the supplied value; when no
    setter refuses, the reply is a response that holds exactly the fields so
    changed, each with its new value, and a name the instance does not
    expose is passed over without an error. *)
Theorem update_writes_differing_fields_and_reports_them
    (env : Env) (request request' : dict) (sys sys1 : Sys) (rid : value) (k : Z)
    (d : VPCSDevice) :
  validate_request env VPCS_UPDATE_SCHEMA request = true ->
  List.NoDup (map fst request) ->
  dict_get "id" request = Some rid ->
  registry_key rid = Return (Some k) ->
  _VPCS_instances (self sys) !! k = Some d ->
  id d = k ->
  push_startup_config env d request sys = (Return request', sys1) ->
  (VPCS_update env request sys
   = let after reply :=
         {| self := set_VPCS_instances
                      (<[k := snd (update_settings env request' d [])]>
                         (_VPCS_instances (self sys))) (self sys);
            world := world sys1; sent := reply |} in
     match fst (update_settings env request' d []) with
     | Return response => (Return tt, after (sent sys ++ [Response (VDict response)])%list)
     | Raise (VPCSError msg) => (Return tt, after (sent sys ++ [CustomError msg])%list)
     | Raise e => (Raise e, after (sent sys))
     end)
  /\ (forall name,
         attrs (snd (update_settings env request' d [])) !! name <> attrs d !! name ->
         exists v, dict_get name request' = Some v /\ differs d name v = true
                   /\ attrs (snd (update_settings env request' d [])) !! name = Some v)
  /\ ((forall d0 name v, In (name, v) request' -> setter_failure env d0 name v = None) ->
      exists response,
        fst (update_settings env request' d []) = Return response
        /\ forall name,
            (hasattr d name = false ->
             dict_get name response = None
             /\ attrs (snd (update_settings env request' d [])) !! name = None)
            /\ dict_get name response
               = match dict_get name request' with
                 | Some v => if differs d name v then Some v else None
                 | None => None
                 end
            /\ attrs (snd (update_settings env request' d [])) !! name
               = match dict_get name request' with
                 | Some v => if differs d name v then Some v else attrs d !! name
                 | None => attrs d !! name
                 end).
Proof.
  intros Hvalid Hnd Hid Hkey Hd Hidk Hpush.
  destruct (push_startup_config_Return env d request request' sys sys1 Hpush)
    as (Hself & Hsent & Hreq).
  assert (Hnd' : List.NoDup (map fst request')).
  { destruct Hreq as [->| ->]; [exact Hnd | apply dict_set_keys; exact Hnd]. }
  assert (Hid' : dict_get "id" request' = Some rid).
  { destruct Hreq as [->| ->]; [exact Hid|].
    rewrite dict_get_set_ne by discriminate. exact Hid. }
  destruct (update_settings env request' d []) as [r d'] eqn:Hloop. simpl.
  split; [|split].
  - unfold VPCS_update. rewrite Hvalid. simpl.
    unfold bind at 1. unfold lift at 1. rewrite (getitem_found _ _ _ Hid).
    unfold bind at 1. rewrite (get_VPCS_instance_found rid k d sys Hkey Hd).
    unfold bind at 1. unfold or_report at 1. rewrite Hpush.
    rewrite Hloop.
    unfold bind at 1. unfold store_instance, modify_self. simpl.
    unfold bind at 1. unfold or_report, lift. rewrite Hself, Hsent.
    destruct r as [response|[]]; reflexivity.
  - intros name Hchanged.
    destruct (update_settings_writes env request' d [] r d' Hnd' Hloop name)
      as [Hsame|Hwritten]; [contradiction | exact Hwritten].
  - intros Hsetters.
    destruct (update_settings_total env request' d [] Hsetters) as (response & d2 & Htotal).
    { intros v Hin. apply (In_dict_get _ _ _ Hnd') in Hin.
      rewrite Hid' in Hin. injection Hin as <-.
      rewrite Hidk. apply registry_key_eq. exact Hkey. }
    rewrite Hloop in Htotal. injection Htotal as -> ->.
    exists response. split; [reflexivity|]. intros name.
    destruct (update_settings_Return env request' d [] response d2 Hnd' Hloop)
      as (_ & _ & _ & Hall).
    destruct (Hall name) as [Hattr Hresp]. simpl in Hresp.
    assert (Hresp' : dict_get name response
                     = match dict_get name request' with
                       | Some v => if differs d name v then Some v else None
                       | None => None
                       end).
    { rewrite Hresp. destruct (dict_get name request'); reflexivity. }
    split; [|split; assumption].
    intros Hhas. rewrite Hresp', Hattr.
    assert (Hnone : attrs d !! name = None).
    { unfold hasattr in Hhas. apply orb_false_elim in Hhas. destruct Hhas as [_ Hhas].
      apply bool_decide_eq_false in Hhas. destruct (attrs d !! name); [|reflexivity].
      exfalso. apply Hhas. eauto. }
    destruct (dict_get name request') as [v|]; [|auto].
    unfold differs. rewrite Hhas. simpl. auto.
Qed.

End UpdateHandler.

Section UpdateWitness.
Import Vpcs.

Lemma update_writes_differing_fields_and_reports_them_witness :
  exists response,
    fst (update_settings all_free update_request device1 []) = Return response
    /\ VPCS_update all_free update_request created
       = (Return tt,
          {| self := set_VPCS_instances
                       (<[1 := snd (update_settings all_free update_request device1 [])]>
                          (_VPCS_instances (self created))) (self created);
             world := world created;
             sent := (sent created ++ [Response (VDict response)])%list |})
    /\ dict_get "name" response = Some (VStr "PC1")
    /\ dict_get "console" response = None
    /\ dict_get "colour" response = None
    /\ attrs (snd (update_settings all_free update_request device1 [])) !! "colour" = None.
Proof.
  assert (Hnd : List.NoDup (map fst update_request))
    by (simpl; repeat (constructor;
                         [simpl; intros H; repeat (destruct H as [H|H]; [discriminate H|]);
                          exact H|]); constructor).
  assert (Hd : _VPCS_instances (self created) !! 1 = Some device1)
    by (vm_compute; reflexivity).
  assert (Hid : id device1 = 1) by (vm_compute; reflexivity).
  destruct (update_writes_differing_fields_and_reports_them
              all_free update_request update_request created created (VInt 1) 1 device1
              eq_refl Hnd eq_refl eq_refl Hd Hid eq_refl)
    as (Hrun & _ & Htotal).
  destruct (Htotal (fun _ _ _ _ => eq_refl)) as (response & Hloop & Hall).
  exists response. split; [exact Hloop|].
  rewrite Hloop in Hrun. split; [exact Hrun|].
  destruct (Hall "name") as (_ & Hname & _).
  destruct (Hall "console") as (_ & Hconsole & _).
  destruct (Hall "colour") as (Hcolour & _ & _).
  split; [rewrite Hname; vm_compute; reflexivity|].
  split; [rewrite Hconsole; vm_compute; reflexivity|].
  apply Hcolour. vm_compute. reflexivity.
Defined.

End UpdateWitness.

(** The pool steps as the handlers run them. *)
Section PoolsInHandlers.
Import Vpcs.

Lemma new_device_has_name (path : value) (wd host : string) (name : value)
    (c c' : DeviceClass) (d : VPCSDevice) (v : value) :
  VPCSDevice_new path wd host name c = (Return d, c') ->
  exists n, getattr (with_attr "console" v d) "name" = Return n.
Proof.
  unfold VPCSDevice_new.
  destruct (truthy name && existsb (py_eqb name) (names c)); [discriminate|].
  intros [= <- _]. unfold getattr. simpl.
  rewrite lookup_insert_ne by discriminate.
  rewrite lookup_insert_eq. eauto.
Qed.

(** [VPCS.create], once the directory and the device are there, answers as
    the console pool does: the port found becomes the console of the new
    instance, which enters the registry under its identity. *)
Lemma create_runs_console_pool (env : Env) (request : dict) (sys : Sys)
    (path : value) (d : VPCSDevice) (c : DeviceClass) :
  validate_request env VPCS_CREATE_SCHEMA request = true ->
  dict_get "path" request = Some path ->
  (isdir (world sys) (_working_dir (self sys)) = true
   \/ makedirs_failure env (_working_dir (self sys)) = None) ->
  VPCSDevice_new path (_working_dir (self sys)) (_host (self sys))
                 (match dict_get "name" request with Some n => n | None => VNone end)
                 (device_class (world sys)) = (Return d, c) ->
  exists sys',
    VPCS_create env request sys = (Return tt, sys')
    /\ match allocate_console_port env (self sys) with
       | (Return port, s1) =>
         self sys'
         = set_VPCS_instances
             (<[id d := with_attr "console" (VInt port) d]> (_VPCS_instances s1)) s1
         /\ exists response,
             sent sys' = (sent sys ++ [Response (VDict response)])%list
       | (Raise e, s1) =>
         self sys' = s1 /\ sent sys' = (sent sys ++ [CustomError (str_exn e)])%list
       end.
Proof.
  intros Hvalid Hpath Hdir Hnew.
  apply getitem_found in Hpath.
  unfold VPCS_create. rewrite Hvalid. simpl.
  unfold bind at 1. unfold lift at 1. rewrite Hpath.
  unfold bind at 1. unfold or_report.
  unfold bind at 1. unfold makedirs_working_dir.
  unfold bind at 1. unfold get_self at 1. unfold bind at 1. unfold get_world at 1.
  assert (Hmk : exists w1,
             (if isdir (world sys) (_working_dir (self sys)) then ret tt
              else match makedirs_failure env (_working_dir (self sys)) with
                   | Some e0 => raise (VPCSError (Fmt "Could not create working directory {}" [e0]))
                   | None => modify_world
                               (with_dirs ({[_working_dir (self sys)]} ∪ dirs (world sys)))
                   end) sys
             = (Return tt, {| self := self sys; world := w1; sent := sent sys |})
             /\ device_class w1 = device_class (world sys)).
  { destruct (isdir (world sys) (_working_dir (self sys))).
    - exists (world sys). destruct sys. split; reflexivity.
    - destruct Hdir as [Hdir|Hdir]; [discriminate|]. rewrite Hdir.
      eexists. split; reflexivity. }
  destruct Hmk as (w1 & Hmk & Hclass). rewrite Hmk.
  unfold bind at 1. unfold construct_device at 1. simpl. rewrite Hclass, Hnew.
  unfold bind at 1. unfold on_self at 1. simpl.
  pose proof (allocate_console_port_unfold env (self sys)) as Hstep.
  destruct (allocate_console_port env (self sys)) as [[port|e] s1].
  - destruct (new_device_has_name _ _ _ _ _ _ _ (VInt port) Hnew) as [n Hn].
    unfold ret at 1. unfold bind at 1. unfold lift at 1. rewrite Hn.
    unfold bind at 1. unfold store_instance, modify_self, send_response, send. simpl.
    eexists. split; [reflexivity|]. simpl. split; [reflexivity|]. eauto.
  - destruct (find_unused_port _ _ _ _ _) as [q|e0]; simpl in Hstep; [discriminate|].
    injection Hstep as -> ->.
    eexists. split; [reflexivity|]. simpl. split; reflexivity.
Qed.

(** [VPCS.allocate_udp_port] on a known instance answers as the data pool
    does. *)
Lemma allocate_udp_port_runs_udp_pool (env : Env) (request : dict) (sys : Sys)
    (rid port_id : value) (k : Z) (d : VPCSDevice) :
  validate_request env VPCS_ALLOCATE_UDP_PORT_SCHEMA request = true ->
  dict_get "id" request = Some rid ->
  dict_get "port_id" request = Some port_id ->
  registry_key rid = Return (Some k) ->
  _VPCS_instances (self sys) !! k = Some d ->
  allocate_udp_port env request sys
  = match allocate_udp env (self sys) with
    | (Return port, s1) =>
      (Return tt,
       {| self := s1; world := world sys;
          sent := sent sys ++ [Response (VDict [("lport", VInt port); ("port_id", port_id)])] |})
    | (Raise (VPCSError msg), s1) =>
      (Return tt, {| self := s1; world := world sys; sent := sent sys ++ [CustomError msg] |})
    | (Raise e, s1) => (Raise e, {| self := s1; world := world sys; sent := sent sys |})
    end.
Proof.
  intros Hvalid Hid Hport Hkey Hd.
  unfold allocate_udp_port. rewrite Hvalid. simpl.
  unfold bind at 1. unfold lift at 1. rewrite (getitem_found _ _ _ Hid).
  unfold bind at 1. rewrite (get_VPCS_instance_found rid k d sys Hkey Hd).
  unfold bind at 1. unfold or_report. unfold bind at 1. unfold on_self at 1.
  destruct (allocate_udp env (self sys)) as [[port|e] s1].
  - unfold ret at 1. unfold bind at 1. unfold lift at 1.
    rewrite (getitem_found _ _ _ Hport). unfold send_response, send. simpl.
    reflexivity.
  - destruct e; reflexivity.
Qed.

End PoolsInHandlers.

(** * Further properties of the Hyper-V controller *)

Section HyperVWaiting.
Import HyperV HyperVCases.

Lemma wait_job_never_ends (b : Backend) (path : string) :
  (forall n, JobState (moniker b (replace_backslash path) n) = _WMI_JOB_STATE_RUNNING) ->
  forall (fuel : nat) (job : Msvm_ConcreteJob) (io : IO),
    JobState job = _WMI_JOB_STATE_RUNNING ->
    wait_job fuel b path job io = None.
Proof.
  intros Hrun. induction fuel as [|fuel IH]; intros job io Hjob; simpl; rewrite Hjob; simpl.
  - reflexivity.
  - apply IH. apply Hrun.
Qed.

(** X1: the wait for a started job has no bound of its own: while the job
    keeps reporting the running state, no number of polls makes
    [_set_state] return or raise. *)
Theorem set_state_waits_as_long_as_job_runs
    (b : Backend) (self : HyperVGNS3VM) (vm : Msvm_ComputerSystem) (state : Z)
    (io : IO) (job_path : string) :
  _vm self = Some vm ->
  RequestStateChange b vm state = (job_path, _WMI_JOB_STATUS_STARTED) ->
  (forall n, JobState (moniker b (replace_backslash job_path) n) = _WMI_JOB_STATE_RUNNING) ->
  forall fuel, _set_state fuel b self state io = None.
Proof.
  intros Hvm Hreq Hrun fuel. unfold _set_state. rewrite Hvm, Hreq.
  rewrite Z.eqb_refl. unfold _get_wmi_obj.
  rewrite (wait_job_never_ends b job_path Hrun); [reflexivity | apply Hrun].
Qed.

Lemma set_state_waits_as_long_as_job_runs_witness :
  _set_state 1000 host_stuck connected_controller _HYPERV_VM_STATE_DISABLED io0 = None.
Proof.
  apply (set_state_waits_as_long_as_job_runs host_stuck connected_controller gns3_vm
           _HYPERV_VM_STATE_DISABLED io0
           "\\HOST\root\virtualization\v2:Msvm_ConcreteJob.InstanceID=2").
  - reflexivity.
  - reflexivity.
  - intros n. reflexivity.
Defined.

End HyperVWaiting.

Section HyperVStopSuspend.
Import HyperV HyperVCases.

Lemma transition_off_spec (template : string) (state : Z)
    (fuel : nat) (b : Backend) (self self' : HyperVGNS3VM) (io io' : IO) (r : result unit) :
  transition_off template state fuel b self io = Some (r, self', io') ->
  (forall e, r = Raise e -> running self' = running self)
  /\ (r = Return tt ->
      running self' = false
      /\ exists vm job_path n,
          _vm (snd (lazy_connect b self)) = Some vm
          /\ RequestStateChange b vm state = (job_path, _WMI_JOB_STATUS_STARTED)
          /\ (n < wmi_reads io')%nat
          /\ JobState (moniker b (replace_backslash job_path) n) = _WMI_JOB_STATE_COMPLETED)
  /\ (forall msg, fst (lazy_connect b self) = Return tt -> r = Raise (GNS3VMError msg) ->
                  exists cause, msg = Fmt template [cause]).
Proof.
  unfold transition_off. intros H.
  pose proof (lazy_connect_keeps_running b self) as Hk.
  destruct (lazy_connect b self) as [[[]|e0] self1]; simpl in *.
  - destruct (_set_state fuel b self1 state io) as [[[[]|e2] io2]|] eqn:Hs; [| |discriminate].
    + simpl in H. injection H as <- <- <-. simpl.
      apply set_state_returns_only_on_completed_job in Hs.
      destruct Hs as (vm & jp & n & Hvm & Hreq & Hn & Hjob).
      split; [discriminate|]. split; [|discriminate].
      intros _. split; [reflexivity|]. exists vm, jp, n. repeat split; auto. lia.
    + destruct e2; simpl in H; injection H as <- <- <-;
        (split; [intros; assumption|]; split; [discriminate|]);
        intros msg0 _ Hmsg; try discriminate Hmsg.
      injection Hmsg as <-. eauto.
  - injection H as <- <- <-.
    split; [intros; assumption|]. split; [discriminate|]. intros msg Hc. discriminate Hc.
Qed.

(** X2: [suspend] and [stop] clear the [running] flag only in a run that
    returned, after a started job for the paused, respectively disabled,
    state was read completed; a run that raises leaves the flag as it was,
    and, once connected, a GNS3VMError of the transition reaches the caller
    wrapped in the message that names the action. *)
Theorem suspend_and_stop_clear_running_only_when_confirmed
    (fuel : nat) (b : Backend) (self self' : HyperVGNS3VM) (io io' : IO) (r : result unit) :
  (suspend fuel b self io = Some (r, self', io') ->
   (forall e, r = Raise e -> running self' = running self)
   /\ (r = Return tt ->
       running self' = false
       /\ exists vm job_path n,
           _vm (snd (lazy_connect b self)) = Some vm
           /\ RequestStateChange b vm _HYPERV_VM_STATE_PAUSED
              = (job_path, _WMI_JOB_STATUS_STARTED)
           /\ (n < wmi_reads io')%nat
           /\ JobState (moniker b (replace_backslash job_path) n)
              = _WMI_JOB_STATE_COMPLETED)
   /\ (forall msg, fst (lazy_connect b self) = Return tt -> r = Raise (GNS3VMError msg) ->
                   exists cause, msg = Fmt "Failed to suspend the GNS3 VM: {}" [cause]))
  /\ (stop fuel b self io = Some (r, self', io') ->
      (forall e, r = Raise e -> running self' = running self)
      /\ (r = Return tt ->
          running self' = false
          /\ exists vm job_path n,
              _vm (snd (lazy_connect b self)) = Some vm
              /\ RequestStateChange b vm _HYPERV_VM_STATE_DISABLED
                 = (job_path, _WMI_JOB_STATUS_STARTED)
              /\ (n < wmi_reads io')%nat
              /\ JobState (moniker b (replace_backslash job_path) n)
                 = _WMI_JOB_STATE_COMPLETED)
      /\ (forall msg, fst (lazy_connect b self) = Return tt -> r = Raise (GNS3VMError msg) ->
                      exists cause, msg = Fmt "Failed to stop the GNS3 VM: {}" [cause])).
Proof.
  split; apply transition_off_spec.
Qed.

Lemma suspend_and_stop_clear_running_only_when_confirmed_witness :
  stop 3 (host _WMI_JOB_STATUS_STARTED job_failed) (set_running true connected_controller) io0
  = Some (Raise (GNS3VMError (Fmt "Failed to stop the GNS3 VM: {}"
                                  [Fmt "Error while changing state: {}"
                                       [Lit "The operation failed"]])),
          set_running true connected_controller,
          {| wmi_reads := 4; sleeps := [100; 100; 100];
             state_requests := [3]; resources := None |})
  /\ running (set_running true connected_controller) = true
  /\ (suspend 3 (host _WMI_JOB_STATUS_STARTED job_completed)
              (set_running true connected_controller) io0
      = Some (Return tt, set_running false connected_controller,
              {| wmi_reads := 4; sleeps := [100; 100; 100];
                 state_requests := [9]; resources := None |})
      /\ running (set_running false connected_controller) = false).
Proof.
  assert (Hstop : stop 3 (host _WMI_JOB_STATUS_STARTED job_failed)
                       (set_running true connected_controller) io0
                  = Some (Raise (GNS3VMError (Fmt "Failed to stop the GNS3 VM: {}"
                                                  [Fmt "Error while changing state: {}"
                                                       [Lit "The operation failed"]])),
                          set_running true connected_controller,
                          {| wmi_reads := 4; sleeps := [100; 100; 100];
                             state_requests := [3]; resources := None |}))
    by (vm_compute; reflexivity).
  assert (Hsuspend : suspend 3 (host _WMI_JOB_STATUS_STARTED job_completed)
                             (set_running true connected_controller) io0
                     = Some (Return tt, set_running false connected_controller,
                             {| wmi_reads := 4; sleeps := [100; 100; 100];
                                state_requests := [9]; resources := None |}))
    by (vm_compute; reflexivity).
  split; [exact Hstop|]. split.
  - reflexivity.
  - split; [exact Hsuspend|].
    destruct (suspend_and_stop_clear_running_only_when_confirmed
                3 (host _WMI_JOB_STATUS_STARTED job_completed)
                (set_running true connected_controller)
                (set_running false connected_controller) io0
                {| wmi_reads := 4; sleeps := [100; 100; 100];
                   state_requests := [9]; resources := None |} (Return tt)) as [H _].
    destruct (H Hsuspend) as (_ & Hclear & _). exact (proj1 (Hclear eq_refl)).
Defined.

End HyperVStopSuspend.

Section HyperVStart.
Import HyperV HyperVCases.

(** X3: when the machine is observed enabled after the lazy connect,
    [start] requests no state change, writes no resource setting and reads
    no job: it only sets the [running] flag. *)
Theorem start_of_enabled_vm_requests_nothing
    (fuel : nat) (b : Backend) (self self1 : HyperVGNS3VM) (io : IO) :
  lazy_connect b self = (Return tt, self1) ->
  _is_running self1 = true ->
  start fuel b self io = Some (Return tt, set_running true self1, io).
Proof.
  intros Hc Hr. unfold start. rewrite Hc, Hr. reflexivity.
Qed.

Lemma start_of_enabled_vm_requests_nothing_witness :
  start 0 (host_with conn_enabled) controller io0
  = Some (Return tt,
          set_running true (snd (lazy_connect (host_with conn_enabled) controller)), io0)
  /\ state_requests io0 = [] /\ resources io0 = None.
Proof.
  split; [|split; reflexivity].
  apply (start_of_enabled_vm_requests_nothing 0 (host_with conn_enabled) controller
           (snd (lazy_connect (host_with conn_enabled) controller)) io0).
  - reflexivity.
  - reflexivity.
Defined.

(** X4: [_set_vcpus_ram] refuses a vCPU count above the physical core count
    before anything is modified, and a run that returns has written exactly
    the requested pair for a count within the core count. *)
Theorem set_vcpus_ram_checks_core_count_first
    (b : Backend) (self : HyperVGNS3VM) (cpus mem : Z) (io : IO) :
  (cpu_count b < cpus ->
   _set_vcpus_ram b self cpus mem io
   = (Raise (GNS3VMError
               (Fmt "You have allocated too many vCPUs for the GNS3 VM! (max available is {} vCPUs)"
                    [OfValue (VInt (cpu_count b))])), io))
  /\ (forall io',
         _set_vcpus_ram b self cpus mem io = (Return tt, io') ->
         cpus <= cpu_count b
         /\ _vm self <> None
         /\ resources io' = Some (cpus, mem)
         /\ wmi_reads io' = wmi_reads io /\ sleeps io' = sleeps io
         /\ state_requests io' = state_requests io).
Proof.
  unfold _set_vcpus_ram. split.
  - intros H. destruct (cpus >? cpu_count b) eqn:E; [reflexivity|].
    rewrite Z.gtb_ltb in E. apply Z.ltb_ge in E. lia.
  - intros io'. destruct (cpus >? cpu_count b) eqn:E; [discriminate|].
    rewrite Z.gtb_ltb in E. apply Z.ltb_ge in E.
    destruct (_vm self) as [vm|]; [|discriminate].
    destruct (modify_failure b vm cpus mem); [discriminate|].
    intros [= <-]. simpl. repeat split; auto; try lia; discriminate.
Qed.

Lemma set_vcpus_ram_checks_core_count_first_witness :
  _set_vcpus_ram (host_with conn_single) connected_controller 8 2048 io0
  = (Raise (GNS3VMError
              (Fmt "You have allocated too many vCPUs for the GNS3 VM! (max available is {} vCPUs)"
                   [OfValue (VInt 4)])), io0)
  /\ (1 <= cpu_count (host_with conn_single)
      /\ resources (snd (_set_vcpus_ram (host_with conn_single) connected_controller
                                        1 2048 io0)) = Some (1, 2048)).
Proof.
  pose proof (set_vcpus_ram_checks_core_count_first (host_with conn_single)
                connected_controller 8 2048 io0) as [Hmany _].
  pose proof (set_vcpus_ram_checks_core_count_first (host_with conn_single)
                connected_controller 1 2048 io0) as [_ Hok].
  split.
  - apply Hmany. reflexivity.
  - destruct (Hok {| wmi_reads := 0; sleeps := []; state_requests := [];
                     resources := Some (1, 2048) |} eq_refl) as (Hle & _ & Hres & _).
    split; [exact Hle | reflexivity].
Defined.

Lemma connect_outcome (b : Backend) (self : HyperVGNS3VM) (c : Connection)
    (m : string) (rest : list string) :
  _check_requirements b = Return tt ->
  virtualization_v2 b = Some c ->
  Msvm_VirtualSystemManagementService c = m :: rest ->
  _connect b self
  = match _find_vm c (vmname self) with
    | Raise e =>
      (Raise e,
       {| _engine := _engine self; vmname := vmname self; vcpus := vcpus self;
          ram := ram self; running := running self; _conn := Some c;
          _vm := _vm self; _management := Some m |})
    | Return vm =>
      (Return tt,
       {| _engine := _engine self; vmname := vmname self; vcpus := vcpus self;
          ram := ram self; running := running self; _conn := Some c;
          _vm := vm; _management := Some m |})
    end.
Proof.
  intros Hreq Hv2 Hsvc. unfold _connect. rewrite Hreq, Hv2, Hsvc. reflexivity.
Qed.

Lemma find_vm_at_most_one (c : Connection) (name : string) :
  (List.length (Msvm_ComputerSystem_named c name) <= 1)%nat ->
  _find_vm c name = Return (head (Msvm_ComputerSystem_named c name)).
Proof.
  intros Hlen. unfold _find_vm.
  destruct (Msvm_ComputerSystem_named c name) as [|vm [|vm' l]]; simpl in *;
    [reflexivity | reflexivity | lia].
Qed.

End HyperVStart.

Section HyperVConnect.
Import HyperV HyperVCases.

Lemma named_head_carries_name (c : Connection) (name : string) (vm : Msvm_ComputerSystem) :
  head (Msvm_ComputerSystem_named c name) = Some vm ->
  In vm (computer_systems c) /\ ElementName vm = name.
Proof.
  intros H. apply Msvm_ComputerSystem_named_spec.
  destruct (Msvm_ComputerSystem_named c name) as [|v l]; [discriminate|].
  injection H as ->. left. reflexivity.
Qed.

(** X5: when the requirements hold, the namespace is reached and a
    management service answers, [_connect] with at most one computer system
    of the configured name returns with the connection and the service kept
    and with [_vm] bound to that system, or to nothing when there is none;
    the [running] flag and the configuration are not touched. *)
Theorem connect_binds_the_vm_of_that_name
    (b : Backend) (self : HyperVGNS3VM) (c : Connection) (m : string) (rest : list string) :
  _check_requirements b = Return tt ->
  virtualization_v2 b = Some c ->
  Msvm_VirtualSystemManagementService c = m :: rest ->
  (List.length (Msvm_ComputerSystem_named c (vmname self)) <= 1)%nat ->
  exists self',
    _connect b self = (Return tt, self')
    /\ _conn self' = Some c /\ _management self' = Some m
    /\ _vm self' = head (Msvm_ComputerSystem_named c (vmname self))
    /\ (forall vm, _vm self' = Some vm ->
                   In vm (computer_systems c) /\ ElementName vm = vmname self)
    /\ (Msvm_ComputerSystem_named c (vmname self) = [] -> _vm self' = None)
    /\ running self' = running self /\ vmname self' = vmname self
    /\ vcpus self' = vcpus self /\ ram self' = ram self.
Proof.
  intros Hreq Hv2 Hsvc Hlen.
  rewrite (connect_outcome b self c m rest Hreq Hv2 Hsvc).
  rewrite (find_vm_at_most_one c (vmname self) Hlen).
  eexists. split; [reflexivity|]. simpl.
  split; [reflexivity|]. split; [reflexivity|]. split; [reflexivity|].
  split; [intros vm Hvm; apply (named_head_carries_name c (vmname self) vm Hvm)|].
  split; [intros ->; reflexivity|]. auto.
Qed.

Lemma connect_binds_the_vm_of_that_name_witness :
  exists self',
    _connect (host_with conn_single) controller = (Return tt, self')
    /\ _vm self' = Some gns3_vm
    /\ running self' = false.
Proof.
  destruct (connect_binds_the_vm_of_that_name (host_with conn_single) controller
              conn_single "vmms" [] eq_refl eq_refl eq_refl)
    as (self' & Hrun & _ & _ & Hvm & _ & _ & Hflag & _).
  - vm_compute. lia.
  - exists self'. split; [exact Hrun|]. split; [exact Hvm | exact Hflag].
Defined.

(** X6: a [start] that connects and finds no computer system of the
    configured name raises a GNS3VMError from the resource step, requests no
    state change, and leaves the [running] flag as it was. *)
Theorem start_without_vm_of_that_name_fails_before_any_request
    (fuel : nat) (b : Backend) (self : HyperVGNS3VM) (c : Connection) (m : string)
    (rest : list string) (io : IO) :
  _conn self = None ->
  _check_requirements b = Return tt ->
  virtualization_v2 b = Some c ->
  Msvm_VirtualSystemManagementService c = m :: rest ->
  Msvm_ComputerSystem_named c (vmname self) = [] ->
  exists msg self',
    start fuel b self io = Some (Raise (GNS3VMError msg), self', io)
    /\ running self' = running self
    /\ _vm self' = None
    /\ (vcpus self <= cpu_count b ->
        exists cause,
          msg = Fmt "Could not set to {} and RAM amount set to {}: {}"
                    [OfValue (VInt (vcpus self)); OfValue (VInt (ram self)); cause]).
Proof.
  intros Hconn Hreq Hv2 Hsvc Hnone.
  unfold start, lazy_connect. rewrite Hconn.
  rewrite (connect_outcome b self c m rest Hreq Hv2 Hsvc).
  unfold _find_vm. rewrite Hnone. simpl.
  unfold _set_vcpus_ram. simpl.
  destruct (vcpus self >? cpu_count b) eqn:E.
  - eexists _, _. split; [reflexivity|]. simpl. repeat split; auto.
    intros Hle. rewrite Z.gtb_ltb in E. apply Z.ltb_lt in E. lia.
  - eexists _, _. split; [reflexivity|]. simpl. repeat split; auto.
    intros _. eauto.
Qed.

Lemma start_without_vm_of_that_name_fails_before_any_request_witness :
  exists msg self',
    start 5 (host_with conn_without) controller io0
    = Some (Raise (GNS3VMError msg), self', io0)
    /\ running self' = false /\ _vm self' = None.
Proof.
  destruct (start_without_vm_of_that_name_fails_before_any_request 5
              (host_with conn_without) controller conn_without "vmms" [] io0
              eq_refl eq_refl eq_refl eq_refl eq_refl)
    as (msg & self' & Hrun & Hflag & Hvm & _).
  exists msg, self'. split; [exact Hrun|]. split; [exact Hflag | exact Hvm].
Defined.

(** X7: when more than one computer system carries the configured name,
    [_connect] raises the duplicate-name error with the connection already
    stored; a later operation therefore connects no more and searches no
    more, and a later [start] of a controller that had no machine fails in
    the resource step instead of reporting the duplicate again. *)
Theorem duplicate_name_is_reported_once
    (b : Backend) (self : HyperVGNS3VM) (c : Connection) (m : string) (rest : list string) :
  _check_requirements b = Return tt ->
  virtualization_v2 b = Some c ->
  Msvm_VirtualSystemManagementService c = m :: rest ->
  (1 < List.length (Msvm_ComputerSystem_named c (vmname self)))%nat ->
  exists self',
    _connect b self
    = (Raise (GNS3VMError (Fmt "Duplicate VM name found for {}" [Lit (vmname self)])), self')
    /\ _conn self' = Some c
    /\ _vm self' = _vm self
    /\ (forall b2, lazy_connect b2 self' = (Return tt, self'))
    /\ (_vm self = None ->
        forall fuel b2 io,
          exists msg,
            start fuel b2 self' io = Some (Raise (GNS3VMError msg), self', io)
            /\ msg <> Fmt "Duplicate VM name found for {}" [Lit (vmname self)]).
Proof.
  intros Hreq Hv2 Hsvc Hlen.
  rewrite (connect_outcome b self c m rest Hreq Hv2 Hsvc).
  assert (Hdup : _find_vm c (vmname self)
                 = Raise (GNS3VMError (Fmt "Duplicate VM name found for {}"
                                           [Lit (vmname self)]))).
  { unfold _find_vm.
    destruct (Msvm_ComputerSystem_named c (vmname self)) as [|v1 [|v2 l]];
      simpl in Hlen; try lia.
    remember (Z.of_nat (List.length (v1 :: v2 :: l))) as n eqn:Hn.
    assert (1 < n) by (subst n; simpl List.length; lia).
    destruct (n =? 0) eqn:E0; [apply Z.eqb_eq in E0; lia|].
    destruct (n >? 1) eqn:E1; [reflexivity|].
    rewrite Z.gtb_ltb in E1. apply Z.ltb_ge in E1. lia. }
  rewrite Hdup. eexists. split; [reflexivity|]. simpl.
  split; [reflexivity|]. split; [reflexivity|]. split; [reflexivity|].
  intros Hvm fuel b2 io. unfold start, lazy_connect, _is_running, _set_vcpus_ram. simpl.
  rewrite Hvm. simpl.
  destruct (vcpus self >? cpu_count b2); eexists; (split; [reflexivity|]); discriminate.
Qed.

Lemma duplicate_name_is_reported_once_witness :
  exists self',
    _connect (host_with conn_duplicate) controller
    = (Raise (GNS3VMError (Fmt "Duplicate VM name found for {}" [Lit "GNS3 VM"])), self')
    /\ lazy_connect (host_with conn_single) self' = (Return tt, self')
    /\ _vm self' = None.
Proof.
  destruct (duplicate_name_is_reported_once (host_with conn_duplicate) controller
              conn_duplicate "vmms" [] eq_refl eq_refl eq_refl)
    as (self' & Hrun & _ & Hvm & Hlazy & _).
  - vm_compute. lia.
  - exists self'. split; [exact Hrun|]. split; [apply Hlazy | exact Hvm].
Defined.



End HyperVConnect.

(** * Further properties of the VPCS module *)

Section PoolBehaviour.
Import Vpcs VpcsCases.

Lemma console_scan_start_after_failure (s : VPCS) :
  console_scan_start (set_current_console_port (console_scan_start s) s) = console_scan_start s.
Proof.
  unfold console_scan_start. simpl.
  destruct (_current_console_port s >? _console_end_port_range s) eqn:E; simpl.
  - destruct (_console_start_port_range s >? _console_end_port_range s); reflexivity.
  - rewrite E. reflexivity.
Qed.

Lemma udp_scan_start_after_failure (s : VPCS) :
  udp_scan_start (set_current_udp_port (udp_scan_start s) s) = udp_scan_start s.
Proof.
  unfold udp_scan_start. simpl.
  destruct (_current_udp_port s >=? _udp_end_port_range s) eqn:E; simpl.
  - destruct (_udp_start_port_range s >=? _udp_end_port_range s); reflexivity.
  - rewrite E. reflexivity.
Qed.

(** X9: an allocation fails exactly when no port from the start of the scan
    to the range end can be bound, whatever is free below the scan start,
    and the failure leaves the pool where a repeated allocation in the same
    environment fails in the same way: the pools do not wrap around to look
    for a lower free port. *)
Theorem failed_allocation_repeats_in_same_environment (env : Env) (s : VPCS) :
  ((exists e s', allocate_console_port env s = (Raise e, s')) <->
   (forall q, console_scan_start s <= q <= _console_end_port_range s ->
              can_bind env TCP (_host s) q = false))
  /\ (forall e s', allocate_console_port env s = (Raise e, s') ->
                   allocate_console_port env s' = (Raise e, s'))
  /\ ((exists e s', allocate_udp env s = (Raise e, s')) <->
      (forall q, udp_scan_start s <= q <= _udp_end_port_range s ->
                 can_bind env UDP (_host s) q = false))
  /\ (forall e s', allocate_udp env s = (Raise e, s') -> allocate_udp env s' = (Raise e, s')).
Proof.
  split; [|split; [|split]].
  - rewrite <- find_unused_port_Raise. rewrite allocate_console_port_unfold.
    destruct (find_unused_port _ _ _ _ _) as [p|e0]; simpl; split.
    + intros (e & s' & H). discriminate H.
    + intros (e & H). discriminate H.
    + eauto.
    + eauto.
  - intros e s'. rewrite allocate_console_port_unfold.
    destruct (find_unused_port _ _ _ _ _) as [p|e0] eqn:Hf; simpl; [discriminate|].
    intros [= <- <-]. rewrite allocate_console_port_unfold.
    rewrite console_scan_start_after_failure. simpl. rewrite Hf. simpl.
    destruct s; reflexivity.
  - rewrite <- find_unused_port_Raise. rewrite allocate_udp_unfold.
    destruct (find_unused_port _ _ _ _ _) as [p|e0]; simpl; split.
    + intros (e & s' & H). discriminate H.
    + intros (e & H). discriminate H.
    + eauto.
    + eauto.
  - intros e s'. rewrite allocate_udp_unfold.
    destruct (find_unused_port _ _ _ _ _) as [p|e0] eqn:Hf; simpl; [discriminate|].
    intros [= <- <-]. rewrite allocate_udp_unfold.
    rewrite udp_scan_start_after_failure. simpl. rewrite Hf. simpl.
    destruct s; reflexivity.
Qed.

Lemma failed_allocation_repeats_in_same_environment_witness :
  can_bind below_4003_free TCP "127.0.0.1" 4001 = true
  /\ exists e s',
      allocate_console_port below_4003_free cursor_on_last_port = (Raise e, s')
      /\ allocate_console_port below_4003_free s' = (Raise e, s').
Proof.
  split; [reflexivity|].
  destruct (failed_allocation_repeats_in_same_environment below_4003_free cursor_on_last_port)
    as (Hfail & Hagain & _).
  destruct (proj2 Hfail) as (e & s' & Hrun).
  - intros q Hq. change (4003 <= q <= 4003) in Hq.
    assert (q = 4003) as -> by lia. reflexivity.
  - exists e, s'. split; [exact Hrun | exact (Hagain e s' Hrun)].
Defined.

End PoolBehaviour.

Section PoolOrder.
Import Vpcs VpcsCases.

Lemma find_unused_port_first_candidate (env : Env) (lo hi : Z) (host : string)
    (st : socket_type) :
  lo <= hi -> can_bind env st host lo = true ->
  find_unused_port env lo hi host st = Return lo.
Proof.
  intros Hle Hb. apply find_unused_port_Return.
  split; [lia|]. split; [exact Hb|]. intros q Hq. lia.
Qed.

Lemma console_ports_in_order (envs : list Env) :
  forall s,
    (forall env p, In env envs ->
                   _current_console_port s <= p <= _console_end_port_range s ->
                   can_bind env TCP (_host s) p = true) ->
    _current_console_port s + Z.of_nat (List.length envs) <= _console_end_port_range s + 1 ->
    fst (allocations allocate_console_port envs s)
    = List.map (fun p => Return p)
               (seqZ (_current_console_port s) (Z.of_nat (List.length envs)))
    /\ _current_console_port (snd (allocations allocate_console_port envs s))
       = _current_console_port s + Z.of_nat (List.length envs).
Proof.
  induction envs as [|env rest IH]; intros s Hfree Hroom.
  - simpl. split; [reflexivity | lia].
  - simpl List.length in *. simpl allocations.
    rewrite allocate_console_port_unfold.
    assert (Hscan : console_scan_start s = _current_console_port s).
    { unfold console_scan_start.
      destruct (_current_console_port s >? _console_end_port_range s) eqn:E; [|reflexivity].
      rewrite Z.gtb_ltb in E. apply Z.ltb_lt in E. lia. }
    rewrite Hscan.
    rewrite find_unused_port_first_candidate;
      [|lia | apply Hfree; [left; reflexivity | lia]].
    simpl.
    specialize (IH (set_current_console_port (_current_console_port s + 1) s)).
    simpl in IH.
    destruct IH as [IHports IHcur].
    + intros env' p Hin Hp. apply Hfree; [right; exact Hin | lia].
    + lia.
    + destruct (allocations allocate_console_port rest _) as [rs s2]. simpl in *.
      split.
      * rewrite seqZ_cons by lia. simpl. f_equal. rewrite IHports.
        f_equal. f_equal; lia.
      * rewrite IHcur. lia.
Qed.

Lemma udp_ports_in_order (envs : list Env) :
  forall s,
    (forall env p, In env envs ->
                   _current_udp_port s <= p <= _udp_end_port_range s ->
                   can_bind env UDP (_host s) p = true) ->
    _current_udp_port s + Z.of_nat (List.length envs) <= _udp_end_port_range s ->
    fst (allocations allocate_udp envs s)
    = List.map (fun p => Return p)
               (seqZ (_current_udp_port s) (Z.of_nat (List.length envs)))
    /\ _current_udp_port (snd (allocations allocate_udp envs s))
       = _current_udp_port s + Z.of_nat (List.length envs).
Proof.
  induction envs as [|env rest IH]; intros s Hfree Hroom.
  - simpl. split; [reflexivity | lia].
  - simpl List.length in *. simpl allocations.
    rewrite allocate_udp_unfold.
    assert (Hscan : udp_scan_start s = _current_udp_port s).
    { unfold udp_scan_start.
      destruct (_current_udp_port s >=? _udp_end_port_range s) eqn:E; [|reflexivity].
      rewrite Z.geb_leb in E. apply Z.leb_le in E. lia. }
    rewrite Hscan.
    rewrite find_unused_port_first_candidate;
      [|lia | apply Hfree; [left; reflexivity | lia]].
    simpl.
    specialize (IH (set_current_udp_port (_current_udp_port s + 1) s)).
    simpl in IH.
    destruct IH as [IHports IHcur].
    + intros env' p Hin Hp. apply Hfree; [right; exact Hin | lia].
    + lia.
    + destruct (allocations allocate_udp rest _) as [rs s2]. simpl in *.
      split.
      * rewrite seqZ_cons by lia. simpl. f_equal. rewrite IHports.
        f_equal. f_equal; lia.
      * rewrite IHcur. lia.
Qed.

(** X10: while every port from the cursor to the range end can be bound, n
    allocations in a row hand out the n consecutive ports that start at the
    cursor and leave the cursor n further: for the console pool as long as
    they fit up to the range end, for the data pool as long as they stay
    below it. *)
Theorem bindable_ports_are_handed_out_in_order (envs : list Env) (s : VPCS) :
  ((forall env p, In env envs ->
                  _current_console_port s <= p <= _console_end_port_range s ->
                  can_bind env TCP (_host s) p = true) ->
   _current_console_port s + Z.of_nat (List.length envs) <= _console_end_port_range s + 1 ->
   fst (allocations allocate_console_port envs s)
   = List.map (fun p => Return p)
              (seqZ (_current_console_port s) (Z.of_nat (List.length envs)))
   /\ _current_console_port (snd (allocations allocate_console_port envs s))
      = _current_console_port s + Z.of_nat (List.length envs))
  /\ ((forall env p, In env envs ->
                     _current_udp_port s <= p <= _udp_end_port_range s ->
                     can_bind env UDP (_host s) p = true) ->
      _current_udp_port s + Z.of_nat (List.length envs) <= _udp_end_port_range s ->
      fst (allocations allocate_udp envs s)
      = List.map (fun p => Return p)
                 (seqZ (_current_udp_port s) (Z.of_nat (List.length envs)))
      /\ _current_udp_port (snd (allocations allocate_udp envs s))
         = _current_udp_port s + Z.of_nat (List.length envs)).
Proof.
  split; [apply console_ports_in_order | apply udp_ports_in_order].
Qed.

Lemma bindable_ports_are_handed_out_in_order_witness :
  fst (allocations allocate_console_port [all_free; all_free; all_free] small_console_pool)
  = [Return 4001; Return 4002; Return 4003]
  /\ fst (allocations allocate_udp [all_free; all_free] small_udp_pool)
     = [Return 30001; Return 30002].
Proof.
  destruct (bindable_ports_are_handed_out_in_order [all_free; all_free; all_free]
              small_console_pool) as [Hc _].
  destruct (bindable_ports_are_handed_out_in_order [all_free; all_free] small_udp_pool)
    as [_ Hu].
  split.
  - apply Hc.
    + intros env p Hin _. simpl in Hin.
      destruct Hin as [<-|[<-|[<-|[]]]]; reflexivity.
    + vm_compute. discriminate.
  - apply Hu.
    + intros env p Hin _. simpl in Hin.
      destruct Hin as [<-|[<-|[]]]; reflexivity.
    + vm_compute. discriminate.
Defined.

(** X11: the data pool never starts a scan on the last port of a range of
    more than one port; it hands that port out only when every port from the
    start of the scan up to it is bound, and it hands out the start of the
    scan, below the range end, whenever that port can be bound. *)
Theorem data_pool_reaches_last_port_only_past_bound_ports
    (env : Env) (s s' : VPCS) (p : Z) :
  _udp_start_port_range s < _udp_end_port_range s ->
  allocate_udp env s = (Return p, s') ->
  udp_scan_start s < _udp_end_port_range s
  /\ (p = _udp_end_port_range s ->
      forall q, udp_scan_start s <= q < _udp_end_port_range s ->
                can_bind env UDP (_host s) q = false)
  /\ (can_bind env UDP (_host s) (udp_scan_start s) = true ->
      p = udp_scan_start s /\ p < _udp_end_port_range s).
Proof.
  intros Hrange. rewrite allocate_udp_unfold.
  destruct (find_unused_port _ _ _ _ _) as [q|e] eqn:Hf; simpl; [|discriminate].
  intros [= <- <-]. apply find_unused_port_Return in Hf.
  destruct Hf as (Hr & Hb & Hfirst).
  assert (Hscan : udp_scan_start s < _udp_end_port_range s).
  { unfold udp_scan_start.
    destruct (_current_udp_port s >=? _udp_end_port_range s) eqn:E; [lia|].
    rewrite Z.geb_leb in E. apply Z.leb_gt in E. lia. }
  split; [exact Hscan|]. split.
  - intros -> q0 Hq. apply Hfirst. lia.
  - intros Hfree.
    destruct (Z.eq_dec q (udp_scan_start s)) as [->|Hne]; [split; [reflexivity | lia]|].
    rewrite (Hfirst (udp_scan_start s)) in Hfree by lia. discriminate.
Qed.

Lemma data_pool_reaches_last_port_only_past_bound_ports_witness :
  allocate_udp only_30003_free small_udp_pool
  = (Return 30003, set_current_udp_port 30002 small_udp_pool)
  /\ can_bind only_30003_free UDP "127.0.0.1" 30001 = false
  /\ can_bind only_30003_free UDP "127.0.0.1" 30002 = false.
Proof.
  assert (Hrun : allocate_udp only_30003_free small_udp_pool
                 = (Return 30003, set_current_udp_port 30002 small_udp_pool))
    by (vm_compute; reflexivity).
  split; [exact Hrun|].
  destruct (data_pool_reaches_last_port_only_past_bound_ports only_30003_free
              small_udp_pool (set_current_udp_port 30002 small_udp_pool) 30003)
    as (_ & Hlast & _).
  - vm_compute. reflexivity.
  - exact Hrun.
  - split; apply (Hlast eq_refl); vm_compute; (split; [discriminate | reflexivity]).
Defined.

End PoolOrder.

Section SettingsBehaviour.
Import Vpcs VpcsCases.

(** What a settings request with a local working directory leaves. *)
Lemma settings_local (env : Env) (request : SettingsRequest) (wd : string) (sys : Sys) :
  rq_working_dir request = Some wd ->
  exists sys',
    settings env (Some request) sys = (Return tt, sys')
    /\ _current_console_port (self sys') = _current_console_port (self sys)
    /\ _current_udp_port (self sys') = _current_udp_port (self sys)
    /\ (_console_start_port_range (self sys'), _console_end_port_range (self sys'))
       = match rq_console_start_port_range request, rq_console_end_port_range request with
         | Some lo, Some hi => (lo, hi)
         | _, _ => (_console_start_port_range (self sys), _console_end_port_range (self sys))
         end
    /\ (_udp_start_port_range (self sys'), _udp_end_port_range (self sys'))
       = match rq_udp_start_port_range request, rq_udp_end_port_range request with
         | Some lo, Some hi => (lo, hi)
         | _, _ => (_udp_start_port_range (self sys), _udp_end_port_range (self sys))
         end
    /\ _host (self sys') = _host (self sys)
    /\ _working_dir (self sys') = wd
    /\ _VPCS_instances (self sys')
       = (if String.eqb (_working_dir (self sys)) wd then _VPCS_instances (self sys)
          else with_attr "working_dir" (VStr wd) <$> _VPCS_instances (self sys))
    /\ world sys' = world sys
    /\ sent sys' = sent sys.
Proof.
  intros Hwd. unfold settings, new_working_dir. rewrite Hwd.
  unfold bind, ret, get_self, modify_self.
  destruct (rq_VPCS request) as [p|]; [destruct (truthy (VStr p))|]; simpl;
    (destruct (String.eqb (_working_dir (self sys)) wd) eqn:Ewd; simpl;
     [apply String.eqb_eq in Ewd|];
     destruct (rq_console_start_port_range request) as [clo|];
     destruct (rq_console_end_port_range request) as [chi|];
     destruct (rq_udp_start_port_range request) as [ulo|];
     destruct (rq_udp_end_port_range request) as [uhi|]; simpl;
     eexists; (split; [reflexivity|]); simpl; repeat split; auto).
Qed.

(** X12: a settings request given with a local working directory installs a
    port range only when both of its bounds are present, and never moves a
    cursor.  The console cursor therefore may lie below the new range start,
    and the next allocation then hands out a port outside the new range. *)
Theorem settings_installs_ranges_and_keeps_cursors
    (env : Env) (request : SettingsRequest) (wd : string) (sys : Sys) :
  rq_working_dir request = Some wd ->
  exists sys',
    settings env (Some request) sys = (Return tt, sys')
    /\ _current_console_port (self sys') = _current_console_port (self sys)
    /\ _current_udp_port (self sys') = _current_udp_port (self sys)
    /\ (_console_start_port_range (self sys'), _console_end_port_range (self sys'))
       = match rq_console_start_port_range request, rq_console_end_port_range request with
         | Some lo, Some hi => (lo, hi)
         | _, _ => (_console_start_port_range (self sys), _console_end_port_range (self sys))
         end
    /\ (_udp_start_port_range (self sys'), _udp_end_port_range (self sys'))
       = match rq_udp_start_port_range request, rq_udp_end_port_range request with
         | Some lo, Some hi => (lo, hi)
         | _, _ => (_udp_start_port_range (self sys), _udp_end_port_range (self sys))
         end
    /\ (forall env' lo hi,
           rq_console_start_port_range request = Some lo ->
           rq_console_end_port_range request = Some hi ->
           _current_console_port (self sys) < lo ->
           _current_console_port (self sys) <= hi ->
           can_bind env' TCP (_host (self sys)) (_current_console_port (self sys)) = true ->
           fst (allocate_console_port env' (self sys'))
           = Return (_current_console_port (self sys))
           /\ _current_console_port (self sys) < _console_start_port_range (self sys')).
Proof.
  intros Hwd.
  destruct (settings_local env request wd sys Hwd)
    as (sys' & Hrun & Hcc & Hcu & Hcr & Hur & Hhost & _).
  exists sys'. split; [exact Hrun|]. split; [exact Hcc|]. split; [exact Hcu|].
  split; [exact Hcr|]. split; [exact Hur|].
  intros env' lo hi Hlo Hhi Hbelow Hfit Hfree.
  rewrite Hlo, Hhi in Hcr. injection Hcr as Hs He.
  rewrite allocate_console_port_unfold.
  assert (Hscan : console_scan_start (self sys') = _current_console_port (self sys)).
  { unfold console_scan_start. rewrite Hcc, He.
    destruct (_current_console_port (self sys) >? hi) eqn:E; [|reflexivity].
    rewrite Z.gtb_ltb in E. apply Z.ltb_lt in E. lia. }
  rewrite Hscan, He, Hhost.
  rewrite find_unused_port_first_candidate by assumption.
  simpl. split; [reflexivity | lia].
Qed.

Lemma settings_installs_ranges_and_keeps_cursors_witness :
  exists sys',
    settings all_free (Some new_console_range) sys0 = (Return tt, sys')
    /\ _console_start_port_range (self sys') = 5000
    /\ _udp_start_port_range (self sys') = 30001
    /\ fst (allocate_console_port all_free (self sys')) = Return 4001.
Proof.
  destruct (settings_installs_ranges_and_keeps_cursors all_free new_console_range
              "/tmp/projects" sys0 eq_refl)
    as (sys' & Hrun & _ & _ & Hcr & Hur & Hnext).
  exists sys'. split; [exact Hrun|].
  simpl in Hcr, Hur. injection Hcr as Hs _. injection Hur as Hu _.
  split; [exact Hs|]. split; [exact Hu|].
  apply (Hnext all_free 5000 5100 eq_refl eq_refl); [reflexivity | | reflexivity].
  vm_compute. discriminate.
Defined.

(** X13: a settings request whose local working directory differs from the
    current one makes it the working directory of the module and of every
    registered instance, and moves nothing on disk; one that repeats the
    current directory leaves the instances alone. *)
Theorem settings_repoints_every_instance
    (env : Env) (request : SettingsRequest) (wd : string) (sys : Sys) :
  rq_working_dir request = Some wd ->
  exists sys',
    settings env (Some request) sys = (Return tt, sys')
    /\ _working_dir (self sys') = wd
    /\ world sys' = world sys
    /\ (wd <> _working_dir (self sys) ->
        forall k,
          _VPCS_instances (self sys') !! k
          = with_attr "working_dir" (VStr wd) <$> (_VPCS_instances (self sys) !! k))
    /\ (wd <> _working_dir (self sys) ->
        forall k d, _VPCS_instances (self sys') !! k = Some d ->
                    getattr d "working_dir" = Return (VStr wd))
    /\ (wd = _working_dir (self sys) ->
        _VPCS_instances (self sys') = _VPCS_instances (self sys)).
Proof.
  intros Hwd.
  destruct (settings_local env request wd sys Hwd)
    as (sys' & Hrun & _ & _ & _ & _ & _ & Hdir & Hinst & Hworld & _).
  exists sys'. split; [exact Hrun|]. split; [exact Hdir|]. split; [exact Hworld|].
  assert (Hne : wd <> _working_dir (self sys) ->
                _VPCS_instances (self sys')
                = with_attr "working_dir" (VStr wd) <$> _VPCS_instances (self sys)).
  { intros Hneq. rewrite Hinst.
    destruct (String.eqb (_working_dir (self sys)) wd) eqn:E; [|reflexivity].
    apply String.eqb_eq in E. congruence. }
  split; [|split].
  - intros Hneq k. rewrite (Hne Hneq). apply lookup_fmap.
  - intros Hneq k d. rewrite (Hne Hneq), lookup_fmap.
    destruct (_VPCS_instances (self sys) !! k) as [d0|]; simpl; [|discriminate].
    intros [= <-]. unfold getattr. simpl. rewrite lookup_insert_eq. reflexivity.
  - intros Heq. rewrite Hinst, Heq, String.eqb_refl. reflexivity.
Qed.

Lemma settings_repoints_every_instance_witness :
  exists sys',
    settings all_free (Some moved_working_dir) created = (Return tt, sys')
    /\ _working_dir (self sys') = "/home/user/lab"
    /\ forall k d, _VPCS_instances (self sys') !! k = Some d ->
                   getattr d "working_dir" = Return (VStr "/home/user/lab").
Proof.
  destruct (settings_repoints_every_instance all_free moved_working_dir "/home/user/lab"
              created eq_refl) as (sys' & Hrun & Hdir & _ & _ & Hall & _).
  exists sys'. split; [exact Hrun|]. split; [exact Hdir|].
  apply Hall. vm_compute. discriminate.
Defined.

(** X14: on a remote server, when the working directory is neither the
    projects directory nor the directory of the named project, that
    directory does not exist yet and the move fails, the request is
    abandoned: the working directory, the instances and the port ranges stay
    as they were, whatever ranges the request carried, and nothing is
    reported to the client. *)
Theorem settings_abandoned_when_move_fails
    (env : Env) (request : SettingsRequest) (project : string) (sys : Sys) :
  rq_working_dir request = None ->
  rq_project_name request = Some project ->
  _projects_dir (self sys) <> _working_dir (self sys) ->
  _working_dir (self sys)
  <> path_join (_projects_dir (self sys)) (project +:+ ".gns3") ->
  isdir (world sys) (path_join (_projects_dir (self sys)) (project +:+ ".gns3")) = false ->
  (isdir (world sys) (_working_dir (self sys)) = false
   \/ exists e, move_failure env (_working_dir (self sys))
                  (path_join (_projects_dir (self sys)) (project +:+ ".gns3")) = Some e) ->
  exists sys',
    settings env (Some request) sys = (Return tt, sys')
    /\ _working_dir (self sys') = _working_dir (self sys)
    /\ _VPCS_instances (self sys') = _VPCS_instances (self sys)
    /\ _console_start_port_range (self sys') = _console_start_port_range (self sys)
    /\ _console_end_port_range (self sys') = _console_end_port_range (self sys)
    /\ _udp_start_port_range (self sys') = _udp_start_port_range (self sys)
    /\ _udp_end_port_range (self sys') = _udp_end_port_range (self sys)
    /\ world sys' = world sys
    /\ sent sys' = sent sys.
Proof.
  intros Hwd Hpn Hne1 Hne2 Hnodir Hfail.
  apply String.eqb_neq in Hne1. apply String.eqb_neq in Hne2.
  unfold settings, new_working_dir. rewrite Hwd, Hpn.
  destruct (rq_VPCS request) as [p|]; [destruct (truthy (VStr p))|].
  all: unfold bind, ret, lift, get_self, get_world, modify_self, shutil_move, raise,
         modify_world.
  all: cbn -[isdir path_join String.eqb].
  all: rewrite Hne1, Hne2; cbn -[isdir path_join String.eqb].
  all: rewrite Hnodir; cbn -[isdir path_join String.eqb].
  all: destruct Hfail as [Hmissing|[e He]];
         [ rewrite Hmissing; cbn -[isdir path_join String.eqb]
         | destruct (isdir (world sys) (_working_dir (self sys)));
           cbn -[isdir path_join String.eqb]; [rewrite He|] ].
  all: eexists; (split; [reflexivity|]); cbn; repeat split; reflexivity.
Qed.

Lemma settings_abandoned_when_move_fails_witness :
  exists sys',
    settings all_free (Some remote_project) in_project = (Return tt, sys')
    /\ _working_dir (self sys') = "/tmp/projects/lab1.gns3"
    /\ _console_start_port_range (self sys') = 4001
    /\ sent sys' = [].
Proof.
  destruct (settings_abandoned_when_move_fails all_free remote_project "lab2" in_project
              eq_refl eq_refl)
    as (sys' & Hrun & Hdir & _ & Hlo & _ & _ & _ & _ & Hsent).
  - vm_compute. discriminate.
  - vm_compute. discriminate.
  - reflexivity.
  - left. reflexivity.
  - exists sys'. split; [exact Hrun|]. split; [exact Hdir|]. split; [exact Hlo | exact Hsent].
Defined.

End SettingsBehaviour.

Section RegistryBehaviour.
Import Vpcs VpcsCases.

(** X15: [VPCS.reset] empties the registry, puts both cursors on the
    configured range starts, whatever they were at construction, resets the
    identities of the device class, and leaves the ranges, the working
    directory, the binary path and the disk alone; it sends nothing. *)
Theorem reset_empties_registry_and_rewinds_cursors (request : value) (sys : Sys) :
  exists sys',
    reset request sys = (Return tt, sys')
    /\ _VPCS_instances (self sys') = ∅
    /\ (forall k, _VPCS_instances (self sys') !! k = None)
    /\ _current_console_port (self sys') = _console_start_port_range (self sys)
    /\ _current_udp_port (self sys') = _udp_start_port_range (self sys)
    /\ _console_start_port_range (self sys') = _console_start_port_range (self sys)
    /\ _console_end_port_range (self sys') = _console_end_port_range (self sys)
    /\ _udp_start_port_range (self sys') = _udp_start_port_range (self sys)
    /\ _udp_end_port_range (self sys') = _udp_end_port_range (self sys)
    /\ _working_dir (self sys') = _working_dir (self sys)
    /\ _VPCS (self sys') = _VPCS (self sys)
    /\ _remote_server (self sys') = Some false
    /\ device_class (world sys') = DeviceClass_reset
    /\ dirs (world sys') = dirs (world sys)
    /\ files (world sys') = files (world sys)
    /\ sent sys' = sent sys.
Proof.
  unfold reset, bind, get_self, get_world, modify_world, modify_self.
  eexists. split; [reflexivity|]. cbn -[map_fold]. repeat split; reflexivity.
Qed.

(** X16: deleting a registered instance removes exactly its key, answers
    True and leaves both cursors as they were, so the console port of the
    instance is not handed back; deleting it a second time is reported as an
    unknown identifier. *)
Theorem delete_removes_exactly_that_instance
    (env : Env) (request : dict) (sys : Sys) (rid : value) (k : Z) (d : VPCSDevice) :
  validate_request env VPCS_DELETE_SCHEMA request = true ->
  dict_get "id" request = Some rid ->
  registry_key rid = Return (Some k) ->
  _VPCS_instances (self sys) !! k = Some d ->
  exists sys',
    VPCS_delete env request sys = (Return tt, sys')
    /\ _VPCS_instances (self sys') = delete k (_VPCS_instances (self sys))
    /\ _VPCS_instances (self sys') !! k = None
    /\ (forall j, j <> k -> _VPCS_instances (self sys') !! j = _VPCS_instances (self sys) !! j)
    /\ sent sys' = (sent sys ++ [Response (VBool true)])%list
    /\ _current_console_port (self sys') = _current_console_port (self sys)
    /\ _current_udp_port (self sys') = _current_udp_port (self sys)
    /\ VPCS_delete env request sys'
       = (Return tt,
          {| self := self sys'; world := world sys';
             sent := sent sys' ++ [CustomError (Fmt "VPCS device ID {} doesn't exist"
                                                    [OfValue rid])] |}).
Proof.
  intros Hvalid Hid Hkey Hd.
  assert (Hrun : exists sys',
             VPCS_delete env request sys = (Return tt, sys')
             /\ _VPCS_instances (self sys') = delete k (_VPCS_instances (self sys))
             /\ sent sys' = (sent sys ++ [Response (VBool true)])%list
             /\ _current_console_port (self sys') = _current_console_port (self sys)
             /\ _current_udp_port (self sys') = _current_udp_port (self sys)).
  { unfold VPCS_delete. rewrite Hvalid. simpl.
    unfold bind at 1. unfold lift at 1. rewrite (getitem_found _ _ _ Hid).
    unfold bind at 1. rewrite (get_VPCS_instance_found rid k d sys Hkey Hd).
    eexists. split; [reflexivity|]. simpl. repeat split; reflexivity. }
  destruct Hrun as (sys' & Hrun & Hinst & Hsent & Hcc & Hcu).
  exists sys'. split; [exact Hrun|]. split; [exact Hinst|].
  assert (Hgone : _VPCS_instances (self sys') !! k = None)
    by (rewrite Hinst; apply lookup_delete_eq).
  split; [exact Hgone|].
  split; [intros j Hj; rewrite Hinst; apply lookup_delete_ne; congruence|].
  split; [exact Hsent|]. split; [exact Hcc|]. split; [exact Hcu|].
  apply (operation_on_unknown_instance env request rid sys' VPCS_DELETE_SCHEMA VPCS_delete).
  - unfold device_operations. simpl. tauto.
  - exact Hvalid.
  - exact Hid.
  - unfold unknown_id. rewrite Hkey. exact Hgone.
Qed.

Lemma delete_removes_exactly_that_instance_witness :
  exists sys',
    VPCS_delete all_free delete_request created = (Return tt, sys')
    /\ _VPCS_instances (self sys') !! 1 = None
    /\ _current_console_port (self sys') = 4002
    /\ fst (VPCS_delete all_free delete_request sys') = Return tt.
Proof.
  assert (Hd : _VPCS_instances (self created) !! 1 = Some device1)
    by (vm_compute; reflexivity).
  destruct (delete_removes_exactly_that_instance all_free delete_request created (VInt 1) 1
              device1 eq_refl eq_refl eq_refl Hd)
    as (sys' & Hrun & _ & Hgone & _ & _ & Hcc & _ & Hagain).
  exists sys'. split; [exact Hrun|]. split; [exact Hgone|].
  split; [rewrite Hcc; vm_compute; reflexivity|].
  rewrite Hagain. reflexivity.
Defined.

(** X17: after a creation that found a console port, the new instance is
    registered under its identity with that port as its console, every other
    registered instance is as before, and the console cursor stands one
    above the start of the scan. *)
Theorem created_instance_is_registered_with_its_port
    (env : Env) (request : dict) (sys : Sys) (path : value) (d : VPCSDevice)
    (c : DeviceClass) (port : Z) (s1 : VPCS) :
  validate_request env VPCS_CREATE_SCHEMA request = true ->
  dict_get "path" request = Some path ->
  (isdir (world sys) (_working_dir (self sys)) = true
   \/ makedirs_failure env (_working_dir (self sys)) = None) ->
  VPCSDevice_new path (_working_dir (self sys)) (_host (self sys))
                 (match dict_get "name" request with Some n => n | None => VNone end)
                 (device_class (world sys)) = (Return d, c) ->
  allocate_console_port env (self sys) = (Return port, s1) ->
  exists sys',
    VPCS_create env request sys = (Return tt, sys')
    /\ get_VPCS_instance (VInt (id d)) sys'
       = (Return (Some (id d, with_attr "console" (VInt port) d)), sys')
    /\ getattr (with_attr "console" (VInt port) d) "console" = Return (VInt port)
    /\ (forall j, j <> id d ->
                  _VPCS_instances (self sys') !! j = _VPCS_instances (self sys) !! j)
    /\ _current_console_port (self sys') = console_scan_start (self sys) + 1
    /\ console_scan_start (self sys) <= port <= _console_end_port_range (self sys).
Proof.
  intros Hvalid Hpath Hdir Hnew Halloc.
  destruct (create_runs_console_pool env request sys path d c Hvalid Hpath Hdir Hnew)
    as (sys' & Hrun & Hpool).
  rewrite Halloc in Hpool. destruct Hpool as [Hself _].
  pose proof (console_step_success env (self sys) port s1 Halloc) as (Hrange & _ & Hcur).
  assert (Hinst1 : _VPCS_instances s1 = _VPCS_instances (self sys)).
  { rewrite allocate_console_port_unfold in Halloc.
    destruct (find_unused_port _ _ _ _ _); simpl in Halloc; [|discriminate].
    injection Halloc as _ <-. reflexivity. }
  exists sys'. split; [exact Hrun|]. split; [|split; [|split; [|split]]].
  - apply get_VPCS_instance_found; [reflexivity|].
    rewrite Hself. simpl. apply lookup_insert_eq.
  - unfold getattr. simpl. rewrite lookup_insert_eq. reflexivity.
  - intros j Hj. rewrite Hself. simpl. rewrite lookup_insert_ne by congruence.
    rewrite Hinst1. reflexivity.
  - rewrite Hself. simpl. exact Hcur.
  - exact Hrange.
Qed.

Lemma created_instance_is_registered_with_its_port_witness :
  exists sys',
    VPCS_create all_free create_request sys0 = (Return tt, sys')
    /\ fst (get_VPCS_instance (VInt 1) sys')
       = Return (Some (1, with_attr "console" (VInt 4001)
                            {| id := 1;
                               attrs := list_to_map [("name", VStr "VPCS1");
                                                     ("path", VStr "/usr/local/bin/vpcs");
                                                     ("working_dir", VStr "/tmp/projects");
                                                     ("host", VStr "127.0.0.1");
                                                     ("console", VNone);
                                                     ("startup_config", VNone)];
                               nios := []; process := false |}))
    /\ _current_console_port (self sys') = 4002.
Proof.
  destruct (created_instance_is_registered_with_its_port all_free create_request sys0
              (VStr "/usr/local/bin/vpcs")
              {| id := 1;
                 attrs := list_to_map [("name", VStr "VPCS1");
                                       ("path", VStr "/usr/local/bin/vpcs");
                                       ("working_dir", VStr "/tmp/projects");
                                       ("host", VStr "127.0.0.1"); ("console", VNone);
                                       ("startup_config", VNone)];
                 nios := []; process := false |}
              {| instance_count := 1; names := [VStr "VPCS1"] |}
              4001 (set_current_console_port 4002 module0))
    as (sys' & Hrun & Hget & _ & _ & Hcur & _).
  - reflexivity.
  - reflexivity.
  - right. reflexivity.
  - reflexivity.
  - vm_compute. reflexivity.
  - exists sys'. split; [exact Hrun|]. split; [simpl in Hget; rewrite Hget; reflexivity|].
    rewrite Hcur. vm_compute. reflexivity.
Defined.

(** X18: when the working directory does not exist and cannot be made,
    [VPCS.create] reports "Could not create working directory" and does
    nothing else: no device is constructed, no port is looked for and the
    cursor, the registry and the disk are as before. *)
Theorem create_stops_when_directory_cannot_be_made
    (env : Env) (request : dict) (sys : Sys) (path : value) (e : text) :
  validate_request env VPCS_CREATE_SCHEMA request = true ->
  dict_get "path" request = Some path ->
  isdir (world sys) (_working_dir (self sys)) = false ->
  makedirs_failure env (_working_dir (self sys)) = Some e ->
  VPCS_create env request sys
  = (Return tt,
     {| self := self sys; world := world sys;
        sent := sent sys ++ [CustomError (Fmt "Could not create working directory {}" [e])] |}).
Proof.
  intros Hvalid Hpath Hnodir Hfail.
  unfold VPCS_create. rewrite Hvalid. simpl.
  unfold bind at 1. unfold lift at 1. rewrite (getitem_found _ _ _ Hpath).
  unfold bind at 1. unfold or_report.
  unfold bind at 1. unfold makedirs_working_dir.
  unfold bind at 1. unfold get_self at 1. unfold bind at 1. unfold get_world at 1.
  rewrite Hnodir, Hfail. reflexivity.
Qed.

Lemma create_stops_when_directory_cannot_be_made_witness :
  VPCS_create read_only_disk create_request sys0
  = (Return tt,
     {| self := module0; world := world0;
        sent := [CustomError (Fmt "Could not create working directory {}"
                                  [Lit "[Errno 30] Read-only file system"])] |}).
Proof.
  apply (create_stops_when_directory_cannot_be_made read_only_disk create_request sys0
           (VStr "/usr/local/bin/vpcs") (Lit "[Errno 30] Read-only file system")).
  - reflexivity.
  - reflexivity.
  - reflexivity.
  - reflexivity.
Defined.

End RegistryBehaviour.

Section EndpointBehaviour.
Import Vpcs VpcsCases.

(** [VPCS.add_nio] on a registered instance, by the outcome of building the
    endpoint and of binding it. *)
Lemma add_nio_on_instance (env : Env) (request : dict) (sys : Sys) (rid slot port : value)
    (k : Z) (d : VPCSDevice) :
  validate_request env VPCS_ADD_NIO_SCHEMA request = true ->
  dict_get "id" request = Some rid ->
  registry_key rid = Return (Some k) ->
  _VPCS_instances (self sys) !! k = Some d ->
  dict_get "slot" request = Some slot ->
  dict_get "port" request = Some port ->
  add_nio env request sys
  = match make_nio env (self sys) request with
    | Raise (VPCSError msg) =>
      (Return tt, {| self := self sys; world := world sys;
                     sent := sent sys ++ [CustomError msg] |})
    | Raise e => (Raise e, sys)
    | Return nio =>
      match slot_add_nio_binding slot port nio d with
      | Raise (VPCSError msg) =>
        (Return tt, {| self := self sys; world := world sys;
                       sent := sent sys ++ [CustomError msg] |})
      | Raise e => (Raise e, sys)
      | Return d' =>
        let stored := set_VPCS_instances (<[k := d']> (_VPCS_instances (self sys))) (self sys) in
        match dict_get "port_id" request with
        | Some port_id =>
          (Return tt, {| self := stored; world := world sys;
                         sent := sent sys ++ [Response (VDict [("port_id", port_id)])] |})
        | None =>
          (Raise (KeyError "port_id"),
           {| self := stored; world := world sys; sent := sent sys |})
        end
      end
    end.
Proof.
  intros Hvalid Hid Hkey Hd Hslot Hport.
  unfold add_nio. rewrite Hvalid. simpl.
  unfold bind at 1. unfold lift at 1. rewrite (getitem_found _ _ _ Hid).
  unfold bind at 1. rewrite (get_VPCS_instance_found rid k d sys Hkey Hd).
  unfold bind at 1. unfold lift at 1. rewrite (getitem_found _ _ _ Hslot).
  unfold bind at 1. unfold lift at 1. rewrite (getitem_found _ _ _ Hport).
  unfold bind at 1. unfold get_self at 1.
  unfold bind at 1. unfold or_report at 1. unfold lift at 1.
  destruct (make_nio env (self sys) request) as [nio|e].
  - unfold bind at 1. unfold or_report at 1. unfold bind at 1. unfold lift at 1.
    destruct (slot_add_nio_binding slot port nio d) as [d'|e].
    + unfold store_instance, modify_self. simpl.
      unfold bind, lift, getitem, send_response, send.
      destruct (dict_get "port_id" request); reflexivity.
    + destruct e; reflexivity.
  - destruct e; reflexivity.
Qed.

(** X19: a UDP endpoint is built from its three parameters whatever the
    privileges of the process and the capabilities of the binary, and an
    endpoint of any type other than "nio_udp" and "nio_tap" is refused with
    an error that names the type, the registry being left as it was. *)
Theorem udp_endpoint_needs_no_privilege_and_unknown_type_is_refused
    (env : Env) (request nio : dict) (sys : Sys) (type : value) :
  dict_get "nio" request = Some (VDict nio) ->
  dict_get "type" nio = Some type ->
  (forall lport rhost rport,
      py_eqb type (VStr "nio_udp") = true ->
      dict_get "lport" nio = Some lport ->
      dict_get "rhost" nio = Some rhost ->
      dict_get "rport" nio = Some rport ->
      make_nio env (self sys) request = Return (NIO_UDP lport rhost rport))
  /\ (py_eqb type (VStr "nio_udp") = false ->
      py_eqb type (VStr "nio_tap") = false ->
      make_nio env (self sys) request
      = Raise (VPCSError (Fmt "Requested NIO does not exist or is not supported: {}"
                              [OfValue type]))
      /\ forall rid slot port k d,
          validate_request env VPCS_ADD_NIO_SCHEMA request = true ->
          dict_get "id" request = Some rid ->
          registry_key rid = Return (Some k) ->
          _VPCS_instances (self sys) !! k = Some d ->
          dict_get "slot" request = Some slot ->
          dict_get "port" request = Some port ->
          add_nio env request sys
          = (Return tt,
             {| self := self sys; world := world sys;
                sent := sent sys
                        ++ [CustomError
                              (Fmt "Requested NIO does not exist or is not supported: {}"
                                   [OfValue type])] |})).
Proof.
  intros Hnio Htype.
  assert (Hhead : forall t, dict_get "type" nio = Some t ->
            make_nio env (self sys) request
            = if py_eqb t (VStr "nio_udp") then
                match subscript (VDict nio) "lport" with
                | Raise e => Raise e
                | Return lport =>
                  match subscript (VDict nio) "rhost" with
                  | Raise e => Raise e
                  | Return rhost =>
                    match subscript (VDict nio) "rport" with
                    | Raise e => Raise e
                    | Return rport => Return (NIO_UDP lport rhost rport)
                    end
                  end
                end
              else if py_eqb t (VStr "nio_tap") then
                match subscript (VDict nio) "tap_device" with
                | Raise e => Raise e
                | Return tap_device =>
                  match _check_for_privileged_access env (self sys) tap_device with
                  | Raise e => Raise e
                  | Return _ => Return (NIO_TAP tap_device)
                  end
                end
              else Raise (VPCSError (Fmt "Requested NIO does not exist or is not supported: {}"
                                         [OfValue t]))).
  { intros t Ht. unfold make_nio. rewrite (getitem_found _ _ _ Hnio).
    unfold subscript at 1. rewrite (getitem_found _ _ _ Ht). reflexivity. }
  rewrite (Hhead type Htype). split.
  - intros lport rhost rport Hudp Hl Hh Hp. rewrite Hudp. unfold subscript.
    rewrite (getitem_found _ _ _ Hl), (getitem_found _ _ _ Hh), (getitem_found _ _ _ Hp).
    reflexivity.
  - intros Hudp Htap. rewrite Hudp, Htap. split; [reflexivity|].
    intros rid slot port k d Hvalid Hid Hkey Hd Hslot Hport.
    rewrite (add_nio_on_instance env request sys rid slot port k d
               Hvalid Hid Hkey Hd Hslot Hport).
    rewrite (Hhead type Htype), Hudp, Htap. reflexivity.
Qed.

Lemma udp_endpoint_needs_no_privilege_and_unknown_type_is_refused_witness :
  make_nio env_incapable (self created) udp_request
  = Return (NIO_UDP (VInt 30001) (VStr "127.0.0.1") (VInt 30002))
  /\ add_nio all_free ethernet_request created
     = (Return tt,
        {| self := self created; world := world created;
           sent := sent created
                   ++ [CustomError
                         (Fmt "Requested NIO does not exist or is not supported: {}"
                              [OfValue (VStr "nio_generic_ethernet")])] |}).
Proof.
  split.
  - apply (proj1 (udp_endpoint_needs_no_privilege_and_unknown_type_is_refused
                    env_incapable udp_request
                    [("type", VStr "nio_udp"); ("lport", VInt 30001);
                     ("rhost", VStr "127.0.0.1"); ("rport", VInt 30002)]
                    created (VStr "nio_udp") eq_refl eq_refl));
      reflexivity.
  - destruct (udp_endpoint_needs_no_privilege_and_unknown_type_is_refused
                all_free ethernet_request
                [("type", VStr "nio_generic_ethernet"); ("ethernet_device", VStr "eth0")]
                created (VStr "nio_generic_ethernet") eq_refl eq_refl) as [_ Hother].
    destruct (Hother eq_refl eq_refl) as [_ Hrun].
    apply (Hrun (VInt 1) (VInt 0) (VInt 0) 1 device1); try reflexivity;
      vm_compute; reflexivity.
Defined.

(** X20: for an unprivileged process, an error of listing the extended
    attributes of the binary is not turned into a refusal: it escapes from
    the check, from the construction of the TAP endpoint and from
    [VPCS.add_nio], which then sends nothing and binds nothing. *)
Theorem attribute_listing_error_escapes_add_nio
    (env : Env) (request nio : dict) (sys : Sys) (dev : value) (msg : text) :
  geteuid env <> 0 ->
  listxattr env (_VPCS (self sys)) = Raise (OSError msg) ->
  dict_get "nio" request = Some (VDict nio) ->
  dict_get "type" nio = Some (VStr "nio_tap") ->
  dict_get "tap_device" nio = Some dev ->
  _check_for_privileged_access env (self sys) dev = Raise (OSError msg)
  /\ make_nio env (self sys) request = Raise (OSError msg)
  /\ forall rid slot port k d,
      validate_request env VPCS_ADD_NIO_SCHEMA request = true ->
      dict_get "id" request = Some rid ->
      registry_key rid = Return (Some k) ->
      _VPCS_instances (self sys) !! k = Some d ->
      dict_get "slot" request = Some slot ->
      dict_get "port" request = Some port ->
      add_nio env request sys = (Raise (OSError msg), sys).
Proof.
  intros Heuid Hlist Hnio Htype Hdev.
  assert (Hcheck : _check_for_privileged_access env (self sys) dev = Raise (OSError msg)).
  { unfold _check_for_privileged_access. apply Z.eqb_neq in Heuid.
    rewrite Heuid, Hlist. reflexivity. }
  assert (Hmake : make_nio env (self sys) request = Raise (OSError msg)).
  { rewrite (make_nio_tap env (self sys) request nio dev Hnio Htype Hdev), Hcheck.
    reflexivity. }
  split; [exact Hcheck|]. split; [exact Hmake|].
  intros rid slot port k d Hvalid Hid Hkey Hd Hslot Hport.
  rewrite (add_nio_on_instance env request sys rid slot port k d
             Hvalid Hid Hkey Hd Hslot Hport).
  rewrite Hmake. reflexivity.
Qed.

Lemma attribute_listing_error_escapes_add_nio_witness :
  add_nio attributes_denied tap_request created
  = (Raise (OSError (Lit "[Errno 13] Permission denied")), created).
Proof.
  assert (Heuid : geteuid attributes_denied <> 0) by (vm_compute; discriminate).
  assert (Hd : _VPCS_instances (self created) !! 1 = Some device1)
    by (vm_compute; reflexivity).
  destruct (attribute_listing_error_escapes_add_nio attributes_denied tap_request
              [("type", VStr "nio_tap"); ("tap_device", VStr "tap0")] created
              (VStr "tap0") (Lit "[Errno 13] Permission denied")
              Heuid eq_refl eq_refl eq_refl eq_refl)
    as (_ & _ & Hrun).
  exact (Hrun (VInt 1) (VInt 0) (VInt 0) 1 device1 eq_refl eq_refl eq_refl Hd
              eq_refl eq_refl).
Defined.

End EndpointBehaviour.

Section CapabilityByte.
Import Vpcs VpcsCases.

Lemma byte_has_no_bit_13 (b : Byte.byte) : Z.testbit (Z.of_N (Byte.to_N b)) 13 = false.
Proof. destruct b; reflexivity. Qed.

(** Bit 13 of a little-endian word is bit 5 of its second byte. *)
Lemma le32_bit_13 (b0 b1 b2 b3 : Byte.byte) :
  Z.testbit (le32 b0 b1 b2 b3) 13 = N.testbit (Byte.to_N b1) 5.
Proof.
  unfold le32. rewrite !Z.lor_spec, !Z.shiftl_spec by lia.
  rewrite byte_has_no_bit_13.
  change (13 - 8) with (Z.of_N 5). rewrite Z.testbit_of_N.
  rewrite !Z.testbit_neg_r by lia. rewrite !orb_false_r. reflexivity.
Qed.

(** X21: for an unprivileged process whose binary lists the capability
    attribute, the check decides on one bit of what it reads: with twenty
    bytes it passes exactly when bit 5 of the byte at offset 5 is set, and
    with any other number of bytes it passes whatever they are. *)
Theorem capability_check_reads_bit_5_of_byte_5
    (env : Env) (s : VPCS) (device : value) (xattrs : list string) (caps : list Byte.byte) :
  geteuid env <> 0 ->
  listxattr env (_VPCS s) = Return xattrs ->
  existsb (String.eqb "security.capability") xattrs = true ->
  getxattr env (_VPCS s) "security.capability" = Return caps ->
  (List.length caps = 20%nat ->
   (_check_for_privileged_access env s device = Return tt
    <-> N.testbit (Byte.to_N (nth 5 caps Byte.x00)) 5 = true))
  /\ (List.length caps <> 20%nat -> _check_for_privileged_access env s device = Return tt).
Proof.
  intros Heuid Hlist Hlisted Hget.
  unfold _check_for_privileged_access.
  apply Z.eqb_neq in Heuid. rewrite Heuid, Hlist, Hlisted, Hget.
  split.
  - intros Hlen.
    do 20 (destruct caps as [|? caps]; [discriminate Hlen|]).
    destruct caps; [|discriminate Hlen].
    cbn [unpack_IIIII nth]. rewrite land_CAP_NET_RAW_bit, le32_bit_13.
    destruct (N.testbit (Byte.to_N b4) 5); simpl; split; congruence.
  - intros Hlen.
    assert (Hbad : unpack_IIIII caps = Raise StructError).
    { do 20 (destruct caps as [|? caps]; [reflexivity|]).
      destruct caps; [exfalso; apply Hlen; reflexivity | reflexivity]. }
    rewrite Hbad. reflexivity.
Qed.

Lemma capability_check_reads_bit_5_of_byte_5_witness :
  (_check_for_privileged_access (env_with_caps caps_net_raw) module0 (VStr "tap0") = Return tt
   /\ N.testbit (Byte.to_N (nth 5 caps_net_raw Byte.x00)) 5 = true)
  /\ _check_for_privileged_access (env_with_caps caps_revision_3) module0 (VStr "tap0")
     = Return tt.
Proof.
  assert (Heuid : forall caps, geteuid (env_with_caps caps) <> 0)
    by (intros; vm_compute; discriminate).
  destruct (capability_check_reads_bit_5_of_byte_5 (env_with_caps caps_net_raw) module0
              (VStr "tap0") ["security.capability"] caps_net_raw
              (Heuid _) eq_refl eq_refl eq_refl) as [Hbit _].
  destruct (capability_check_reads_bit_5_of_byte_5 (env_with_caps caps_revision_3) module0
              (VStr "tap0") ["security.capability"] caps_revision_3
              (Heuid _) eq_refl eq_refl eq_refl) as [_ Hlen].
  split.
  - split; [apply (Hbit eq_refl)|]; reflexivity.
  - apply Hlen. vm_compute. discriminate.
Defined.

End CapabilityByte.

Section UpdateAgain.
Import Vpcs VpcsCases.









End UpdateAgain.

Section DataPortHandler.
Import Vpcs VpcsCases.

Lemma allocate_udp_outcome (env : Env) (s : VPCS) :
  (exists port,
      allocate_udp env s = (Return port, set_current_udp_port (udp_scan_start s + 1) s))
  \/ (exists msg,
         allocate_udp env s = (Raise (VPCSError msg), set_current_udp_port (udp_scan_start s) s)).
Proof.
  rewrite allocate_udp_unfold.
  destruct (find_unused_port _ _ _ _ _) as [p|e]; simpl; eauto.
Qed.

(** X24: [VPCS.allocate_udp_port] on a registered instance answers with the
    port the data pool hands out and the caller's token, and with the error
    of the pool when no port is left; the registry is not touched.  A
    request without the token raises KeyError after the port was taken: the
    cursor has moved and nothing is sent. *)
Theorem allocate_udp_port_answers_with_port_and_token
    (env : Env) (request : dict) (sys : Sys) (rid : value) (k : Z) (d : VPCSDevice) :
  validate_request env VPCS_ALLOCATE_UDP_PORT_SCHEMA request = true ->
  dict_get "id" request = Some rid ->
  registry_key rid = Return (Some k) ->
  _VPCS_instances (self sys) !! k = Some d ->
  (forall port s1 port_id,
      allocate_udp env (self sys) = (Return port, s1) ->
      dict_get "port_id" request = Some port_id ->
      allocate_udp_port env request sys
      = (Return tt,
         {| self := s1; world := world sys;
            sent := sent sys
                    ++ [Response (VDict [("lport", VInt port); ("port_id", port_id)])] |})
      /\ _VPCS_instances s1 = _VPCS_instances (self sys)
      /\ udp_scan_start (self sys) <= port <= _udp_end_port_range (self sys))
  /\ (forall port s1,
         allocate_udp env (self sys) = (Return port, s1) ->
         dict_get "port_id" request = None ->
         allocate_udp_port env request sys
         = (Raise (KeyError "port_id"), {| self := s1; world := world sys; sent := sent sys |})
         /\ _current_udp_port s1 = udp_scan_start (self sys) + 1)
  /\ (forall e s1,
         allocate_udp env (self sys) = (Raise e, s1) ->
         exists msg,
           e = VPCSError msg
           /\ allocate_udp_port env request sys
              = (Return tt, {| self := s1; world := world sys;
                               sent := sent sys ++ [CustomError msg] |})
           /\ _current_udp_port s1 = udp_scan_start (self sys)).
Proof.
  intros Hvalid Hid Hkey Hd.
  assert (Hhead : allocate_udp_port env request sys
                  = bind (or_report (do port <- on_self (allocate_udp env);
                                     ret [("lport", VInt port)]))
                         (fun allocated =>
                            match allocated with
                            | None => ret tt
                            | Some response =>
                              do port_id <- lift (getitem request "port_id");
                              send_response (VDict (dict_set "port_id" port_id response))
                            end) sys).
  { unfold allocate_udp_port. rewrite Hvalid. simpl.
    unfold bind at 1. unfold lift at 1. rewrite (getitem_found _ _ _ Hid).
    unfold bind at 1. rewrite (get_VPCS_instance_found rid k d sys Hkey Hd).
    reflexivity. }
  split; [|split].
  - intros port s1 port_id Halloc Htoken.
    split; [|split].
    + rewrite (allocate_udp_port_runs_udp_pool env request sys rid port_id k d
                 Hvalid Hid Htoken Hkey Hd).
      rewrite Halloc. reflexivity.
    + rewrite allocate_udp_unfold in Halloc.
      destruct (find_unused_port _ _ _ _ _); simpl in Halloc; [|discriminate].
      injection Halloc as _ <-. reflexivity.
    + apply (udp_step_success env (self sys) port s1 Halloc).
  - intros port s1 Halloc Htoken. split.
    + rewrite Hhead. unfold bind at 1. unfold or_report. unfold bind at 1.
      unfold on_self at 1. rewrite Halloc. unfold ret at 1.
      unfold bind, lift, getitem. rewrite Htoken. reflexivity.
    + apply (udp_step_success env (self sys) port s1 Halloc).
  - intros e s1 Halloc.
    destruct (allocate_udp_outcome env (self sys)) as [[port Hok]|[msg Hfail]].
    + rewrite Hok in Halloc. discriminate Halloc.
    + rewrite Hfail in Halloc. injection Halloc as <- <-.
      exists msg. split; [reflexivity|]. split; [|reflexivity].
      rewrite Hhead. unfold bind at 1. unfold or_report. unfold bind at 1.
      unfold on_self at 1. rewrite Hfail. reflexivity.
Qed.

Lemma allocate_udp_port_answers_with_port_and_token_witness :
  allocate_udp_port all_free port_request created
  = (Return tt,
     {| self := set_current_udp_port 30002 (self created); world := world created;
        sent := sent created
                ++ [Response (VDict [("lport", VInt 30001); ("port_id", VInt 7)])] |})
  /\ allocate_udp_port all_free port_request_without_token created
     = (Raise (KeyError "port_id"),
        {| self := set_current_udp_port 30002 (self created); world := world created;
           sent := sent created |}).
Proof.
  assert (Hd : _VPCS_instances (self created) !! 1 = Some device1)
    by (vm_compute; reflexivity).
  assert (Halloc : allocate_udp all_free (self created)
                   = (Return 30001, set_current_udp_port 30002 (self created)))
    by (vm_compute; reflexivity).
  destruct (allocate_udp_port_answers_with_port_and_token all_free port_request created
              (VInt 1) 1 device1 eq_refl eq_refl eq_refl Hd) as (Hok & _ & _).
  destruct (allocate_udp_port_answers_with_port_and_token all_free
              port_request_without_token created
              (VInt 1) 1 device1 eq_refl eq_refl eq_refl Hd) as (_ & Hmissing & _).
  split.
  - exact (proj1 (Hok 30001 _ (VInt 7) Halloc eq_refl)).
  - exact (proj1 (Hmissing 30001 _ Halloc eq_refl)).
Defined.

End DataPortHandler.
